(** * CLOVER, financial impact module: a shallow embedding of
    [src/clover/impact/finance.py] and the properties of its cost functions.

    Conventions of the embedding.
    - Python floats (and numpy's float64) are idealised as real numbers [R];
      Python integers are [Z].
    - A call either returns a value ([Ok]), raises a Python exception
      ([Raise]), or produces a value that is not a finite real number
      (a complex number, an infinity), where the embedding stops
      ([NonReal]).
    - [finance_inputs : Dict[str, Any]] is a [gmap string pyobj]: an entry is
      a number or a nested mapping from keys to numbers.
    - A one-column [pandas.DataFrame] built from a list (labels 0, 1, 2, ...)
      is the list of its values; a cell of a computed frame is an
      [option R], [None] standing for NaN. *)

From Stdlib Require Import ZArith Reals Lra Lia.
From stdpp Require Import base decidable option list gmap strings.
From stdpp Require Import pretty.

Open Scope Z_scope.

(** ** Outcomes of a call *)

Inductive exn : Type :=
  | KeyError (key : string)
  | TypeError
  | AttributeError
  | LookupError
  | ZeroDivisionError
  | InputFileError (input_file : string) (msg : string).

Inductive result (A : Type) : Type :=
  | Ok (a : A)
  | Raise (e : exn)
  | NonReal.

Arguments Ok {A} a.
Arguments Raise {A} e.
Arguments NonReal {A}.

Definition bind {A B : Type} (m : result A) (k : A -> result B) : result B :=
  match m with
  | Ok a => k a
  | Raise e => Raise e
  | NonReal => NonReal
  end.

Notation "x <- m ;; k" := (bind m (fun x => k))
  (at level 100, m at next level, right associativity).
Notation "'check' m ;; k" := (bind m (fun _ => k))
  (at level 100, m at next level, right associativity).

Fixpoint for_each {A B : Type} (f : A -> result B) (l : list A)
  : result (list B) :=
  match l with
  | [] => Ok []
  | a :: l' => b <- f a ;; bs <- for_each f l' ;; Ok (b :: bs)
  end.

Definition returns {A : Type} (m : result A) : Prop := exists a, m = Ok a.

(** ** Python values *)

Inductive num : Type :=
  | Int (z : Z)
  | Float (x : R).

Definition to_R (n : num) : R :=
  match n with
  | Int z => IZR z
  | Float x => x
  end.

Inductive pyobj : Type :=
  | Num (n : num)
  | Dict (d : gmap string num).

(** Positional arguments that one call site fills with a logger and another
    with a number. *)
Inductive arg : Type :=
  | Number (x : R)
  | LoggerObj.

#[global] Instance Req_decision : EqDecision R := Req_dec_T.
#[global] Instance Rlt_decision (x y : R) : Decision (x < y)%R := Rlt_dec x y.
#[global] Instance Rle_decision (x y : R) : Decision (x <= y)%R := Rle_dec x y.

(** [finance_inputs[key]] *)
Definition getitem (finance_inputs : gmap string pyobj) (key : string)
  : result pyobj :=
  match finance_inputs !! key with
  | Some v => Ok v
  | None => Raise (KeyError key)
  end.

(** [entry[key]] on the value of an entry. *)
Definition subscript (entry : pyobj) (key : string) : result num :=
  match entry with
  | Dict d =>
      match d !! key with
      | Some v => Ok v
      | None => Raise (KeyError key)
      end
  | Num _ => Raise TypeError
  end.

(** [finance_inputs[component][key]], used as a float. *)
Definition getitem2 (finance_inputs : gmap string pyobj)
    (component key : string) : result R :=
  entry <- getitem finance_inputs component ;;
  v <- subscript entry key ;;
  Ok (to_R v).

(** [finance_inputs[key]] used as a float in arithmetic. *)
Definition getfloat (finance_inputs : gmap string pyobj) (key : string)
  : result R :=
  entry <- getitem finance_inputs key ;;
  match entry with
  | Num v => Ok (to_R v)
  | Dict _ => Raise TypeError
  end.

(** [a > 0] *)
Definition gt_zero (a : arg) : result bool :=
  match a with
  | Number x => Ok (bool_decide (0 < x)%R)
  | LoggerObj => Raise TypeError
  end.

(** [a] used as a float size. *)
Definition as_float (a : arg) : result R :=
  match a with
  | Number x => Ok x
  | LoggerObj => Raise TypeError
  end.

(** [logger.error(...)] *)
Definition logger_error (logger : arg) : result unit :=
  match logger with
  | LoggerObj => Ok tt
  | Number _ => Raise AttributeError
  end.

(** ** Float arithmetic *)

(** [x ** n] for a Python float [x] and a Python int [n]. *)
Definition float_pow_int (x : R) (n : Z) : result R :=
  if decide (x = 0%R /\ n < 0) then Raise ZeroDivisionError
  else Ok (powerRZ x n).

(** [x ** y] for Python floats. *)
Definition float_pow (x y : R) : result R :=
  if decide (0 < x)%R then Ok (Rpower x y)
  else if decide (x = 0%R) then
    if decide (0 < y)%R then Ok 0%R
    else if decide (y = 0%R) then Ok 1%R
    else Raise ZeroDivisionError
  else if decide (IZR (Int_part y) = y) then Ok (powerRZ x (Int_part y))
  else NonReal.

(** [x ** n] for a Python float [x] and a numpy integer [n]: numpy raises
    nothing and returns an infinity for [0.0 ** -1]. *)
Definition np_float_pow_int (x : R) (n : Z) : result R :=
  if decide (x = 0%R /\ n < 0) then NonReal
  else Ok (powerRZ x n).

(** ** Keywords *)

Definition CONNECTION_COST : string := "connection_cost".
Definition COST : string := "cost".
Definition COSTS : string := "costs".
Definition COST_DECREASE : string := "cost_decrease".
Definition DISCOUNT_RATE : string := "discount_rate".
Definition GENERAL_OM : string := "general_o&m".
Definition INSTALLATION_COST : string := "cost".
Definition INSTALLATION_COST_DECREASE : string := "cost_decrease".
Definition OM : string := "o&m".
Definition LIFETIME : string := "lifetime".
Definition SIZE_INCREMENT : string := "size_increment".

Inductive ImpactingComponent : Type :=
  | BOS | CLEAN_WATER_TANK | DIESEL | DIESEL_FUEL | GENERAL | HOUSEHOLDS
  | HOT_WATER_TANK | INVERTER | MISC | PV | PV_T | STORAGE.

Definition value (c : ImpactingComponent) : string :=
  match c with
  | BOS => "bos"
  | CLEAN_WATER_TANK => "clean_water_tank"
  | DIESEL => "diesel_generator"
  | DIESEL_FUEL => "diesel_fuel"
  | GENERAL => "general"
  | HOUSEHOLDS => "households"
  | HOT_WATER_TANK => "hot_water_tank"
  | INVERTER => "inverter"
  | MISC => "misc"
  | PV => "pv"
  | PV_T => "pv_t"
  | STORAGE => "storage"
  end.

(** ** Helper functions *)

Definition _component_cost (component_cost component_cost_decrease
    component_size : R) (installation_year : Z) : result R :=
  let system_wide_cost := (component_cost * component_size)%R in
  let annual_reduction := (0.01 * component_cost_decrease)%R in
  p <- float_pow_int (1 - annual_reduction)%R installation_year ;;
  Ok (system_wide_cost * p)%R.

Definition _component_installation_cost (component_size installation_cost
    installation_cost_decrease : R) (installation_year : Z) : result R :=
  let total_component_installation_cost :=
    (component_size * installation_cost)%R in
  let annual_reduction := (0.01 * installation_cost_decrease)%R in
  p <- float_pow_int (1.0 - annual_reduction)%R installation_year ;;
  Ok (total_component_installation_cost * p)%R.

Definition _misc_costs (diesel_size misc_costs pv_array_size : R) : R :=
  ((pv_array_size + diesel_size) * misc_costs)%R.

(** [key in finance_inputs] *)
Definition contains (finance_inputs : gmap string pyobj) (key : string)
  : bool :=
  match finance_inputs !! key with
  | Some _ => true
  | None => false
  end.

(** The guard [key not in finance_inputs and size > 0], which logs and raises
    [InputFileError]; [size > 0] is evaluated only when the key is absent. *)
Definition require_inputs (finance_inputs : gmap string pyobj)
    (key : string) (size logger : arg) (input_file msg : string)
  : result unit :=
  if contains finance_inputs key then Ok tt
  else
    positive <- gt_zero size ;;
    if positive : bool then
      check logger_error logger ;;
      Raise (InputFileError input_file msg)
    else Ok tt.

(** ** Externally facing functions *)

(** The local variables of [get_total_equipment_cost] at its [return]. *)
Record equipment_costs : Type := {
  bos_cost : R;
  clean_water_tank_cost : R;
  clean_water_tank_installation_cost : R;
  diesel_cost : R;
  diesel_installation_cost : R;
  hot_water_tank_cost : R;
  hot_water_tank_installation_cost : R;
  pv_cost : R;
  pv_installation_cost : R;
  pvt_cost : R;
  pvt_installation_cost : R;
  storage_cost : R;
  misc_costs : R
}.

(** The body of [get_total_equipment_cost] up to its [return]. *)
Definition equipment_cost_terms (clean_water_tanks diesel_size : R)
    (finance_inputs : gmap string pyobj) (hot_water_tanks logger : arg)
    (pv_array_size pvt_array_size storage_size : R) (installation_year : Z)
  : result equipment_costs :=
  (* Calculate the various system costs. *)
  c <- getitem2 finance_inputs (value BOS) COST ;;
  d <- getitem2 finance_inputs (value BOS) COST_DECREASE ;;
  bos_cost <- _component_cost c d pv_array_size installation_year ;;
  check require_inputs finance_inputs (value CLEAN_WATER_TANK)
    (Number clean_water_tanks) logger "finance inputs"
    "No clean-water financial input information provided and a non-zero number of clean-water tanks are being considered." ;;
  clean_water_tank <-
    (if bool_decide (0 < clean_water_tanks)%R then
       c <- getitem2 finance_inputs (value CLEAN_WATER_TANK) COST ;;
       d <- getitem2 finance_inputs (value CLEAN_WATER_TANK) COST_DECREASE ;;
       cost <- _component_cost c d clean_water_tanks installation_year ;;
       ic <- getitem2 finance_inputs (value CLEAN_WATER_TANK)
               INSTALLATION_COST ;;
       id <- getitem2 finance_inputs (value CLEAN_WATER_TANK)
               INSTALLATION_COST_DECREASE ;;
       installation <- _component_installation_cost clean_water_tanks ic id
                         installation_year ;;
       Ok (cost, installation)
     else Ok (0%R, 0%R)) ;;
  let '(clean_water_tank_cost, clean_water_tank_installation_cost) :=
    clean_water_tank in
  c <- getitem2 finance_inputs (value DIESEL) COST ;;
  d <- getitem2 finance_inputs (value DIESEL) COST_DECREASE ;;
  diesel_cost <- _component_cost c d diesel_size installation_year ;;
  ic <- getitem2 finance_inputs (value DIESEL) INSTALLATION_COST ;;
  id <- getitem2 finance_inputs (value DIESEL) INSTALLATION_COST_DECREASE ;;
  diesel_installation_cost <-
    _component_installation_cost pv_array_size ic id installation_year ;;
  check require_inputs finance_inputs (value HOT_WATER_TANK)
    hot_water_tanks logger "tank inputs"
    "No hot-water financial input information provided and a non-zero number of clean-water tanks are being considered." ;;
  hot_positive <- gt_zero hot_water_tanks ;;
  hot_water_tank <-
    (if hot_positive : bool then
       c <- getitem2 finance_inputs (value HOT_WATER_TANK) COST ;;
       d <- getitem2 finance_inputs (value HOT_WATER_TANK) COST_DECREASE ;;
       size <- as_float hot_water_tanks ;;
       cost <- _component_cost c d size installation_year ;;
       ic <- getitem2 finance_inputs (value HOT_WATER_TANK)
               INSTALLATION_COST ;;
       id <- getitem2 finance_inputs (value HOT_WATER_TANK)
               INSTALLATION_COST_DECREASE ;;
       installation <- _component_installation_cost size ic id
                         installation_year ;;
       Ok (cost, installation)
     else Ok (0%R, 0%R)) ;;
  let '(hot_water_tank_cost, hot_water_tank_installation_cost) :=
    hot_water_tank in
  c <- getitem2 finance_inputs (value PV) COST ;;
  d <- getitem2 finance_inputs (value PV) COST_DECREASE ;;
  pv_cost <- _component_cost c d pv_array_size installation_year ;;
  ic <- getitem2 finance_inputs (value PV) INSTALLATION_COST ;;
  id <- getitem2 finance_inputs (value PV) INSTALLATION_COST_DECREASE ;;
  pv_installation_cost <-
    _component_installation_cost pv_array_size ic id installation_year ;;
  check require_inputs finance_inputs (value PV_T)
    (Number pvt_array_size) logger "finance inputs"
    "No PV-T financial input information provided and a non-zero number of PV-Tpanels are being considered." ;;
  pvt <-
    (if bool_decide (0 < pvt_array_size)%R then
       c <- getitem2 finance_inputs (value PV_T) COST ;;
       d <- getitem2 finance_inputs (value PV_T) COST_DECREASE ;;
       cost <- _component_cost c d pv_array_size installation_year ;;
       ic <- getitem2 finance_inputs (value PV_T) INSTALLATION_COST ;;
       id <- getitem2 finance_inputs (value PV_T)
               INSTALLATION_COST_DECREASE ;;
       installation <- _component_installation_cost pvt_array_size ic id
                         installation_year ;;
       Ok (cost, installation)
     else Ok (0%R, 0%R)) ;;
  let '(pvt_cost, pvt_installation_cost) := pvt in
  c <- getitem2 finance_inputs (value STORAGE) COST ;;
  d <- getitem2 finance_inputs (value STORAGE) COST_DECREASE ;;
  storage_cost <- _component_cost c d storage_size installation_year ;;
  m <- getitem2 finance_inputs (value MISC) COST ;;
  let misc_costs := _misc_costs diesel_size m pv_array_size in
  Ok {| bos_cost := bos_cost;
        clean_water_tank_cost := clean_water_tank_cost;
        clean_water_tank_installation_cost :=
          clean_water_tank_installation_cost;
        diesel_cost := diesel_cost;
        diesel_installation_cost := diesel_installation_cost;
        hot_water_tank_cost := hot_water_tank_cost;
        hot_water_tank_installation_cost := hot_water_tank_installation_cost;
        pv_cost := pv_cost;
        pv_installation_cost := pv_installation_cost;
        pvt_cost := pvt_cost;
        pvt_installation_cost := pvt_installation_cost;
        storage_cost := storage_cost;
        misc_costs := misc_costs |}.

Definition get_total_equipment_cost (clean_water_tanks diesel_size : R)
    (finance_inputs : gmap string pyobj) (hot_water_tanks logger : arg)
    (pv_array_size pvt_array_size storage_size : R) (installation_year : Z)
  : result R :=
  t <- equipment_cost_terms clean_water_tanks diesel_size finance_inputs
         hot_water_tanks logger pv_array_size pvt_array_size storage_size
         installation_year ;;
  let total_installation_cost :=
    (clean_water_tank_installation_cost t
     + diesel_installation_cost t
     + hot_water_tank_installation_cost t
     + pv_installation_cost t
     + pvt_installation_cost t)%R in
  Ok (bos_cost t
      + clean_water_tank_cost t
      + diesel_cost t
      + hot_water_tank_cost t
      + misc_costs t
      + pv_cost t
      + pvt_cost t
      + storage_cost t
      + total_installation_cost)%R.

Definition discounted_equipment_cost (clean_water_tanks diesel_size : R)
    (finance_inputs : gmap string pyobj) (logger : arg)
    (pv_array_size pvt_array_size storage_size : R) (installation_year : Z)
  : result R :=
  (* The eight arguments are passed by position; the ninth parameter of
     get_total_equipment_cost takes its default, 0. *)
  undiscounted_cost <-
    get_total_equipment_cost
      clean_water_tanks
      diesel_size
      finance_inputs
      logger
      (Number pv_array_size)
      pvt_array_size
      storage_size
      (IZR installation_year)
      0 ;;
  r <- getfloat finance_inputs DISCOUNT_RATE ;;
  discount_fraction <- float_pow_int (1.0 - r)%R installation_year ;;
  Ok (undiscounted_cost * discount_fraction)%R.

(** ** Discounting *)

(** [range(start, stop)] *)
Definition py_range (start stop : Z) : list Z := seqZ start (stop - start).

(** [l * n] for a Python list [l] and an int [n]. *)
Definition list_times {A : Type} (l : list A) (n : Z) : list A :=
  concat (replicate (Z.to_nat n) l).

Definition _daily_discount_rate (discount_rate : R) : result R :=
  p <- float_pow (1.0 + discount_rate)%R (1.0 / 365.0)%R ;;
  Ok (p - 1.0)%R.

Definition _discounted_fraction (discount_rate : R) (start_year end_year : Z)
  : result (list R) :=
  (* Intialise various variables. *)
  let start_day := start_year * 365 in
  let end_day := end_year * 365 in
  (* Convert the discount rate into the denominator. *)
  match _daily_discount_rate discount_rate with
  | Ok r_d =>
      let denominator := (1.0 + r_d)%R in
      (* Compute a list containing all the discounted fractions over the
         time period. *)
      for_each (fun time => float_pow_int denominator (- time))
               (py_range start_day end_day)
  | NonReal =>
      (* A complex daily rate raises nothing: the denominator is complex,
         and so is every fraction of the list. *)
      for_each (fun _ => NonReal) (py_range start_day end_day)
  | Raise e => Raise e
  end.

(** [a * b] for two one-column frames: pandas aligns the rows on their
    labels, and a label present in one frame only gives NaN. *)
Fixpoint frame_mul (a b : list R) : list (option R) :=
  match a, b with
  | x :: a', y :: b' => Some (x * y)%R :: frame_mul a' b'
  | [], _ => map (fun _ => None) b
  | _, [] => map (fun _ => None) a
  end.

(** The sum of a column, NaN cells skipped. *)
Fixpoint sum_skipna (cells : list (option R)) : R :=
  match cells with
  | [] => 0%R
  | Some x :: cells' => (x + sum_skipna cells')%R
  | None :: cells' => sum_skipna cells'
  end.

(** [np.sum(frame)[0]]: the sum of column 0; a frame built from two empty
    lists has no column, and the lookup of column 0 fails. *)
Definition np_sum_0 (frame : list (option R)) : result R :=
  match frame with
  | [] => Raise LookupError
  | _ => Ok (sum_skipna frame)
  end.

Definition discounted_energy_total (finance_inputs : gmap string pyobj)
    (logger : arg) (total_daily : list R) (start_year end_year : Z)
  : result R :=
  discount_rate <-
    match finance_inputs !! DISCOUNT_RATE with
    | Some v => Ok v
    | None => check logger_error logger ;; Raise (KeyError DISCOUNT_RATE)
    end ;;
  rate <- match discount_rate with
          | Num v => Ok (to_R v)
          | Dict _ => Raise TypeError
          end ;;
  discounted_fraction <- _discounted_fraction rate start_year end_year ;;
  let discounted_energy := frame_mul discounted_fraction total_daily in
  np_sum_0 discounted_energy.

Definition _component_om (component_om_cost component_size : R)
    (finance_inputs : gmap string pyobj) (logger : arg)
    (start_year end_year : Z) : result R :=
  let om_cost_daily := ((component_size * component_om_cost) / 365)%R in
  let total_daily_cost :=
    list_times (list_times [om_cost_daily] (end_year - start_year)) 265 in
  discounted_energy_total finance_inputs logger total_daily_cost
    start_year end_year.

Definition total_om (clean_water_tanks diesel_size : R)
    (finance_inputs : gmap string pyobj) (hot_water_tanks : R) (logger : arg)
    (pv_array_size pvt_array_size storage_size : R) (start_year end_year : Z)
  : result R :=
  check require_inputs finance_inputs (value CLEAN_WATER_TANK)
    (Number clean_water_tanks) logger "tank inputs"
    "No clean-water tank financial input information provided and a non-zero number of clean-water tanks are being considered." ;;
  clean_water_tank_om <-
    (if bool_decide (0 < clean_water_tanks)%R then
       om <- getitem2 finance_inputs (value CLEAN_WATER_TANK) OM ;;
       _component_om om clean_water_tanks finance_inputs logger
         start_year end_year
     else Ok 0%R) ;;
  om <- getitem2 finance_inputs (value DIESEL) OM ;;
  diesel_om <- _component_om om diesel_size finance_inputs logger
                 start_year end_year ;;
  om <- getfloat finance_inputs GENERAL_OM ;;
  general_om <- _component_om om 1 finance_inputs logger
                  start_year end_year ;;
  check require_inputs finance_inputs (value HOT_WATER_TANK)
    (Number hot_water_tanks) logger "tank inputs"
    "No hot-water tank financial input information provided and a non-zero number of clean-water tanks are being considered." ;;
  hot_water_tank_om <-
    (if bool_decide (0 < hot_water_tanks)%R then
       om <- getitem2 finance_inputs (value HOT_WATER_TANK) OM ;;
       _component_om om hot_water_tanks finance_inputs logger
         start_year end_year
     else Ok 0%R) ;;
  om <- getitem2 finance_inputs (value PV) OM ;;
  pv_om <- _component_om om pv_array_size finance_inputs logger
             start_year end_year ;;
  check require_inputs finance_inputs (value PV_T)
    (Number pvt_array_size) logger "finance inputs"
    "No PV-T financial input information provided and a non-zero number of PV-Tpanels are being considered." ;;
  pvt_om <-
    (if bool_decide (0 < pvt_array_size)%R then
       om <- getitem2 finance_inputs (value PV_T) OM ;;
       _component_om om pvt_array_size finance_inputs logger
         start_year end_year
     else Ok 0%R) ;;
  om <- getitem2 finance_inputs (value STORAGE) OM ;;
  storage_om <- _component_om om storage_size finance_inputs logger
                  start_year end_year ;;
  Ok (clean_water_tank_om
      + diesel_om
      + general_om
      + hot_water_tank_om
      + pv_om
      + pvt_om
      + storage_om)%R.

(** ** Connections and inverters *)

(** [np.max] and [np.min] of a one-column frame; a frame built from an empty
    list has no column and gives an empty result. *)
Definition frame_max (frame : list R) : option R :=
  match frame with
  | [] => None
  | x :: frame' => Some (foldl Rmax x frame')
  end.

Definition frame_min (frame : list R) : option R :=
  match frame with
  | [] => None
  | x :: frame' => Some (foldl Rmin x frame')
  end.

Definition connections_expenditure (finance_inputs : gmap string pyobj)
    (households : list R) (installation_year : Z) : result R :=
  let new_connections :=
    match frame_max households, frame_min households with
    | Some hi, Some lo => Some (hi - lo)%R
    | _, _ => None
    end in
  c <- getitem2 finance_inputs (value HOUSEHOLDS) CONNECTION_COST ;;
  undiscounted_cost <-
    match new_connections with
    | Some n => Ok (c * n)%R
    | None => Raise TypeError
    end ;;
  r <- getfloat finance_inputs DISCOUNT_RATE ;;
  discount_fraction <- float_pow_int (1.0 - r)%R installation_year ;;
  let total_discounted_cost := (undiscounted_cost * discount_fraction)%R in
  Ok total_discounted_cost.

(** The part of [Location] that the finance module reads. *)
Record Location : Type := { max_years : Z }.

(** [np.ceil] *)
Definition np_ceil (x : R) : R := IZR (1 - up (- x)).

(** [np.rint]: to the nearest integer, a tie to the even one. *)
Definition np_rint (x : R) : R :=
  let f := Int_part x in
  let d := (x - IZR f)%R in
  if decide (d < 1 / 2)%R then IZR f
  else if decide (1 / 2 < d)%R then IZR (f + 1)
  else if Z.even f then IZR f else IZR (f + 1).

(** [x.round(2)] *)
Definition np_round2 (x : R) : R := (np_rint (x * 100) / 100)%R.

(** [np.arange(0, stop, step)] on integers. *)
Definition np_arange (stop step : Z) : result (list Z) :=
  if decide (step = 0) then Raise ZeroDivisionError
  else Ok (map (fun k => k * step) (seqZ 0 (- ((- stop) `div` step)))).

(** [np.arange(0, stop, step)] with a float step. *)
Definition np_arange_float (stop : Z) (step : R) : result (list R) :=
  if decide (step = 0%R) then Raise ZeroDivisionError
  else Ok (map (fun k => (IZR k * step)%R)
               (seqZ 0 (1 - up (- (IZR stop / step))))).

(** [l[start:stop]] *)
Definition py_slice {A : Type} (l : list A) (start stop : Z) : list A :=
  let n := Z.of_nat (length l) in
  let norm := fun i => if i <? 0 then Z.max 0 (i + n) else Z.min i n in
  take (Z.to_nat (norm stop - norm start)) (drop (Z.to_nat (norm start)) l).

(** The size of the inverter installed in [year], one turn of the sizing
    loop: the peak load of the following [replacement_period] years, rounded
    up to the size increment. The maximum of an interval with a row is a
    NumPy float: its division by 0 raises nothing, and the product of the
    result with 0 is NaN. The maximum of an interval with no row is the
    Python float [nan]: the size is NaN, and the division by 0 raises
    [ZeroDivisionError]. *)
Definition inverter_size_interval (maximum : list R)
    (replacement_period : Z) (inverter_step : R) (year : Z)
  : result (option R) :=
  let start := year in
  let end_ := start + replacement_period in
  match frame_max (py_slice maximum start end_) with
  | Some max_power_interval =>
      if decide (inverter_step = 0%R) then Ok None
      else Ok (Some (np_ceil (0.001 * max_power_interval / inverter_step)
                     * inverter_step)%R)
  | None =>
      if decide (inverter_step = 0%R) then Raise ZeroDivisionError
      else Ok None
  end.

Definition _inverter_expenditure (finance_inputs : gmap string pyobj)
    (location : Location) (yearly_load_statistics : list R)
    (start_year end_year : Z) : result R :=
  (* Initialise inverter replacement periods *)
  inverter <- getitem finance_inputs (value INVERTER) ;;
  replacement_period <- subscript inverter LIFETIME ;;
  match replacement_period with
  | Float step =>
      replacement_intervals <- np_arange_float (max_years location) step ;;
      if bool_decide
           (filter (fun y => Exists (fun t => IZR t = y)
                               (py_range start_year end_year))
                   replacement_intervals = [])
      then Ok 0%R
      else
        (* Initialise inverter sizing calculation *)
        inverter_step <-
          getitem2 finance_inputs (value INVERTER) SIZE_INCREMENT ;;
        (* The first turn of the loop slices the load table with float
           bounds. *)
        Raise TypeError
  | Int replacement_period =>
      replacement_intervals <-
        np_arange (max_years location) replacement_period ;;
      (* Check if inverter should be replaced in the specified time
         interval *)
      if bool_decide
           (filter (fun y => y ∈ py_range start_year end_year)
                   replacement_intervals = [])
      then Ok 0%R
      else
        (* Initialise inverter sizing calculation *)
        inverter_step <-
          getitem2 finance_inputs (value INVERTER) SIZE_INCREMENT ;;
        inverter_size <-
          for_each (inverter_size_interval yearly_load_statistics
                      replacement_period inverter_step)
                   replacement_intervals ;;
        (* Calculate *)
        discount_rate <-
          for_each (fun year =>
                      r <- getfloat finance_inputs DISCOUNT_RATE ;;
                      np_float_pow_int (1 - r)%R year)
                   replacement_intervals ;;
        inverter_cost <-
          for_each (fun year =>
                      c <- getitem2 finance_inputs (value INVERTER) COST ;;
                      d <- getitem2 finance_inputs (value INVERTER)
                             COST_DECREASE ;;
                      p <- np_float_pow_int (1 - 0.01 * d)%R year ;;
                      Ok (c * p)%R)
                   replacement_intervals ;;
        let discounted_expenditure :=
          zip_with (fun rate size_cost =>
                      match size_cost with
                      | (Some size, cost) => Some (rate * size * cost)%R
                      | (None, _) => None
                      end)
                   discount_rate (zip inverter_size inverter_cost) in
        let selected :=
          filter (fun row => row.1 ∈ py_range start_year end_year)
                 (zip replacement_intervals discounted_expenditure) in
        let inverter_discounted_cost :=
          np_round2 (sum_skipna (map snd selected)) in
        Ok inverter_discounted_cost
  end.

Definition independent_expenditure (finance_inputs : gmap string pyobj)
    (location : Location) (yearly_load_statistics : list R)
    (start_year end_year : Z) : result R :=
  inverter_expenditure <-
    _inverter_expenditure finance_inputs location yearly_load_statistics
      start_year end_year ;;
  let total_expenditure := inverter_expenditure in
  Ok total_expenditure.

(** ** Definitions used in the statements *)

(** The denominator of the daily fractions, [(1 + r) ** (1 / 365)]. *)
Definition daily_factor (discount_rate : R) : R :=
  Rpower (1 + discount_rate) (1 / 365).

(** The sum of a list of floats. *)
Definition Rsum (l : list R) : R := foldr Rplus 0%R l.

(** Finance inputs that hold nothing but a discount rate. *)
Definition only_discount_rate (rate : R) : gmap string pyobj :=
  {[ DISCOUNT_RATE := Num (Float rate) ]}.

(** The finance inputs of the connection-cost scenario. *)
Definition scenario_inputs : gmap string pyobj :=
  {[ value HOUSEHOLDS := Dict {[ CONNECTION_COST := Int 50 ]};
     DISCOUNT_RATE := Num (Float 0.1) ]}.

(** The discounted expenditure of the replacement installed in [year]; NaN
    when the size of the inverter is. *)
Definition replacement_expenditure (maximum : list R)
    (replacement_period : Z) (inverter_step discount_rate cost
    cost_decrease : R) (year : Z) : option R :=
  match inverter_size_interval maximum replacement_period inverter_step
          year with
  | Ok (Some size) =>
      Some (powerRZ (1 - discount_rate) year * size
            * (cost * powerRZ (1 - 0.01 * cost_decrease) year))%R
  | _ => None
  end.

(** The finance inputs of the inverter scenario: a lifetime of 10 years. *)
Definition inverter_scenario_inputs : gmap string pyobj :=
  {[ value INVERTER :=
       Dict {[ LIFETIME := Int 10; SIZE_INCREMENT := Int 1;
               COST := Int 200; COST_DECREASE := Int 2 ]};
     DISCOUNT_RATE := Num (Float 0.1) ]}.

(** The unit costs that the finance inputs hold for a component. *)
Record component_costs : Type := {
  unit_cost : R;
  cost_decrease_pct : R;
  install_unit_cost : R;
  install_cost_decrease_pct : R
}.

(** The finance inputs hold the costs [p] for [component]. *)
Definition has_costs (finance_inputs : gmap string pyobj)
    (component : ImpactingComponent) (p : component_costs) : Prop :=
  getitem2 finance_inputs (value component) COST = Ok (unit_cost p) /\
  getitem2 finance_inputs (value component) COST_DECREASE
  = Ok (cost_decrease_pct p) /\
  getitem2 finance_inputs (value component) INSTALLATION_COST
  = Ok (install_unit_cost p) /\
  getitem2 finance_inputs (value component) INSTALLATION_COST_DECREASE
  = Ok (install_cost_decrease_pct p).

(** The cost formulas of the specification:
    [size * unit_cost * (1 - 0.01 * cost_decrease_pct) ^ installation_year]
    and the same with the installation costs. *)
Definition capital_cost (unit_cost cost_decrease_pct size : R)
    (installation_year : Z) : R :=
  (size * unit_cost
   * powerRZ (1 - 0.01 * cost_decrease_pct) installation_year)%R.

Definition installation_cost (size install_unit_cost
    install_cost_decrease_pct : R) (installation_year : Z) : R :=
  (size * install_unit_cost
   * powerRZ (1 - 0.01 * install_cost_decrease_pct) installation_year)%R.

Definition capital (p : component_costs) (size : R) (year : Z) : R :=
  capital_cost (unit_cost p) (cost_decrease_pct p) size year.

Definition installation (p : component_costs) (size : R) (year : Z) : R :=
  installation_cost size (install_unit_cost p) (install_cost_decrease_pct p)
    year.

(** The contribution of a component that is present when its size is
    positive. *)
Definition when_present (size x : R) : R :=
  if bool_decide (0 < size)%R then x else 0%R.

(** The total of the specification: capital and installation cost of every
    present component, each from its own size, and the miscellaneous
    surcharge. The balance of system has no size among the arguments; it is
    given the size of the PV array, as in the code. *)
Definition spec_total_equipment_cost
    (costs : ImpactingComponent -> component_costs) (misc_cost : R)
    (clean_water_tanks diesel_size hot_water_tanks pv_array_size
     pvt_array_size storage_size : R) (installation_year : Z) : R :=
  (capital (costs BOS) pv_array_size installation_year
   + installation (costs BOS) pv_array_size installation_year
   + (capital (costs DIESEL) diesel_size installation_year
      + installation (costs DIESEL) diesel_size installation_year)
   + (capital (costs PV) pv_array_size installation_year
      + installation (costs PV) pv_array_size installation_year)
   + when_present pvt_array_size
       (capital (costs PV_T) pvt_array_size installation_year
        + installation (costs PV_T) pvt_array_size installation_year)
   + (capital (costs STORAGE) storage_size installation_year
      + installation (costs STORAGE) storage_size installation_year)
   + when_present clean_water_tanks
       (capital (costs CLEAN_WATER_TANK) clean_water_tanks installation_year
        + installation (costs CLEAN_WATER_TANK) clean_water_tanks
            installation_year)
   + when_present hot_water_tanks
       (capital (costs HOT_WATER_TANK) hot_water_tanks installation_year
        + installation (costs HOT_WATER_TANK) hot_water_tanks
            installation_year)
   + (pv_array_size + diesel_size) * misc_cost)%R.

(** The sum that [get_total_equipment_cost] returns, over its terms. *)
Definition sum_of_terms (t : equipment_costs) : R :=
  (bos_cost t + clean_water_tank_cost t + diesel_cost t
   + hot_water_tank_cost t + misc_costs t + pv_cost t + pvt_cost t
   + storage_cost t
   + (clean_water_tank_installation_cost t + diesel_installation_cost t
      + hot_water_tank_installation_cost t + pv_installation_cost t
      + pvt_installation_cost t))%R.

(** An entry of a component with its cost, cost decrease and O&M cost. *)
Definition priced (cost decrease om : Z) : pyobj :=
  Dict {[ COST := Int cost; COST_DECREASE := Int decrease; OM := Int om ]}.

(** Finance inputs with every entry that is read whatever the sizes, and
    none of the optional ones. *)
Definition complete_inputs : gmap string pyobj :=
  {[ value BOS := priced 100 2 1;
     value DIESEL := priced 200 1 5;
     value PV := priced 500 3 2;
     value STORAGE := priced 400 4 3;
     value MISC := priced 10 0 0;
     DISCOUNT_RATE := Num (Float 0.1);
     GENERAL_OM := Num (Int 50) ]}.

Definition complete_costs (c : ImpactingComponent) : component_costs :=
  match c with
  | BOS => {| unit_cost := 100; cost_decrease_pct := 2;
              install_unit_cost := 100; install_cost_decrease_pct := 2 |}
  | DIESEL => {| unit_cost := 200; cost_decrease_pct := 1;
                 install_unit_cost := 200; install_cost_decrease_pct := 1 |}
  | PV => {| unit_cost := 500; cost_decrease_pct := 3;
             install_unit_cost := 500; install_cost_decrease_pct := 3 |}
  | STORAGE => {| unit_cost := 400; cost_decrease_pct := 4;
                  install_unit_cost := 400; install_cost_decrease_pct := 4 |}
  | _ => {| unit_cost := 0; cost_decrease_pct := 0;
            install_unit_cost := 0; install_cost_decrease_pct := 0 |}
  end.

(** The entries that [get_total_equipment_cost] and [total_om] read whatever
    the sizes, in the order of their first reading. *)
Definition equipment_keys : list string :=
  [value BOS; value DIESEL; value PV; value STORAGE; value MISC].

Definition om_keys : list string :=
  [value DIESEL; GENERAL_OM; value PV; value STORAGE].

(** An entry of a component that holds a cost, a cost decrease and an O&M
    cost. *)
Definition well_formed_entry (entry : pyobj) : Prop :=
  exists d c cd om,
    entry = Dict d /\ d !! COST = Some c /\ d !! COST_DECREASE = Some cd /\
    d !! OM = Some om.

(** Every entry that is present is well formed: the entries of components
    are mappings with their costs, the general O&M cost is a number, and the
    discount rate is a number above -1. *)
Definition present_entries_well_formed (finance_inputs : gmap string pyobj)
  : Prop :=
  (forall (c : ImpactingComponent) entry,
     finance_inputs !! value c = Some entry -> well_formed_entry entry) /\
  (forall entry,
     finance_inputs !! GENERAL_OM = Some entry -> exists v, entry = Num v) /\
  (exists rate,
     finance_inputs !! DISCOUNT_RATE = Some (Num rate) /\ (-1 < to_R rate)%R).

(** The complete finance inputs with a PV-T entry, and their costs. *)
Definition inputs_with_pvt : gmap string pyobj :=
  <[value PV_T := priced 300 0 0]> complete_inputs.

Definition costs_with_pvt (c : ImpactingComponent) : component_costs :=
  match c with
  | PV_T => {| unit_cost := 300; cost_decrease_pct := 0;
               install_unit_cost := 300; install_cost_decrease_pct := 0 |}
  | _ => complete_costs c
  end.

(** ** Definitions used in the further statements *)

(** The factor by which [_component_om] multiplies a yearly O&M cost: the
    sum of the discount fractions of the first
    [(end_year - start_year) * 265] days of the window, over 365. *)
Definition om_discount_sum (discount_rate : R) (start_year end_year : Z)
  : R :=
  (Rsum (map (fun t => powerRZ (daily_factor discount_rate) (- t))
             (py_range (start_year * 365)
                (start_year * 365 + (end_year - start_year) * 265)))
   / 365)%R.

(** * The profile-generation utilities, [src/clover/generation/__utils__.py]

    A frame read from renewables.ninja or from a CSV file is the list of its
    rows, of any type [A]; a file holds the frame that reading it gives. *)

(** ** Outcomes of a call *)

Inductive generation_error : Type :=
  | FileNotFoundError (path : string)
  | LabelsNotFound          (* the [KeyError] of [DataFrame.drop] *)
  | RenewablesNinjaError.

Inductive fetched (A : Type) : Type :=
  | Fetched (a : A)
  | Failed (e : generation_error).

Arguments Fetched {A} a.
Arguments Failed {A} e.

(** [FEB_29] *)
Definition FEB_29 : Z := (31 + 28) * 24.

(** [round(x)] on a float: to the nearest integer, a tie to the even one. *)
Definition py_round (x : R) : Z :=
  let f := Int_part x in
  let d := (x - IZR f)%R in
  if decide (d < 1 / 2)%R then f
  else if decide (1 / 2 < d)%R then f + 1
  else if Z.even f then f else f + 1.

(** [np.split(frame, [index])]: the rows before [index] and the rows from
    [index] on, [index] read as a slice bound. *)
Definition np_split {A : Type} (frame : list A) (index : Z)
  : list A * list A :=
  (py_slice frame 0 index, py_slice frame index (Z.of_nat (length frame))).

Definition _get_profile_local_time {A : Type} (data_utc : list A)
    (time_difference : R) : list A :=
  (* Round time difference to nearest hour *)
  let time_difference := py_round time_difference in
  (* East of Greenwich *)
  if 0 <? time_difference then
    let splits := np_split data_utc
                    (Z.of_nat (length data_utc) - time_difference) in
    splits.2 ++ splits.1
  (* West of Greenwich *)
  else if time_difference <? 0 then
    let splits := np_split data_utc (Z.abs time_difference) in
    splits.2 ++ splits.1
  (* No time difference, included for completeness *)
  else data_utc.

(** [frame.drop(list(range(start, stop)))] followed by
    [reset_index(drop=True)]: the rows whose labels are not in the range;
    [KeyError] when a label of the range is not one of the frame. *)
Definition drop_labels {A : Type} (frame : list A) (start stop : Z)
  : fetched (list A) :=
  if bool_decide (Forall (fun label => 0 <= label < Z.of_nat (length frame))
                    (py_range start stop))
  then Fetched (take (Z.to_nat start) frame ++ drop (Z.to_nat stop) frame)
  else Failed LabelsNotFound.

(** [_get_profile_from_rn], from the response of renewables.ninja on: the
    argument [response] is [None] when the text of the response is not JSON,
    and the rows of its data otherwise. *)
Definition _get_profile_from_rn {A : Type} (response : option (list A))
    (year : Z) : fetched (list A) :=
  match response with
  | None => Failed RenewablesNinjaError
  | Some data_frame =>
      (* Remove leap days *)
      if year `mod` 4 =? 0 then drop_labels data_frame FEB_29 (FEB_29 + 24)
      else Fetched data_frame
  end.

(** [_get_profile_output], with the response of renewables.ninja and the
    time difference of the location as arguments. *)
Definition _get_profile_output {A : Type} (time_difference : R)
    (response : option (list A)) (gen_year : Z) : fetched (list A) :=
  match _get_profile_from_rn response gen_year with
  | Fetched data_utc =>
      Fetched (_get_profile_local_time data_utc time_difference)
  | Failed e => Failed e
  end.

(** ** Files *)

(** [b.startswith("/")] and [a.endswith("/")] *)
Definition starts_with_sep (b : string) : bool :=
  match b with
  | String c _ => bool_decide (String c EmptyString = "/")
  | EmptyString => false
  end.

Fixpoint ends_with_sep (a : string) : bool :=
  match a with
  | EmptyString => false
  | String c EmptyString => bool_decide (String c EmptyString = "/")
  | String _ a' => ends_with_sep a'
  end.

(** [os.path.join(a, b)], with POSIX paths. *)
Definition path_join (a b : string) : string :=
  if starts_with_sep b then b
  else if bool_decide (a = "") || ends_with_sep a then a +:+ b
  else a +:+ "/" +:+ b.

(** The file of the profile of one year and the file of the total profile. *)
Definition yearly_filename (generation_directory profile_prefix
    profile_name : string) (year : Z) : string :=
  path_join generation_directory
    (profile_prefix +:+ profile_name +:+ "_generation_" +:+ pretty year
     +:+ ".csv").

Definition total_filename (generation_directory profile_prefix
    profile_name : string) (num_years : Z) : string :=
  path_join generation_directory
    (profile_prefix +:+ profile_name +:+ "_generation_" +:+ pretty num_years
     +:+ "_years.csv").

(** [pd.read_csv] on an opened file: the files are a map from paths to
    frames, and opening a path that is not a file raises
    [FileNotFoundError]. *)
Definition read_csv {A : Type} (files : gmap string (list A))
    (path : string) : fetched (list A) :=
  match files !! path with
  | Some frame => Fetched frame
  | None => Failed (FileNotFoundError path)
  end.

(** The loop that reads the years and adds them to [output]. *)
Fixpoint read_years {A : Type} (files : gmap string (list A))
    (generation_directory profile_prefix profile_name : string)
    (start_year : Z) (year_indices : list Z) (output : list A)
  : fetched (list A) :=
  match year_indices with
  | [] => Fetched output
  | year_index :: rest =>
      let iteration_year := start_year + year_index in
      match read_csv files
              (yearly_filename generation_directory profile_prefix
                 profile_name iteration_year) with
      | Fetched iteration_year_data =>
          read_years files generation_directory profile_prefix profile_name
            start_year rest (output ++ iteration_year_data)
      | Failed e => Failed e
      end
  end.

(** [total_profile_output]: its outcome and the files after the call. *)
Definition total_profile_output {A : Type} (files : gmap string (list A))
    (generation_directory : string) (regenerate : bool)
    (start_year num_years : Z) (profile_name profile_prefix : string)
  : fetched (list A) * gmap string (list A) :=
  let output := [] in
  let total_output_filename :=
    total_filename generation_directory profile_prefix profile_name
      num_years in
  (* If the total output file already exists then simply read this in. *)
  if bool_decide (is_Some (files !! total_output_filename))
     && negb regenerate
  then (read_csv files total_output_filename, files)
  else
    (* Get data for each year using iteration, and add that data to the
       output file *)
    match read_years files generation_directory profile_prefix profile_name
            start_year (py_range 0 (Z.min 10 num_years)) output with
    | Failed e => (Failed e, files)
    | Fetched output =>
        (* Repeat the initial data in consecutive periods *)
        let total_output := list_times output (- ((- num_years) `div` 10)) in
        (Fetched total_output,
         <[total_output_filename := total_output]> files)
    end.

(** * Properties *)

(** ** The monad and the float operations *)

Section Outcomes.
Context {A B : Type}.

Lemma bind_Ok (a : A) (k : A -> result B) : bind (Ok a) k = k a.
Proof. reflexivity. Qed.

Lemma bind_returns (m : result A) (k : A -> result B) (b : B) :
  bind m k = Ok b -> exists a, m = Ok a /\ k a = Ok b.
Proof.
  destruct m as [a| |]; simpl; intros H; try discriminate.
  exists a; split; [reflexivity | exact H].
Qed.

Lemma for_each_map (f : A -> result B) (g : A -> B) (l : list A) :
  Forall (fun a => f a = Ok (g a)) l -> for_each f l = Ok (map g l).
Proof.
  induction 1 as [|a l Ha _ IH]; simpl; [reflexivity|].
  rewrite Ha, IH. reflexivity.
Qed.
End Outcomes.

Lemma float_pow_int_ok (x : R) (n : Z) :
  x <> 0%R \/ 0 <= n -> float_pow_int x n = Ok (powerRZ x n).
Proof.
  intros H. unfold float_pow_int.
  destruct (decide (x = 0%R /\ n < 0)) as [[Hx Hn]|_]; [|reflexivity].
  destruct H as [H|H]; [contradiction | lia].
Qed.

Lemma np_float_pow_int_ok (x : R) (n : Z) :
  x <> 0%R \/ 0 <= n -> np_float_pow_int x n = Ok (powerRZ x n).
Proof.
  intros H. unfold np_float_pow_int.
  destruct (decide (x = 0%R /\ n < 0)) as [[Hx Hn]|_]; [|reflexivity].
  destruct H as [H|H]; [contradiction | lia].
Qed.

Lemma float_pow_positive (x y : R) :
  (0 < x)%R -> float_pow x y = Ok (Rpower x y).
Proof.
  intros H. unfold float_pow. destruct (decide (0 < x)%R); [reflexivity|].
  contradiction.
Qed.

(** ** The daily discount fractions *)

Lemma daily_factor_positive (r : R) : (0 < daily_factor r)%R.
Proof. unfold daily_factor, Rpower. apply exp_pos. Qed.

Lemma daily_factor_zero : daily_factor 0 = 1%R.
Proof.
  unfold daily_factor. replace (1 + 0)%R with 1%R by lra.
  unfold Rpower. rewrite ln_1, Rmult_0_r. apply exp_0.
Qed.

Lemma daily_factor_above_one (r : R) : (0 < r)%R -> (1 < daily_factor r)%R.
Proof.
  intros Hr. unfold daily_factor.
  rewrite <- (Rpower_O (1 + r)) at 1 by lra.
  apply Rpower_lt; lra.
Qed.

Lemma daily_discount_rate_ok (r : R) :
  (-1 < r)%R -> _daily_discount_rate r = Ok (daily_factor r - 1)%R.
Proof.
  intros Hr. unfold _daily_discount_rate.
  rewrite float_pow_positive by lra. simpl.
  unfold daily_factor.
  replace (1.0 / 365.0)%R with (1 / 365)%R by lra.
  replace (1.0 + r)%R with (1 + r)%R by lra.
  f_equal. lra.
Qed.

Lemma discounted_fraction_ok (r : R) (start_year end_year : Z) :
  (-1 < r)%R ->
  _discounted_fraction r start_year end_year
  = Ok (map (fun t => powerRZ (daily_factor r) (- t))
            (py_range (start_year * 365) (end_year * 365))).
Proof.
  intros Hr. unfold _discounted_fraction.
  rewrite daily_discount_rate_ok by exact Hr. simpl.
  apply for_each_map, Forall_forall. intros t _.
  replace (1.0 + (daily_factor r - 1))%R with (daily_factor r) by lra.
  apply float_pow_int_ok. left.
  apply Rgt_not_eq, daily_factor_positive.
Qed.

Lemma length_py_range (start stop : Z) :
  length (py_range start stop) = Z.to_nat (stop - start).
Proof. apply length_seqZ. Qed.

Lemma lookup_py_range (start stop t : Z) :
  start <= t < stop ->
  py_range start stop !! Z.to_nat (t - start) = Some t.
Proof.
  intros H. unfold py_range. rewrite lookup_seqZ_lt by lia. f_equal. lia.
Qed.

Lemma powerRZ_step_down (d : R) (i j : Z) :
  (1 < d)%R -> i < j -> (powerRZ d (- j) < powerRZ d (- i))%R.
Proof.
  intros Hd Hij.
  replace (- i) with (- j + (j - i)) by lia.
  rewrite powerRZ_add by lra.
  assert (Hpos : (0 < powerRZ d (- j))%R) by (apply powerRZ_lt; lra).
  assert (Hbig : (1 < powerRZ d (j - i))%R).
  { replace (j - i) with (Z.of_nat (Z.to_nat (j - i))) by lia.
    rewrite <- pow_powerRZ. apply Rlt_pow_R1; [exact Hd | lia]. }
  nra.
Qed.

(** C4. For a discount rate above -1 and a window with
    [start_year < end_year], [_discounted_fraction] returns one value per
    day [t] of [start_year * 365 <= t < end_year * 365], hence
    [(end_year - start_year) * 365] values; the value of day [t], counted
    from the epoch, is [(1 + r_d) ^ (- t)] with
    [r_d = (1 + discount_rate) ^ (1 / 365) - 1], the result of
    [_daily_discount_rate]; and a zero rate makes every value 1. *)
Theorem discounted_fraction_per_day (discount_rate : R)
    (start_year end_year : Z) :
  (-1 < discount_rate)%R -> start_year < end_year ->
  exists r_d fractions,
    _daily_discount_rate discount_rate = Ok r_d /\
    r_d = (Rpower (1 + discount_rate) (1 / 365) - 1)%R /\
    _discounted_fraction discount_rate start_year end_year = Ok fractions /\
    length fractions = Z.to_nat ((end_year - start_year) * 365) /\
    (forall t, start_year * 365 <= t < end_year * 365 ->
       fractions !! Z.to_nat (t - start_year * 365)
       = Some (powerRZ (1 + r_d) (- t))) /\
    (discount_rate = 0%R -> Forall (fun x => x = 1%R) fractions).
Proof.
  intros Hr Hwin.
  exists (daily_factor discount_rate - 1)%R.
  eexists. split; [apply daily_discount_rate_ok, Hr|].
  split; [reflexivity|].
  split; [apply discounted_fraction_ok, Hr|].
  split; [|split].
  - rewrite length_map, length_py_range. f_equal. lia.
  - intros t Ht. rewrite list_lookup_fmap, lookup_py_range by exact Ht.
    simpl. do 2 f_equal. lra.
  - intros ->. apply Forall_forall. intros x Hx.
    apply list_elem_of_fmap in Hx as (t & -> & _).
    rewrite daily_factor_zero. apply powerRZ_R1.
Qed.

Lemma discounted_fraction_per_day_witness :
  exists r_d fractions,
    _daily_discount_rate (5 / 100) = Ok r_d /\
    r_d = (Rpower (1 + 5 / 100) (1 / 365) - 1)%R /\
    _discounted_fraction (5 / 100) 0 1 = Ok fractions /\
    length fractions = Z.to_nat ((1 - 0) * 365) /\
    (forall t, 0 * 365 <= t < 1 * 365 ->
       fractions !! Z.to_nat (t - 0 * 365)
       = Some (powerRZ (1 + r_d) (- t))) /\
    ((5 / 100)%R = 0%R -> Forall (fun x => x = 1%R) fractions).
Proof.
  apply (discounted_fraction_per_day (5 / 100)%R 0 1); [lra | lia].
Defined.

(** C8. For an annual rate above -1, the sequence that
    [_discounted_fraction] produces from [start_year = 0] begins with 1, and
    when the rate is strictly positive it is strictly decreasing in the day
    index. *)
Theorem discounted_fraction_decreasing (discount_rate : R) (end_year : Z) :
  (-1 < discount_rate)%R -> 0 < end_year ->
  exists fractions,
    _discounted_fraction discount_rate 0 end_year = Ok fractions /\
    fractions !! 0%nat = Some 1%R /\
    ((0 < discount_rate)%R ->
     forall (i j : nat) (x y : R),
       (i < j)%nat ->
       fractions !! i = Some x -> fractions !! j = Some y -> (y < x)%R).
Proof.
  intros Hr Hend. eexists.
  split; [apply discounted_fraction_ok, Hr|].
  split.
  - rewrite list_lookup_fmap. unfold py_range.
    rewrite lookup_seqZ_lt by lia. reflexivity.
  - intros Hpos i j x y Hij Hi Hj.
    rewrite list_lookup_fmap in Hi, Hj.
    destruct (py_range (0 * 365) (end_year * 365) !! i) as [ti|] eqn:Eti;
      [|discriminate].
    destruct (py_range (0 * 365) (end_year * 365) !! j) as [tj|] eqn:Etj;
      [|discriminate].
    simpl in Hi, Hj. injection Hi as <-. injection Hj as <-.
    apply lookup_seqZ in Eti as [-> _]. apply lookup_seqZ in Etj as [-> _].
    apply powerRZ_step_down; [apply daily_factor_above_one, Hpos | lia].
Qed.

Lemma discounted_fraction_decreasing_witness :
  exists fractions,
    _discounted_fraction (5 / 100) 0 20 = Ok fractions /\
    fractions !! 0%nat = Some 1%R /\
    ((0 < 5 / 100)%R ->
     forall (i j : nat) (x y : R),
       (i < j)%nat ->
       fractions !! i = Some x -> fractions !! j = Some y -> (y < x)%R).
Proof.
  apply (discounted_fraction_decreasing (5 / 100)%R 20); [lra | lia].
Defined.

(** ** Discounted totals *)

Lemma sum_skipna_frame_mul (a b : list R) :
  sum_skipna (frame_mul a b) = Rsum (zip_with Rmult a b).
Proof.
  revert b. induction a as [|x a IH]; intros b.
  - simpl. induction b as [|y b IHb]; simpl; [reflexivity | exact IHb].
  - destruct b as [|y b]; simpl.
    + clear IH. induction a as [|x' a IHa]; simpl; [reflexivity | exact IHa].
    + rewrite IH. reflexivity.
Qed.

Lemma frame_mul_nil (a b : list R) :
  frame_mul a b = [] -> a = [] /\ b = [].
Proof.
  destruct a as [|x a], b as [|y b]; simpl; intros H;
    try discriminate; split; reflexivity.
Qed.

Lemma np_sum_0_frame_mul (a b : list R) :
  a <> [] \/ b <> [] ->
  np_sum_0 (frame_mul a b) = Ok (Rsum (zip_with Rmult a b)).
Proof.
  intros H. unfold np_sum_0.
  destruct (frame_mul a b) as [|c cs] eqn:E.
  - apply frame_mul_nil in E as [-> ->]. destruct H as [H|H]; contradiction.
  - rewrite <- E. f_equal. apply sum_skipna_frame_mul.
Qed.

Lemma py_range_nonempty (start stop : Z) :
  start < stop -> py_range start stop <> [].
Proof.
  intros H E. apply (f_equal length) in E.
  rewrite length_py_range in E. simpl in E. lia.
Qed.

Lemma discounted_energy_total_ok (finance_inputs : gmap string pyobj)
    (logger : arg) (total_daily : list R) (start_year end_year : Z)
    (rate : num) :
  finance_inputs !! DISCOUNT_RATE = Some (Num rate) ->
  (-1 < to_R rate)%R ->
  start_year < end_year \/ total_daily <> [] ->
  discounted_energy_total finance_inputs logger total_daily
    start_year end_year
  = Ok (Rsum (zip_with Rmult
                (map (fun t => powerRZ (daily_factor (to_R rate)) (- t))
                     (py_range (start_year * 365) (end_year * 365)))
                total_daily)).
Proof.
  intros Hrate Hr Hne. unfold discounted_energy_total.
  rewrite Hrate. simpl.
  rewrite discounted_fraction_ok by exact Hr. simpl.
  apply np_sum_0_frame_mul.
  destruct Hne as [Hwin|Hne]; [left | right; exact Hne].
  intros E. apply fmap_nil_inv in E.
  revert E. apply py_range_nonempty. lia.
Qed.

(** C2, as the code has it. [discounted_energy_total] has no check of the
    length of the daily series: with a discount rate above -1 in the finance
    inputs, and a window or a series that is not empty, it returns the sum of
    the products of the series with the discount fractions of the window over
    the days that both cover, the first [min n w] days for a series of [n]
    days and a window of [w = (end_year - start_year) * 365] days, which is
    every day when the lengths match. *)
Theorem discounted_energy_total_aligned (finance_inputs : gmap string pyobj)
    (logger : arg) (total_daily : list R) (start_year end_year : Z)
    (rate : num) :
  finance_inputs !! DISCOUNT_RATE = Some (Num rate) ->
  (-1 < to_R rate)%R ->
  start_year < end_year \/ total_daily <> [] ->
  exists fractions,
    _discounted_fraction (to_R rate) start_year end_year = Ok fractions /\
    length fractions = Z.to_nat ((end_year - start_year) * 365) /\
    length (zip_with Rmult fractions total_daily)
    = Nat.min (Z.to_nat ((end_year - start_year) * 365))
              (length total_daily) /\
    discounted_energy_total finance_inputs logger total_daily
      start_year end_year
    = Ok (Rsum (zip_with Rmult fractions total_daily)).
Proof.
  intros Hrate Hr Hne. eexists.
  split; [apply discounted_fraction_ok, Hr|].
  assert (Hlen : length (map (fun t => powerRZ (daily_factor (to_R rate)) (- t))
                        (py_range (start_year * 365) (end_year * 365)))
                 = Z.to_nat ((end_year - start_year) * 365)).
  { rewrite length_map, length_py_range. f_equal. lia. }
  split; [exact Hlen|].
  split; [rewrite length_zip_with, Hlen; reflexivity|].
  apply discounted_energy_total_ok; assumption.
Qed.

Lemma discounted_energy_total_aligned_witness :
  exists fractions,
    _discounted_fraction 0 0 1 = Ok fractions /\
    length fractions = Z.to_nat ((1 - 0) * 365) /\
    length (zip_with Rmult fractions [1%R; 1%R])
    = Nat.min (Z.to_nat ((1 - 0) * 365)) (length [1%R; 1%R]) /\
    discounted_energy_total (only_discount_rate 0) LoggerObj [1%R; 1%R] 0 1
    = Ok (Rsum (zip_with Rmult fractions [1%R; 1%R])).
Proof.
  apply (discounted_energy_total_aligned (only_discount_rate 0) LoggerObj
           [1%R; 1%R] 0 1 (Float 0)).
  - reflexivity.
  - simpl. lra.
  - left. lia.
Defined.

(** C2, as the specification has it, fails: a series of one day over a
    window of 365 days raises nothing and returns a value. *)
Lemma discounted_energy_total_no_dimension_error :
  length [1%R] <> Z.to_nat ((1 - 0) * 365) /\
  discounted_energy_total (only_discount_rate 0) LoggerObj [1%R] 0 1
  = Ok 1%R.
Proof.
  split; [simpl; lia|].
  rewrite (discounted_energy_total_ok _ _ _ _ _ (Float 0));
    [| reflexivity | simpl; lra | left; lia].
  unfold py_range. rewrite seqZ_cons by lia.
  cbn [map zip_with]. rewrite zip_with_nil_r. simpl. f_equal. lra.
Qed.

(** ** Operation and maintenance *)

Lemma list_times_singleton {A : Type} (x : A) (n : Z) :
  list_times [x] n = replicate (Z.to_nat n) x.
Proof.
  unfold list_times. induction (Z.to_nat n) as [|k IH]; simpl;
    [reflexivity | rewrite IH; reflexivity].
Qed.

Lemma list_times_replicate {A : Type} (x : A) (k : nat) (n : Z) :
  list_times (replicate k x) n = replicate (Z.to_nat n * k) x.
Proof.
  unfold list_times. induction (Z.to_nat n) as [|m IH]; simpl;
    [reflexivity|].
  rewrite IH, <- replicate_add. reflexivity.
Qed.

Lemma om_series (x : R) (start_year end_year : Z) :
  start_year < end_year ->
  list_times (list_times [x] (end_year - start_year)) 265
  = replicate (Z.to_nat ((end_year - start_year) * 265)) x.
Proof.
  intros H. rewrite list_times_singleton, list_times_replicate.
  f_equal. lia.
Qed.

Lemma component_om_ok (om size : R) (finance_inputs : gmap string pyobj)
    (logger : arg) (start_year end_year : Z) (rate : num) :
  finance_inputs !! DISCOUNT_RATE = Some (Num rate) ->
  (-1 < to_R rate)%R ->
  start_year < end_year ->
  returns (_component_om om size finance_inputs logger start_year end_year).
Proof.
  intros Hrate Hr Hwin. unfold _component_om.
  erewrite discounted_energy_total_ok; eauto.
  eexists; reflexivity.
Qed.

(** C3. For a window with [start_year < end_year], [_component_om] builds
    the daily series that repeats [size * unit_om_cost / 365] over exactly
    [(end_year - start_year) * 265] days (265, not 365), and its outcome is
    that of [discounted_energy_total] on this series over the same window:
    with a discount rate above -1 in the finance inputs, the sum of the
    discounted daily costs over the first [(end_year - start_year) * 265]
    days of the window. *)
Theorem component_om_series (component_om_cost component_size : R)
    (finance_inputs : gmap string pyobj) (logger : arg)
    (start_year end_year : Z) (rate : num) :
  finance_inputs !! DISCOUNT_RATE = Some (Num rate) ->
  (-1 < to_R rate)%R ->
  start_year < end_year ->
  let om_cost_daily := (component_size * component_om_cost / 365)%R in
  let days := Z.to_nat ((end_year - start_year) * 265) in
  let series :=
    list_times (list_times [om_cost_daily] (end_year - start_year)) 265 in
  series = replicate days om_cost_daily /\
  length series = days /\
  _component_om component_om_cost component_size finance_inputs logger
    start_year end_year
  = discounted_energy_total finance_inputs logger series
      start_year end_year /\
  _component_om component_om_cost component_size finance_inputs logger
    start_year end_year
  = Ok (Rsum (map (fun t => powerRZ (daily_factor (to_R rate)) (- t)
                            * om_cost_daily)%R
                  (py_range (start_year * 365)
                     (start_year * 365 + (end_year - start_year) * 265)))).
Proof.
  intros Hrate Hr Hwin om_cost_daily days series.
  assert (Hseries : series = replicate days om_cost_daily)
    by (apply om_series, Hwin).
  split; [exact Hseries|].
  split; [rewrite Hseries; apply length_replicate|].
  split; [reflexivity|].
  unfold _component_om. fold om_cost_daily. fold series.
  rewrite (discounted_energy_total_ok _ _ _ _ _ rate) by (auto; left; lia).
  f_equal. rewrite Hseries. f_equal.
  unfold py_range, days.
  replace (end_year * 365 - start_year * 365)
    with ((end_year - start_year) * 265 + (end_year - start_year) * 100)
    by lia.
  replace (start_year * 365 + (end_year - start_year) * 265
           - start_year * 365)
    with ((end_year - start_year) * 265) by lia.
  rewrite seqZ_app by lia.
  generalize (seqZ (start_year * 365 + (end_year - start_year) * 265)
                ((end_year - start_year) * 100)).
  assert (Hlen : length (seqZ (start_year * 365)
                           ((end_year - start_year) * 265))
                 = Z.to_nat ((end_year - start_year) * 265))
    by apply length_seqZ.
  revert Hlen.
  generalize (seqZ (start_year * 365) ((end_year - start_year) * 265)).
  generalize (Z.to_nat ((end_year - start_year) * 265)).
  intros n l. revert n. induction l as [|t l IH]; intros n Hlen rest.
  - simpl in Hlen. subst n. simpl. destruct (map _ rest); reflexivity.
  - destruct n as [|n]; [discriminate|]. simpl. f_equal.
    apply IH. simpl in Hlen. lia.
Qed.

Lemma component_om_series_witness :
  let om_cost_daily := (2 * 73 / 365)%R in
  let days := Z.to_nat ((1 - 0) * 265) in
  let series := list_times (list_times [om_cost_daily] (1 - 0)) 265 in
  series = replicate days om_cost_daily /\
  length series = days /\
  _component_om 73 2 (only_discount_rate 0) LoggerObj 0 1
  = discounted_energy_total (only_discount_rate 0) LoggerObj series 0 1 /\
  _component_om 73 2 (only_discount_rate 0) LoggerObj 0 1
  = Ok (Rsum (map (fun t => powerRZ (daily_factor (to_R (Float 0))) (- t)
                            * om_cost_daily)%R
                  (py_range (0 * 365) (0 * 365 + (1 - 0) * 265)))).
Proof.
  apply (component_om_series 73 2 (only_discount_rate 0) LoggerObj 0 1
           (Float 0)).
  - reflexivity.
  - simpl. lra.
  - lia.
Defined.

(** ** Connections *)

Lemma foldl_Rmax_spec (l : list R) (x : R) :
  (foldl Rmax x l = x \/ foldl Rmax x l ∈ l) /\
  (x <= foldl Rmax x l)%R /\
  (forall h, h ∈ l -> (h <= foldl Rmax x l)%R).
Proof.
  revert x. induction l as [|y l IH]; intros x; simpl.
  - split; [left; reflexivity|]. split; [lra|]. intros h Hh. inversion Hh.
  - destruct (IH (Rmax x y)) as (Hin & Hle & Hall).
    pose proof (Rmax_l x y). pose proof (Rmax_r x y).
    split; [|split].
    + destruct Hin as [E|Hin].
      * rewrite E. unfold Rmax. destruct (Rle_dec x y);
          [right; left | left; reflexivity].
      * right. right. exact Hin.
    + lra.
    + intros h Hh. apply elem_of_cons in Hh as [->|Hh]; [lra | auto].
Qed.

Lemma foldl_Rmin_spec (l : list R) (x : R) :
  (foldl Rmin x l = x \/ foldl Rmin x l ∈ l) /\
  (foldl Rmin x l <= x)%R /\
  (forall h, h ∈ l -> (foldl Rmin x l <= h)%R).
Proof.
  revert x. induction l as [|y l IH]; intros x; simpl.
  - split; [left; reflexivity|]. split; [lra|]. intros h Hh. inversion Hh.
  - destruct (IH (Rmin x y)) as (Hin & Hle & Hall).
    pose proof (Rmin_l x y). pose proof (Rmin_r x y).
    split; [|split].
    + destruct Hin as [E|Hin].
      * rewrite E. unfold Rmin. destruct (Rle_dec x y);
          [left; reflexivity | right; left].
      * right. right. exact Hin.
    + lra.
    + intros h Hh. apply elem_of_cons in Hh as [->|Hh]; [lra | auto].
Qed.

Lemma frame_max_spec (frame : list R) :
  frame <> [] ->
  exists hi, frame_max frame = Some hi /\ hi ∈ frame /\
             forall h, h ∈ frame -> (h <= hi)%R.
Proof.
  destruct frame as [|x l]; [contradiction|]. intros _.
  destruct (foldl_Rmax_spec l x) as (Hin & Hle & Hall).
  exists (foldl Rmax x l). split; [reflexivity|]. split.
  - destruct Hin as [->|Hin]; [left | right; exact Hin].
  - intros h Hh. apply elem_of_cons in Hh as [->|Hh]; [exact Hle | auto].
Qed.

Lemma frame_min_spec (frame : list R) :
  frame <> [] ->
  exists lo, frame_min frame = Some lo /\ lo ∈ frame /\
             forall h, h ∈ frame -> (lo <= h)%R.
Proof.
  destruct frame as [|x l]; [contradiction|]. intros _.
  destruct (foldl_Rmin_spec l x) as (Hin & Hle & Hall).
  exists (foldl Rmin x l). split; [reflexivity|]. split.
  - destruct Hin as [->|Hin]; [left | right; exact Hin].
  - intros h Hh. apply elem_of_cons in Hh as [->|Hh]; [exact Hle | auto].
Qed.

Lemma getitem2_ok (finance_inputs : gmap string pyobj)
    (component key : string) (d : gmap string num) (v : num) :
  finance_inputs !! component = Some (Dict d) ->
  d !! key = Some v ->
  getitem2 finance_inputs component key = Ok (to_R v).
Proof.
  intros H1 H2. unfold getitem2, getitem. rewrite H1. simpl.
  rewrite H2. reflexivity.
Qed.

Lemma getfloat_ok (finance_inputs : gmap string pyobj) (key : string)
    (v : num) :
  finance_inputs !! key = Some (Num v) ->
  getfloat finance_inputs key = Ok (to_R v).
Proof. intros H. unfold getfloat, getitem. rewrite H. reflexivity. Qed.

(** C5. For a households series that is not empty, a HOUSEHOLDS connection
    cost and a discount rate in the finance inputs (a rate other than 1, or
    an installation year that is not negative), [connections_expenditure]
    returns [(max households - min households) * connection_cost
    * (1 - discount_rate) ^ installation_year]; for the series
    [10, 10, 10, 20, 20], connection cost 50, discount rate 0.1 and
    installation year 2 it returns 405. *)
Theorem connections_expenditure_value (finance_inputs : gmap string pyobj)
    (households : list R) (installation_year : Z)
    (entry : gmap string num) (connection_cost discount_rate : num) :
  households <> [] ->
  finance_inputs !! value HOUSEHOLDS = Some (Dict entry) ->
  entry !! CONNECTION_COST = Some connection_cost ->
  finance_inputs !! DISCOUNT_RATE = Some (Num discount_rate) ->
  to_R discount_rate <> 1%R \/ 0 <= installation_year ->
  (exists hi lo,
      hi ∈ households /\ lo ∈ households /\
      (forall h, h ∈ households -> (lo <= h <= hi)%R) /\
      connections_expenditure finance_inputs households installation_year
      = Ok ((hi - lo) * to_R connection_cost
            * powerRZ (1 - to_R discount_rate) installation_year)%R) /\
  connections_expenditure scenario_inputs
    [10%R; 10%R; 10%R; 20%R; 20%R] 2 = Ok 405%R.
Proof.
  intros Hne Hentry Hcost Hrate Hpow. split.
  - destruct (frame_max_spec households Hne) as (hi & Ehi & Hhi & Hmax).
    destruct (frame_min_spec households Hne) as (lo & Elo & Hlo & Hmin).
    exists hi, lo. repeat split; auto.
    unfold connections_expenditure. rewrite Ehi, Elo.
    rewrite (getitem2_ok _ _ _ _ _ Hentry Hcost). simpl.
    rewrite (getfloat_ok _ _ _ Hrate). simpl.
    rewrite float_pow_int_ok by (destruct Hpow; [left; lra | right; lia]).
    simpl. f_equal.
    replace (1.0 - to_R discount_rate)%R with (1 - to_R discount_rate)%R
      by lra.
    lra.
  - unfold connections_expenditure.
    assert (Emax : frame_max [10%R; 10%R; 10%R; 20%R; 20%R] = Some 20%R).
    { simpl. f_equal.
      repeat match goal with
             | |- context [Rmax ?a ?b] =>
                 first [ rewrite (Rmax_left a b) by lra
                       | rewrite (Rmax_right a b) by lra ]
             end.
      reflexivity. }
    assert (Emin : frame_min [10%R; 10%R; 10%R; 20%R; 20%R] = Some 10%R).
    { simpl. f_equal.
      repeat match goal with
             | |- context [Rmin ?a ?b] =>
                 first [ rewrite (Rmin_left a b) by lra
                       | rewrite (Rmin_right a b) by lra ]
             end.
      reflexivity. }
    rewrite Emax, Emin.
    rewrite (getitem2_ok scenario_inputs _ _ {[ CONNECTION_COST := Int 50 ]}
               (Int 50)) by reflexivity.
    simpl.
    rewrite (getfloat_ok scenario_inputs _ (Float 0.1)) by reflexivity.
    simpl.
    rewrite float_pow_int_ok by (right; lia).
    simpl. f_equal. lra.
Qed.

Lemma connections_expenditure_value_witness :
  (exists hi lo,
      hi ∈ [10%R; 10%R; 10%R; 20%R; 20%R] /\
      lo ∈ [10%R; 10%R; 10%R; 20%R; 20%R] /\
      (forall h, h ∈ [10%R; 10%R; 10%R; 20%R; 20%R] -> (lo <= h <= hi)%R) /\
      connections_expenditure scenario_inputs
        [10%R; 10%R; 10%R; 20%R; 20%R] 2
      = Ok ((hi - lo) * to_R (Int 50)
            * powerRZ (1 - to_R (Float 0.1)) 2)%R) /\
  connections_expenditure scenario_inputs
    [10%R; 10%R; 10%R; 20%R; 20%R] 2 = Ok 405%R.
Proof.
  apply (connections_expenditure_value scenario_inputs
           [10%R; 10%R; 10%R; 20%R; 20%R] 2
           {[ CONNECTION_COST := Int 50 ]} (Int 50) (Float 0.1)).
  - discriminate.
  - reflexivity.
  - reflexivity.
  - reflexivity.
  - right. lia.
Defined.

(** ** Inverter replacements *)

Lemma np_round2_zero : np_round2 0 = 0%R.
Proof.
  unfold np_round2, np_rint.
  replace (0 * 100)%R with 0%R by lra.
  rewrite <- (Int_part_spec 0 0) by lra.
  destruct (decide (0 - 0 < 1 / 2)%R) as [_|H]; [lra | exfalso; lra].
Qed.

Lemma np_arange_ok (stop step : Z) :
  0 < step ->
  exists years,
    np_arange stop step = Ok years /\
    forall y, y ∈ years <-> 0 <= y < stop /\ (step | y).
Proof.
  intros Hstep. unfold np_arange.
  destruct (decide (step = 0)) as [E|_]; [lia|].
  eexists. split; [reflexivity|].
  intros y. rewrite list_elem_of_fmap.
  pose proof (Z.div_mod (- stop) step ltac:(lia)) as Hdiv.
  pose proof (Z.mod_pos_bound (- stop) step Hstep) as Hmod.
  set (q := (- stop) `div` step) in *.
  set (r := (- stop) `mod` step) in *.
  split.
  - intros (k & -> & Hk). apply elem_of_seqZ in Hk.
    split; [nia | exists k; reflexivity].
  - intros (Hy & k & ->). exists k. split; [reflexivity|].
    apply elem_of_seqZ. nia.
Qed.

Lemma np_arange_nonneg (stop step : Z) (years : list Z) :
  0 < step -> np_arange stop step = Ok years ->
  Forall (fun y => 0 <= y) years.
Proof.
  intros Hstep E. destruct (np_arange_ok stop step Hstep) as (ys & E' & H).
  rewrite E in E'. injection E' as <-.
  apply Forall_forall. intros y Hy. apply H in Hy. lia.
Qed.

Lemma expenditure_column (size : Z -> option R) (rate cost : Z -> R)
    (years : list Z) :
  zip_with (fun r size_cost =>
              match size_cost with
              | (Some s, c) => Some (r * s * c)%R
              | (None, _) => None
              end)
           (map rate years) (zip (map size years) (map cost years))
  = map (fun y => match size y with
                  | Some s => Some (rate y * s * cost y)%R
                  | None => None
                  end) years.
Proof.
  induction years as [|y years IH]; simpl; [reflexivity|].
  f_equal. exact IH.
Qed.

Lemma selected_rows {A : Type} (start_year end_year : Z) (f : Z -> A)
    (years : list Z) :
  map snd (filter (fun row => row.1 ∈ py_range start_year end_year)
                  (zip years (map f years)))
  = map f (filter (fun y => y ∈ py_range start_year end_year) years).
Proof.
  induction years as [|y years IH]; simpl; [reflexivity|].
  rewrite !filter_cons. simpl.
  destruct (decide (y ∈ py_range start_year end_year)); simpl;
    rewrite IH; reflexivity.
Qed.

Lemma filter_in_window (start_year end_year : Z) (years : list Z) :
  filter (fun y => y ∈ py_range start_year end_year) years
  = filter (fun y => start_year <= y < end_year) years.
Proof.
  apply list_filter_iff. intros y. unfold py_range.
  rewrite elem_of_seqZ. lia.
Qed.

Lemma py_slice_interval {A : Type} (l : list A) (year period : Z) :
  0 <= year -> 0 < period ->
  py_slice l year (year + period)
  = take (Z.to_nat period) (drop (Z.to_nat year) l).
Proof.
  intros Hyear Hperiod. unfold py_slice.
  destruct (year + period <? 0) eqn:E1; [apply Z.ltb_lt in E1; lia|].
  destruct (year <? 0) eqn:E2; [apply Z.ltb_lt in E2; lia|].
  set (n := Z.of_nat (length l)).
  destruct (Z.le_gt_cases n year) as [Hge|Hlt].
  - rewrite (Z.min_r year n), (Z.min_r (year + period) n) by lia.
    rewrite !drop_ge by lia. rewrite !take_nil. reflexivity.
  - rewrite (Z.min_l year n) by lia.
    destruct (Z.le_gt_cases (year + period) n) as [Hin|Hout].
    + rewrite Z.min_l by lia. do 2 f_equal. lia.
    + rewrite Z.min_r by lia.
      rewrite !take_ge; [reflexivity | |]; rewrite length_drop; lia.
Qed.

Lemma inverter_size_interval_returns (maximum : list R)
    (replacement_period : Z) (inverter_step : R) (year : Z) :
  inverter_step <> 0%R
  \/ 0 < replacement_period /\ 0 <= year < Z.of_nat (length maximum) ->
  returns (inverter_size_interval maximum replacement_period inverter_step
             year).
Proof.
  intros H. unfold inverter_size_interval.
  destruct (decide (inverter_step = 0%R)) as [E|_].
  - destruct H as [H|[Hperiod Hyear]]; [contradiction|].
    rewrite py_slice_interval by lia.
    destruct (take _ _) as [|x interval] eqn:Einterval.
    + exfalso. apply (f_equal length) in Einterval.
      rewrite length_take, length_drop in Einterval. simpl in Einterval.
      lia.
    + eexists. reflexivity.
  - destruct (frame_max _); eexists; reflexivity.
Qed.

Lemma inverter_size_interval_raises (maximum : list R)
    (replacement_period year : Z) :
  0 < replacement_period -> Z.of_nat (length maximum) <= year ->
  inverter_size_interval maximum replacement_period 0 year
  = Raise ZeroDivisionError.
Proof.
  intros Hperiod Hyear. unfold inverter_size_interval.
  rewrite py_slice_interval by lia.
  rewrite drop_ge by lia. rewrite take_nil. simpl.
  destruct (decide (0 = 0)%R) as [_|H]; [reflexivity | contradiction].
Qed.

(** The sizes that the sizing loop gives when every turn returns. *)
Lemma inverter_sizes_ok (maximum : list R) (replacement_period : Z)
    (inverter_step : R) (years : list Z) :
  Forall (fun y => returns (inverter_size_interval maximum
                              replacement_period inverter_step y)) years ->
  for_each (inverter_size_interval maximum replacement_period
              inverter_step) years
  = Ok (map (fun y => match inverter_size_interval maximum
                              replacement_period inverter_step y with
                      | Ok size => size
                      | _ => None
                      end) years).
Proof.
  intros H. apply for_each_map.
  eapply Forall_impl; [exact H|]. intros y [size Hy]. cbn beta.
  rewrite Hy. reflexivity.
Qed.

Lemma inverter_expenditure_ok (finance_inputs : gmap string pyobj)
    (location : Location) (maximum : list R) (start_year end_year : Z)
    (inverter : gmap string num) (lifetime : Z)
    (step cost decrease rate : num) (years : list Z) :
  finance_inputs !! value INVERTER = Some (Dict inverter) ->
  inverter !! LIFETIME = Some (Int lifetime) ->
  inverter !! SIZE_INCREMENT = Some step ->
  inverter !! COST = Some cost ->
  inverter !! COST_DECREASE = Some decrease ->
  finance_inputs !! DISCOUNT_RATE = Some (Num rate) ->
  np_arange (max_years location) lifetime = Ok years ->
  Forall (fun y => 0 <= y) years ->
  Forall (fun y => returns (inverter_size_interval maximum lifetime
                              (to_R step) y)) years ->
  _inverter_expenditure finance_inputs location maximum start_year end_year
  = Ok (np_round2
          (sum_skipna
             (map (replacement_expenditure maximum lifetime (to_R step)
                     (to_R rate) (to_R cost) (to_R decrease))
                  (filter (fun y => start_year <= y < end_year) years)))).
Proof.
  intros Hinv Hlife Hstep Hcost Hdec Hrate Hyears Hpos Hsizes.
  unfold _inverter_expenditure.
  unfold getitem at 1. rewrite Hinv. cbn [bind subscript].
  rewrite Hlife. cbn [bind]. rewrite Hyears. cbn [bind].
  rewrite filter_in_window.
  destruct (bool_decide _) eqn:Eempty.
  - apply bool_decide_eq_true in Eempty. rewrite Eempty. simpl.
    rewrite np_round2_zero. reflexivity.
  - rewrite (getitem2_ok _ _ _ _ _ Hinv Hstep). cbn [bind].
    rewrite inverter_sizes_ok by exact Hsizes. cbn [bind].
    rewrite (for_each_map _ (fun y => powerRZ (1 - to_R rate) y)).
    2:{ eapply Forall_impl; [exact Hpos|]. intros y Hy. cbn beta.
        rewrite (getfloat_ok _ _ _ Hrate). cbn [bind].
        apply np_float_pow_int_ok. right. exact Hy. }
    cbn [bind].
    rewrite (for_each_map _
               (fun y => (to_R cost
                          * powerRZ (1 - 0.01 * to_R decrease) y)%R)).
    2:{ eapply Forall_impl; [exact Hpos|]. intros y Hy. cbn beta.
        rewrite (getitem2_ok _ _ _ _ _ Hinv Hcost). cbn [bind].
        rewrite (getitem2_ok _ _ _ _ _ Hinv Hdec). cbn [bind].
        rewrite np_float_pow_int_ok by (right; exact Hy). reflexivity. }
    cbn [bind]. rewrite expenditure_column.
    rewrite <- filter_in_window. do 3 f_equal.
    rewrite selected_rows. apply map_ext. intros y.
    unfold replacement_expenditure.
    destruct (inverter_size_interval _ _ _ y) as [[size|]|e|];
      reflexivity.
Qed.

Lemma filter_none (P : Z -> Prop) `{forall y, Decision (P y)}
    (l : list Z) :
  (forall y, y ∈ l -> ~ P y) -> filter P l = [].
Proof.
  induction l as [|y l IH]; intros Hnone; [reflexivity|].
  rewrite filter_cons. destruct (decide (P y)) as [Hy|_].
  - exfalso. apply (Hnone y); [left | exact Hy].
  - apply IH. intros y' Hy'. apply Hnone. right. exact Hy'.
Qed.

Lemma inverter_expenditure_none (finance_inputs : gmap string pyobj)
    (location : Location) (maximum : list R) (start_year end_year : Z)
    (inverter : gmap string num) (lifetime : Z) (years : list Z) :
  finance_inputs !! value INVERTER = Some (Dict inverter) ->
  inverter !! LIFETIME = Some (Int lifetime) ->
  np_arange (max_years location) lifetime = Ok years ->
  (forall y, y ∈ years -> ~ start_year <= y < end_year) ->
  _inverter_expenditure finance_inputs location maximum start_year end_year
  = Ok 0%R.
Proof.
  intros Hinv Hlife Hyears Hnone.
  unfold _inverter_expenditure.
  unfold getitem at 1. rewrite Hinv. cbn [bind subscript].
  rewrite Hlife. cbn [bind]. rewrite Hyears. cbn [bind].
  rewrite filter_in_window.
  rewrite (filter_none _ _ Hnone). reflexivity.
Qed.

(** C6. For an inverter lifetime [L > 0], the replacement years of
    [_inverter_expenditure] are exactly the multiples of [L] in
    [0 <= y < max_years]. It returns 0 when none of them lies in
    [start_year <= y < end_year]; and with the size increment, the cost, the
    cost decrease and the discount rate in the finance inputs, and an
    inverter sized for every replacement year (the size increment is not 0,
    or every replacement year is a year of the load table), the total it
    returns is the sum, rounded to two decimals, of the discounted
    expenditures of the replacements whose year lies in that window and of
    no other. With lifetime 10 and [max_years] 20 the replacement years are
    0 and 10, and the window from 0 to 10 holds the one at year 0 only. *)
Theorem inverter_replacements_in_window (finance_inputs : gmap string pyobj)
    (location : Location) (maximum : list R) (start_year end_year : Z)
    (inverter : gmap string num) (lifetime : Z) :
  finance_inputs !! value INVERTER = Some (Dict inverter) ->
  inverter !! LIFETIME = Some (Int lifetime) ->
  0 < lifetime ->
  exists years,
    np_arange (max_years location) lifetime = Ok years /\
    (forall y, y ∈ years <-> 0 <= y < max_years location /\ (lifetime | y)) /\
    ((forall y, y ∈ years -> ~ start_year <= y < end_year) ->
     _inverter_expenditure finance_inputs location maximum
       start_year end_year = Ok 0%R) /\
    (forall step cost decrease rate : num,
       inverter !! SIZE_INCREMENT = Some step ->
       inverter !! COST = Some cost ->
       inverter !! COST_DECREASE = Some decrease ->
       finance_inputs !! DISCOUNT_RATE = Some (Num rate) ->
       to_R step <> 0%R
       \/ (forall y, y ∈ years -> y < Z.of_nat (length maximum)) ->
       _inverter_expenditure finance_inputs location maximum
         start_year end_year
       = Ok (np_round2
               (sum_skipna
                  (map (replacement_expenditure maximum lifetime (to_R step)
                          (to_R rate) (to_R cost) (to_R decrease))
                     (filter (fun y => start_year <= y < end_year)
                        years))))) /\
    (lifetime = 10 -> max_years location = 20 ->
     years = [0; 10] /\
     filter (fun y => 0 <= y < 10) years = [0]).
Proof.
  intros Hinv Hlife Hpos.
  destruct (np_arange_ok (max_years location) lifetime Hpos)
    as (years & Hyears & Hmem).
  exists years. split; [exact Hyears|]. split; [exact Hmem|].
  split; [|split].
  - intros Hnone. eapply inverter_expenditure_none; eauto.
  - intros step cost decrease rate Hstep Hcost Hdec Hrate Hsized.
    eapply inverter_expenditure_ok; eauto.
    + eapply np_arange_nonneg; eauto.
    + apply Forall_forall. intros y Hy.
      apply inverter_size_interval_returns.
      destruct Hsized as [Hne|Htable]; [left; exact Hne|].
      right. split; [exact Hpos|].
      split; [apply Hmem in Hy; lia | apply Htable; exact Hy].
  - intros -> Hmax. rewrite Hmax in Hyears.
    assert (E : years = [0; 10]).
    { vm_compute in Hyears. injection Hyears as <-. reflexivity. }
    subst years. split; reflexivity.
Qed.

Lemma inverter_replacements_in_window_witness :
  exists years,
    np_arange (max_years {| max_years := 20 |}) 10 = Ok years /\
    (forall y, y ∈ years <->
               0 <= y < max_years {| max_years := 20 |} /\ (10 | y)) /\
    ((forall y, y ∈ years -> ~ 0 <= y < 10) ->
     _inverter_expenditure inverter_scenario_inputs {| max_years := 20 |}
       [2500%R] 0 10 = Ok 0%R) /\
    (forall step cost decrease rate : num,
       ({[ LIFETIME := Int 10; SIZE_INCREMENT := Int 1;
           COST := Int 200; COST_DECREASE := Int 2 ]} : gmap string num)
         !! SIZE_INCREMENT = Some step ->
       ({[ LIFETIME := Int 10; SIZE_INCREMENT := Int 1;
           COST := Int 200; COST_DECREASE := Int 2 ]} : gmap string num)
         !! COST = Some cost ->
       ({[ LIFETIME := Int 10; SIZE_INCREMENT := Int 1;
           COST := Int 200; COST_DECREASE := Int 2 ]} : gmap string num)
         !! COST_DECREASE = Some decrease ->
       inverter_scenario_inputs !! DISCOUNT_RATE = Some (Num rate) ->
       to_R step <> 0%R
       \/ (forall y, y ∈ years -> y < Z.of_nat (length [2500%R])) ->
       _inverter_expenditure inverter_scenario_inputs {| max_years := 20 |}
         [2500%R] 0 10
       = Ok (np_round2
               (sum_skipna
                  (map (replacement_expenditure [2500%R] 10 (to_R step)
                          (to_R rate) (to_R cost) (to_R decrease))
                     (filter (fun y => 0 <= y < 10) years))))) /\
    (10 = 10 -> max_years {| max_years := 20 |} = 20 ->
     years = [0; 10] /\
     filter (fun y => 0 <= y < 10) years = [0]).
Proof.
  apply (inverter_replacements_in_window inverter_scenario_inputs
           {| max_years := 20 |} [2500%R] 0 10
           {[ LIFETIME := Int 10; SIZE_INCREMENT := Int 1;
              COST := Int 200; COST_DECREASE := Int 2 ]} 10).
  - reflexivity.
  - reflexivity.
  - lia.
Defined.

(** ** Equipment costs *)

Lemma component_cost_ok (c d size : R) (year : Z) :
  0 <= year \/ (1 - 0.01 * d)%R <> 0%R ->
  _component_cost c d size year = Ok (capital_cost c d size year).
Proof.
  intros H. unfold _component_cost, capital_cost.
  rewrite float_pow_int_ok by tauto. simpl. f_equal. lra.
Qed.

Lemma component_installation_cost_ok (size c d : R) (year : Z) :
  0 <= year \/ (1 - 0.01 * d)%R <> 0%R ->
  _component_installation_cost size c d year
  = Ok (installation_cost size c d year).
Proof.
  intros H. unfold _component_installation_cost, installation_cost.
  replace (1.0 - 0.01 * d)%R with (1 - 0.01 * d)%R by lra.
  rewrite float_pow_int_ok by tauto. reflexivity.
Qed.

Lemma getitem2_returns (finance_inputs : gmap string pyobj)
    (component key : string) (x : R) :
  getitem2 finance_inputs component key = Ok x ->
  exists d v, finance_inputs !! component = Some (Dict d) /\
              d !! key = Some v /\ x = to_R v.
Proof.
  unfold getitem2, getitem. intros H.
  destruct (finance_inputs !! component) as [[n|d]|]; simpl in H;
    try discriminate.
  destruct (d !! key) as [v|] eqn:E; simpl in H; try discriminate.
  injection H as <-. eauto.
Qed.

Lemma getitem2_missing (finance_inputs : gmap string pyobj)
    (component key : string) :
  finance_inputs !! component = None ->
  getitem2 finance_inputs component key = Raise (KeyError component).
Proof. intros H. unfold getitem2, getitem. rewrite H. reflexivity. Qed.

Lemma getitem2_agree (inputs1 inputs2 : gmap string pyobj)
    (component key : string) :
  inputs1 !! component = inputs2 !! component ->
  getitem2 inputs1 component key = getitem2 inputs2 component key.
Proof. intros H. unfold getitem2, getitem. rewrite H. reflexivity. Qed.

Lemma require_inputs_agree (inputs1 inputs2 : gmap string pyobj)
    (key : string) (size logger : arg) (input_file msg : string) :
  inputs1 !! key = inputs2 !! key ->
  require_inputs inputs1 key size logger input_file msg
  = require_inputs inputs2 key size logger input_file msg.
Proof.
  intros H. unfold require_inputs, contains. rewrite H. reflexivity.
Qed.

Lemma require_inputs_not_positive (finance_inputs : gmap string pyobj)
    (key : string) (size : R) (logger : arg) (input_file msg : string) :
  ~ (0 < size)%R ->
  require_inputs finance_inputs key (Number size) logger input_file msg
  = Ok tt.
Proof.
  intros H. unfold require_inputs.
  destruct (contains finance_inputs key); [reflexivity|]. simpl.
  rewrite bool_decide_eq_false_2 by exact H. reflexivity.
Qed.

Lemma require_inputs_present (finance_inputs : gmap string pyobj)
    (key : string) (size logger : arg) (input_file msg : string)
    (entry : pyobj) :
  finance_inputs !! key = Some entry ->
  require_inputs finance_inputs key size logger input_file msg = Ok tt.
Proof.
  intros H. unfold require_inputs, contains. rewrite H. reflexivity.
Qed.

Lemma require_inputs_missing (finance_inputs : gmap string pyobj)
    (key : string) (size : R) (input_file msg : string) :
  finance_inputs !! key = None -> (0 < size)%R ->
  require_inputs finance_inputs key (Number size) LoggerObj input_file msg
  = Raise (InputFileError input_file msg).
Proof.
  intros H Hsize. unfold require_inputs, contains. rewrite H. simpl.
  rewrite bool_decide_eq_true_2 by exact Hsize. reflexivity.
Qed.

Lemma has_costs_present (finance_inputs : gmap string pyobj)
    (c : ImpactingComponent) (p : component_costs) :
  has_costs finance_inputs c p ->
  exists entry, finance_inputs !! value c = Some entry.
Proof.
  intros (H & _). apply getitem2_returns in H as (d & v & H & _). eauto.
Qed.

(** The installation keywords are the cost keywords: a reading under the
    former is rewritten with the equation for it before any equation for the
    latter applies to it. *)
Ltac rewrite_installation_key :=
  match goal with
  | H : getitem2 ?fi ?c INSTALLATION_COST = Ok _
    |- context [getitem2 ?fi ?c INSTALLATION_COST] => rewrite H
  | H : getitem2 ?fi ?c INSTALLATION_COST_DECREASE = Ok _
    |- context [getitem2 ?fi ?c INSTALLATION_COST_DECREASE] => rewrite H
  end.

Ltac rewrite_lookup :=
  match goal with
  | H : getitem2 ?fi ?c ?k = Ok _ |- context [bind (getitem2 ?fi ?c ?k) _] =>
      rewrite H
  end.

(** What the body of [get_total_equipment_cost] computes, term by term, on
    finance inputs that hold every entry it reads. *)
Lemma equipment_cost_terms_ok (finance_inputs : gmap string pyobj)
    (costs : ImpactingComponent -> component_costs) (misc_cost : R)
    (clean_water_tanks diesel_size hot_water_tanks pv_array_size
     pvt_array_size storage_size : R) (installation_year : Z) :
  has_costs finance_inputs BOS (costs BOS) ->
  has_costs finance_inputs DIESEL (costs DIESEL) ->
  has_costs finance_inputs PV (costs PV) ->
  has_costs finance_inputs STORAGE (costs STORAGE) ->
  getitem2 finance_inputs (value MISC) COST = Ok misc_cost ->
  ((0 < clean_water_tanks)%R ->
   has_costs finance_inputs CLEAN_WATER_TANK (costs CLEAN_WATER_TANK)) ->
  ((0 < hot_water_tanks)%R ->
   has_costs finance_inputs HOT_WATER_TANK (costs HOT_WATER_TANK)) ->
  ((0 < pvt_array_size)%R ->
   has_costs finance_inputs PV_T (costs PV_T)) ->
  0 <= installation_year ->
  equipment_cost_terms clean_water_tanks diesel_size finance_inputs
    (Number hot_water_tanks) LoggerObj pv_array_size pvt_array_size
    storage_size installation_year
  = Ok {| bos_cost := capital (costs BOS) pv_array_size installation_year;
          clean_water_tank_cost :=
            when_present clean_water_tanks
              (capital (costs CLEAN_WATER_TANK) clean_water_tanks
                 installation_year);
          clean_water_tank_installation_cost :=
            when_present clean_water_tanks
              (installation (costs CLEAN_WATER_TANK) clean_water_tanks
                 installation_year);
          diesel_cost := capital (costs DIESEL) diesel_size installation_year;
          diesel_installation_cost :=
            installation (costs DIESEL) pv_array_size installation_year;
          hot_water_tank_cost :=
            when_present hot_water_tanks
              (capital (costs HOT_WATER_TANK) hot_water_tanks
                 installation_year);
          hot_water_tank_installation_cost :=
            when_present hot_water_tanks
              (installation (costs HOT_WATER_TANK) hot_water_tanks
                 installation_year);
          pv_cost := capital (costs PV) pv_array_size installation_year;
          pv_installation_cost :=
            installation (costs PV) pv_array_size installation_year;
          pvt_cost :=
            when_present pvt_array_size
              (capital (costs PV_T) pv_array_size installation_year);
          pvt_installation_cost :=
            when_present pvt_array_size
              (installation (costs PV_T) pvt_array_size installation_year);
          storage_cost :=
            capital (costs STORAGE) storage_size installation_year;
          misc_costs := ((pv_array_size + diesel_size) * misc_cost)%R |}.
Proof.
  intros (Hb1 & Hb2 & _ & _) (Hd1 & Hd2 & Hd3 & Hd4) (Hp1 & Hp2 & Hp3 & Hp4)
    (Hs1 & Hs2 & _ & _) Hmisc Hcw Hhw Hpvt Hyear.
  unfold equipment_cost_terms, capital, installation, when_present.
  cbn [gt_zero].
  destruct (decide (0 < clean_water_tanks)%R) as [Pcw|Ncw];
    [destruct (Hcw Pcw) as (Hc1 & Hc2 & Hc3 & Hc4);
     destruct (has_costs_present _ _ _ (Hcw Pcw)) as (ecw & Ecw);
     rewrite (require_inputs_present _ _ _ _ _ _ _ Ecw);
     rewrite !(bool_decide_eq_true_2 _ Pcw)
    |rewrite (require_inputs_not_positive _ _ _ _ _ _ Ncw);
     rewrite !(bool_decide_eq_false_2 _ Ncw)];
  (destruct (decide (0 < hot_water_tanks)%R) as [Phw|Nhw];
    [destruct (Hhw Phw) as (Hh1 & Hh2 & Hh3 & Hh4);
     destruct (has_costs_present _ _ _ (Hhw Phw)) as (ehw & Ehw);
     rewrite (require_inputs_present _ _ _ _ _ _ _ Ehw);
     rewrite !(bool_decide_eq_true_2 _ Phw)
    |rewrite (require_inputs_not_positive _ _ _ _ _ _ Nhw);
     rewrite !(bool_decide_eq_false_2 _ Nhw)]);
  (destruct (decide (0 < pvt_array_size)%R) as [Ppvt|Npvt];
    [destruct (Hpvt Ppvt) as (Ht1 & Ht2 & Ht3 & Ht4);
     destruct (has_costs_present _ _ _ (Hpvt Ppvt)) as (epvt & Epvt);
     rewrite (require_inputs_present _ _ _ _ _ _ _ Epvt);
     rewrite !(bool_decide_eq_true_2 _ Ppvt)
    |rewrite (require_inputs_not_positive _ _ _ _ _ _ Npvt);
     rewrite !(bool_decide_eq_false_2 _ Npvt)]);
  repeat (cbn [bind as_float];
          first [ rewrite_installation_key
                | rewrite_lookup
                | rewrite component_cost_ok by (left; assumption)
                | rewrite component_installation_cost_ok
                    by (left; assumption) ]);
  reflexivity.
Qed.

Lemma complete_inputs_costs (c : ImpactingComponent) :
  c ∈ [BOS; DIESEL; PV; STORAGE] ->
  has_costs complete_inputs c (complete_costs c).
Proof.
  intros H. repeat (apply elem_of_cons in H as [->|H]);
    [| | | |inversion H]; repeat split; reflexivity.
Qed.

Lemma complete_inputs_misc :
  getitem2 complete_inputs (value MISC) COST = Ok 10%R.
Proof. reflexivity. Qed.

Lemma when_present_not_positive (size x : R) :
  ~ (0 < size)%R -> when_present size x = 0%R.
Proof.
  intros H. unfold when_present. rewrite bool_decide_eq_false_2 by exact H.
  reflexivity.
Qed.

(** C1, as the code has it. On finance inputs that hold every entry the call
    reads (the optional ones where the size is positive) and for an
    installation year that is not negative, [get_total_equipment_cost]
    returns the sum of thirteen terms: the BOS capital cost, sized by the PV
    array; the capital cost of diesel, PV and storage from their own sizes;
    the installation cost of PV; the capital and installation cost of the
    clean-water and hot-water tanks when their number is positive; the
    installation cost of PV-T when its size is positive; the surcharge
    [(pv_array_size + diesel_size) * misc_cost]; a diesel installation cost
    and a PV-T capital cost, which are those of the formulas on the
    component's own size when that size is the size of the PV array. BOS and
    storage have no installation cost. *)
Theorem total_equipment_cost_terms (finance_inputs : gmap string pyobj)
    (costs : ImpactingComponent -> component_costs) (misc_cost : R)
    (clean_water_tanks diesel_size hot_water_tanks pv_array_size
     pvt_array_size storage_size : R) (installation_year : Z) :
  has_costs finance_inputs BOS (costs BOS) ->
  has_costs finance_inputs DIESEL (costs DIESEL) ->
  has_costs finance_inputs PV (costs PV) ->
  has_costs finance_inputs STORAGE (costs STORAGE) ->
  getitem2 finance_inputs (value MISC) COST = Ok misc_cost ->
  ((0 < clean_water_tanks)%R ->
   has_costs finance_inputs CLEAN_WATER_TANK (costs CLEAN_WATER_TANK)) ->
  ((0 < hot_water_tanks)%R ->
   has_costs finance_inputs HOT_WATER_TANK (costs HOT_WATER_TANK)) ->
  ((0 < pvt_array_size)%R ->
   has_costs finance_inputs PV_T (costs PV_T)) ->
  0 <= installation_year ->
  exists t,
    equipment_cost_terms clean_water_tanks diesel_size finance_inputs
      (Number hot_water_tanks) LoggerObj pv_array_size pvt_array_size
      storage_size installation_year = Ok t /\
    get_total_equipment_cost clean_water_tanks diesel_size finance_inputs
      (Number hot_water_tanks) LoggerObj pv_array_size pvt_array_size
      storage_size installation_year = Ok (sum_of_terms t) /\
    bos_cost t = capital (costs BOS) pv_array_size installation_year /\
    diesel_cost t = capital (costs DIESEL) diesel_size installation_year /\
    pv_cost t = capital (costs PV) pv_array_size installation_year /\
    pv_installation_cost t
    = installation (costs PV) pv_array_size installation_year /\
    storage_cost t = capital (costs STORAGE) storage_size installation_year /\
    clean_water_tank_cost t
    = when_present clean_water_tanks
        (capital (costs CLEAN_WATER_TANK) clean_water_tanks
           installation_year) /\
    clean_water_tank_installation_cost t
    = when_present clean_water_tanks
        (installation (costs CLEAN_WATER_TANK) clean_water_tanks
           installation_year) /\
    hot_water_tank_cost t
    = when_present hot_water_tanks
        (capital (costs HOT_WATER_TANK) hot_water_tanks installation_year) /\
    hot_water_tank_installation_cost t
    = when_present hot_water_tanks
        (installation (costs HOT_WATER_TANK) hot_water_tanks
           installation_year) /\
    pvt_installation_cost t
    = when_present pvt_array_size
        (installation (costs PV_T) pvt_array_size installation_year) /\
    misc_costs t = ((pv_array_size + diesel_size) * misc_cost)%R /\
    (diesel_size = pv_array_size ->
     diesel_installation_cost t
     = installation (costs DIESEL) diesel_size installation_year) /\
    (~ (0 < pvt_array_size)%R \/ pvt_array_size = pv_array_size ->
     pvt_cost t
     = when_present pvt_array_size
         (capital (costs PV_T) pvt_array_size installation_year)).
Proof.
  intros Hbos Hdiesel Hpv Hstorage Hmisc Hcw Hhw Hpvt Hyear.
  pose proof (equipment_cost_terms_ok finance_inputs costs misc_cost
                clean_water_tanks diesel_size hot_water_tanks pv_array_size
                pvt_array_size storage_size installation_year
                Hbos Hdiesel Hpv Hstorage Hmisc Hcw Hhw Hpvt Hyear) as E.
  eexists. split; [exact E|].
  split; [unfold get_total_equipment_cost; rewrite E; reflexivity|].
  cbn [bos_cost diesel_cost pv_cost pv_installation_cost storage_cost
       clean_water_tank_cost clean_water_tank_installation_cost
       hot_water_tank_cost hot_water_tank_installation_cost
       pvt_installation_cost misc_costs diesel_installation_cost pvt_cost].
  repeat (split; [reflexivity|]).
  split.
  - intros ->. reflexivity.
  - intros [H| ->]; [|reflexivity].
    rewrite !when_present_not_positive by exact H. reflexivity.
Qed.

Lemma total_equipment_cost_terms_witness :
  exists t,
    equipment_cost_terms 0 2 complete_inputs (Number 0) LoggerObj 2 0 3 1
    = Ok t /\
    get_total_equipment_cost 0 2 complete_inputs (Number 0) LoggerObj
      2 0 3 1 = Ok (sum_of_terms t) /\
    bos_cost t = capital (complete_costs BOS) 2 1 /\
    diesel_cost t = capital (complete_costs DIESEL) 2 1 /\
    pv_cost t = capital (complete_costs PV) 2 1 /\
    pv_installation_cost t = installation (complete_costs PV) 2 1 /\
    storage_cost t = capital (complete_costs STORAGE) 3 1 /\
    clean_water_tank_cost t
    = when_present 0 (capital (complete_costs CLEAN_WATER_TANK) 0 1) /\
    clean_water_tank_installation_cost t
    = when_present 0 (installation (complete_costs CLEAN_WATER_TANK) 0 1) /\
    hot_water_tank_cost t
    = when_present 0 (capital (complete_costs HOT_WATER_TANK) 0 1) /\
    hot_water_tank_installation_cost t
    = when_present 0 (installation (complete_costs HOT_WATER_TANK) 0 1) /\
    pvt_installation_cost t
    = when_present 0 (installation (complete_costs PV_T) 0 1) /\
    misc_costs t = ((2 + 2) * 10)%R /\
    (2%R = 2%R ->
     diesel_installation_cost t = installation (complete_costs DIESEL) 2 1) /\
    (~ (0 < 0)%R \/ 0%R = 2%R ->
     pvt_cost t = when_present 0 (capital (complete_costs PV_T) 0 1)).
Proof.
  apply (total_equipment_cost_terms complete_inputs complete_costs 10
           0 2 0 2 0 3 1).
  - repeat split; reflexivity.
  - repeat split; reflexivity.
  - repeat split; reflexivity.
  - repeat split; reflexivity.
  - reflexivity.
  - intros H. exfalso. lra.
  - intros H. exfalso. lra.
  - intros H. exfalso. lra.
  - lia.
Defined.

(** C1, as the specification has it, fails: storage has no installation
    cost in the code. With one unit of storage and nothing else, the call
    returns the capital cost of storage, 400, and the total of the
    specification is 800. *)
Lemma total_equipment_cost_not_spec_total :
  (forall c, c ∈ [BOS; DIESEL; PV; STORAGE] ->
             has_costs complete_inputs c (complete_costs c)) /\
  getitem2 complete_inputs (value MISC) COST = Ok 10%R /\
  get_total_equipment_cost 0 0 complete_inputs (Number 0) LoggerObj 0 0 1 0
  = Ok 400%R /\
  spec_total_equipment_cost complete_costs 10 0 0 0 0 0 1 0 = 800%R /\
  get_total_equipment_cost 0 0 complete_inputs (Number 0) LoggerObj 0 0 1 0
  <> Ok (spec_total_equipment_cost complete_costs 10 0 0 0 0 0 1 0).
Proof.
  assert (Hspec : spec_total_equipment_cost complete_costs 10 0 0 0 0 0 1 0
                  = 800%R).
  { unfold spec_total_equipment_cost.
    rewrite !when_present_not_positive by lra.
    unfold capital, installation, capital_cost, installation_cost.
    simpl. lra. }
  assert (Hcode : get_total_equipment_cost 0 0 complete_inputs (Number 0)
                    LoggerObj 0 0 1 0 = Ok 400%R).
  { unfold get_total_equipment_cost.
    rewrite (equipment_cost_terms_ok complete_inputs complete_costs 10)
      by first [ apply complete_inputs_costs; set_solver
               | exact complete_inputs_misc
               | intros H; exfalso; lra
               | lia ].
    cbn [bind]. f_equal.
    cbn [bos_cost diesel_cost pv_cost pv_installation_cost storage_cost
         clean_water_tank_cost clean_water_tank_installation_cost
         hot_water_tank_cost hot_water_tank_installation_cost
         pvt_installation_cost misc_costs diesel_installation_cost pvt_cost].
    rewrite !when_present_not_positive by lra.
    unfold capital, installation, capital_cost, installation_cost.
    simpl. lra. }
  split; [exact complete_inputs_costs|].
  split; [exact complete_inputs_misc|].
  split; [exact Hcode|]. split; [exact Hspec|].
  rewrite Hcode, Hspec. intros H. injection H as H. lra.
Qed.

(** A call that returns has returned from each of its steps. *)
Ltac bind_inv H :=
  repeat (cbn [bind] in H;
          match type of H with
          | bind ?m _ = Ok _ =>
              let E := fresh "E" in
              destruct m eqn:E; [| discriminate H | discriminate H]
          | (let '(_, _) := ?p in _) = Ok _ => destruct p
          end).

Lemma equipment_cost_terms_agree (inputs1 inputs2 : gmap string pyobj)
    (diesel_size : R) (hot_water_tanks logger : arg)
    (pv_array_size pvt_array_size storage_size : R) (installation_year : Z) :
  (forall key, key <> value CLEAN_WATER_TANK ->
               inputs1 !! key = inputs2 !! key) ->
  equipment_cost_terms 0 diesel_size inputs1 hot_water_tanks logger
    pv_array_size pvt_array_size storage_size installation_year
  = equipment_cost_terms 0 diesel_size inputs2 hot_water_tanks logger
      pv_array_size pvt_array_size storage_size installation_year.
Proof.
  intros H. unfold equipment_cost_terms.
  rewrite (require_inputs_not_positive inputs1 (value CLEAN_WATER_TANK) 0)
    by lra.
  rewrite (require_inputs_not_positive inputs2 (value CLEAN_WATER_TANK) 0)
    by lra.
  rewrite !(bool_decide_eq_false_2 (0 < 0)%R) by lra.
  rewrite !(getitem2_agree inputs1 inputs2 (value BOS))
    by (apply H; discriminate).
  rewrite !(getitem2_agree inputs1 inputs2 (value DIESEL))
    by (apply H; discriminate).
  rewrite !(getitem2_agree inputs1 inputs2 (value HOT_WATER_TANK))
    by (apply H; discriminate).
  rewrite !(getitem2_agree inputs1 inputs2 (value PV))
    by (apply H; discriminate).
  rewrite !(getitem2_agree inputs1 inputs2 (value PV_T))
    by (apply H; discriminate).
  rewrite !(getitem2_agree inputs1 inputs2 (value STORAGE))
    by (apply H; discriminate).
  rewrite !(getitem2_agree inputs1 inputs2 (value MISC))
    by (apply H; discriminate).
  rewrite !(require_inputs_agree inputs1 inputs2 (value HOT_WATER_TANK))
    by (apply H; discriminate).
  rewrite !(require_inputs_agree inputs1 inputs2 (value PV_T))
    by (apply H; discriminate).
  reflexivity.
Qed.

Lemma no_clean_water_tank_terms (diesel_size : R)
    (finance_inputs : gmap string pyobj) (hot_water_tanks logger : arg)
    (pv_array_size pvt_array_size storage_size : R) (installation_year : Z)
    (t : equipment_costs) :
  equipment_cost_terms 0 diesel_size finance_inputs hot_water_tanks logger
    pv_array_size pvt_array_size storage_size installation_year = Ok t ->
  clean_water_tank_cost t = 0%R /\
  clean_water_tank_installation_cost t = 0%R.
Proof.
  intros H. unfold equipment_cost_terms in H.
  rewrite !(bool_decide_eq_false_2 (0 < 0)%R) in H by lra.
  bind_inv H. injection H as <-. split; reflexivity.
Qed.

(** C7. When the BOS entry can be read (and its cost computed), then
    [get_total_equipment_cost] raises [InputFileError] on the finance inputs,
    with a message that names the clean-water information, whenever
    [clean_water_tanks > 0] and there is no CLEAN_WATER_TANK entry. With
    [clean_water_tanks = 0] its outcome is the same whatever CLEAN_WATER_TANK
    entry is present or absent, and in the total it returns the clean-water
    tank capital and installation terms are 0. And it does return a total:
    on finance inputs that hold the other entries the call reads, for a
    number of hot-water tanks and an installation year that is not negative,
    the call with [clean_water_tanks = 0] returns the sum of its terms, with
    the two clean-water terms 0, on these inputs, on these inputs with any
    CLEAN_WATER_TANK entry put in, and on these inputs with the
    CLEAN_WATER_TANK entry taken out. *)
Theorem clean_water_tank_inputs_required (finance_inputs : gmap string pyobj)
    (diesel_size : R) (hot_water_tanks : arg)
    (pv_array_size pvt_array_size storage_size : R) (installation_year : Z)
    (bos_unit_cost bos_cost_decrease : R) :
  getitem2 finance_inputs (value BOS) COST = Ok bos_unit_cost ->
  getitem2 finance_inputs (value BOS) COST_DECREASE = Ok bos_cost_decrease ->
  0 <= installation_year \/ (1 - 0.01 * bos_cost_decrease)%R <> 0%R ->
  (forall clean_water_tanks : R,
     (0 < clean_water_tanks)%R ->
     finance_inputs !! value CLEAN_WATER_TANK = None ->
     get_total_equipment_cost clean_water_tanks diesel_size finance_inputs
       hot_water_tanks LoggerObj pv_array_size pvt_array_size storage_size
       installation_year
     = Raise (InputFileError "finance inputs"
                "No clean-water financial input information provided and a non-zero number of clean-water tanks are being considered.")) /\
  (forall entry : pyobj,
     get_total_equipment_cost 0 diesel_size
       (<[value CLEAN_WATER_TANK := entry]> finance_inputs)
       hot_water_tanks LoggerObj pv_array_size pvt_array_size storage_size
       installation_year
     = get_total_equipment_cost 0 diesel_size
         (delete (value CLEAN_WATER_TANK) finance_inputs)
         hot_water_tanks LoggerObj pv_array_size pvt_array_size storage_size
         installation_year) /\
  (forall t : equipment_costs,
     equipment_cost_terms 0 diesel_size finance_inputs hot_water_tanks
       LoggerObj pv_array_size pvt_array_size storage_size
       installation_year = Ok t ->
     clean_water_tank_cost t = 0%R /\
     clean_water_tank_installation_cost t = 0%R /\
     get_total_equipment_cost 0 diesel_size finance_inputs hot_water_tanks
       LoggerObj pv_array_size pvt_array_size storage_size
       installation_year = Ok (sum_of_terms t)) /\
  (forall (costs : ImpactingComponent -> component_costs)
          (misc_cost number_of_hot_water_tanks : R),
     hot_water_tanks = Number number_of_hot_water_tanks ->
     has_costs finance_inputs BOS (costs BOS) ->
     has_costs finance_inputs DIESEL (costs DIESEL) ->
     has_costs finance_inputs PV (costs PV) ->
     has_costs finance_inputs STORAGE (costs STORAGE) ->
     getitem2 finance_inputs (value MISC) COST = Ok misc_cost ->
     ((0 < number_of_hot_water_tanks)%R ->
      has_costs finance_inputs HOT_WATER_TANK (costs HOT_WATER_TANK)) ->
     ((0 < pvt_array_size)%R ->
      has_costs finance_inputs PV_T (costs PV_T)) ->
     0 <= installation_year ->
     exists t : equipment_costs,
       equipment_cost_terms 0 diesel_size finance_inputs hot_water_tanks
         LoggerObj pv_array_size pvt_array_size storage_size
         installation_year = Ok t /\
       clean_water_tank_cost t = 0%R /\
       clean_water_tank_installation_cost t = 0%R /\
       get_total_equipment_cost 0 diesel_size finance_inputs
         hot_water_tanks LoggerObj pv_array_size pvt_array_size
         storage_size installation_year = Ok (sum_of_terms t) /\
       (forall entry : pyobj,
          get_total_equipment_cost 0 diesel_size
            (<[value CLEAN_WATER_TANK := entry]> finance_inputs)
            hot_water_tanks LoggerObj pv_array_size pvt_array_size
            storage_size installation_year = Ok (sum_of_terms t)) /\
       get_total_equipment_cost 0 diesel_size
         (delete (value CLEAN_WATER_TANK) finance_inputs)
         hot_water_tanks LoggerObj pv_array_size pvt_array_size
         storage_size installation_year = Ok (sum_of_terms t)).
Proof.
  intros Hcost Hdec Hyear. split; [|split; [|split]].
  - intros clean_water_tanks Hpos Hnone.
    unfold get_total_equipment_cost, equipment_cost_terms.
    rewrite Hcost. cbn [bind]. rewrite Hdec. cbn [bind].
    rewrite component_cost_ok by exact Hyear. cbn [bind].
    rewrite require_inputs_missing by assumption. reflexivity.
  - intros entry. unfold get_total_equipment_cost.
    rewrite (equipment_cost_terms_agree
               (<[value CLEAN_WATER_TANK := entry]> finance_inputs)
               (delete (value CLEAN_WATER_TANK) finance_inputs)).
    + reflexivity.
    + intros key Hkey.
      rewrite lookup_insert_ne, lookup_delete_ne by congruence.
      reflexivity.
  - intros t Ht.
    destruct (no_clean_water_tank_terms _ _ _ _ _ _ _ _ _ Ht) as [H1 H2].
    split; [exact H1|]. split; [exact H2|].
    unfold get_total_equipment_cost. rewrite Ht. reflexivity.
  - intros costs misc_cost hot -> Hbos Hdiesel Hpv Hstorage Hmisc Hhot Hpvt
      Hnonneg.
    pose proof (equipment_cost_terms_ok finance_inputs costs misc_cost
                  0 diesel_size hot pv_array_size pvt_array_size
                  storage_size installation_year Hbos Hdiesel Hpv Hstorage
                  Hmisc) as Ht.
    specialize (Ht ltac:(intros H; exfalso; lra) Hhot Hpvt Hnonneg).
    eexists. split; [exact Ht|].
    destruct (no_clean_water_tank_terms _ _ _ _ _ _ _ _ _ Ht) as [H1 H2].
    split; [exact H1|]. split; [exact H2|].
    unfold get_total_equipment_cost.
    split; [rewrite Ht; reflexivity|]. split.
    + intros entry.
      rewrite (equipment_cost_terms_agree
                 (<[value CLEAN_WATER_TANK := entry]> finance_inputs)
                 finance_inputs).
      * rewrite Ht. reflexivity.
      * intros key Hkey. apply lookup_insert_ne. congruence.
    + rewrite (equipment_cost_terms_agree
                 (delete (value CLEAN_WATER_TANK) finance_inputs)
                 finance_inputs).
      * rewrite Ht. reflexivity.
      * intros key Hkey. apply lookup_delete_ne. congruence.
Qed.

Lemma clean_water_tank_inputs_required_witness :
  get_total_equipment_cost 5 1 complete_inputs (Number 0) LoggerObj 2 0 3 1
  = Raise (InputFileError "finance inputs"
             "No clean-water financial input information provided and a non-zero number of clean-water tanks are being considered.") /\
  exists t : equipment_costs,
    equipment_cost_terms 0 1 complete_inputs (Number 0) LoggerObj 2 0 3 1
    = Ok t /\
    clean_water_tank_cost t = 0%R /\
    clean_water_tank_installation_cost t = 0%R /\
    get_total_equipment_cost 0 1 complete_inputs (Number 0) LoggerObj
      2 0 3 1 = Ok (sum_of_terms t) /\
    (forall entry : pyobj,
       get_total_equipment_cost 0 1
         (<[value CLEAN_WATER_TANK := entry]> complete_inputs)
         (Number 0) LoggerObj 2 0 3 1 = Ok (sum_of_terms t)) /\
    get_total_equipment_cost 0 1
      (delete (value CLEAN_WATER_TANK) complete_inputs)
      (Number 0) LoggerObj 2 0 3 1 = Ok (sum_of_terms t).
Proof.
  assert (Hyear : 0 <= 1 \/ (1 - 0.01 * 2)%R <> 0%R) by (left; lia).
  pose proof (clean_water_tank_inputs_required complete_inputs 1 (Number 0)
                2 0 3 1 100 2 eq_refl eq_refl Hyear)
    as (Hraise & _ & _ & Hreturns).
  clear Hyear. split.
  - apply Hraise; [lra | reflexivity].
  - apply (Hreturns complete_costs 10%R 0%R).
    + reflexivity.
    + apply complete_inputs_costs. set_solver.
    + apply complete_inputs_costs. set_solver.
    + apply complete_inputs_costs. set_solver.
    + apply complete_inputs_costs. set_solver.
    + exact complete_inputs_misc.
    + intros H. exfalso. lra.
    + intros H. exfalso. lra.
    + lia.
Defined.

(** ** The discounted equipment cost *)

Lemma equipment_cost_terms_logger_for_tanks (clean_water_tanks
    diesel_size : R) (finance_inputs : gmap string pyobj) (logger : arg)
    (pv_array_size pvt_array_size storage_size : R) (installation_year : Z) :
  ~ returns (equipment_cost_terms clean_water_tanks diesel_size
               finance_inputs LoggerObj logger pv_array_size pvt_array_size
               storage_size installation_year).
Proof.
  intros [t H]. unfold equipment_cost_terms in H.
  bind_inv H; discriminate.
Qed.

(** C9, which the code does not meet. [discounted_equipment_cost] passes its
    arguments to [get_total_equipment_cost] by position and leaves out
    [hot_water_tanks]: the logger takes its place, and the comparison
    [hot_water_tanks > 0] raises [TypeError]. The call never returns a value;
    on the complete finance inputs, where [get_total_equipment_cost] returns
    4030, it raises [TypeError]. *)
Theorem discounted_equipment_cost_never_returns :
  (forall (clean_water_tanks diesel_size : R)
          (finance_inputs : gmap string pyobj)
          (pv_array_size pvt_array_size storage_size : R)
          (installation_year : Z),
     ~ returns (discounted_equipment_cost clean_water_tanks diesel_size
                  finance_inputs LoggerObj pv_array_size pvt_array_size
                  storage_size installation_year)) /\
  get_total_equipment_cost 0 1 complete_inputs (Number 0) LoggerObj 2 0 3 0
  = Ok 4030%R /\
  discounted_equipment_cost 0 1 complete_inputs LoggerObj 2 0 3 0
  = Raise TypeError.
Proof.
  split; [|split].
  - intros cw d fi pv pvt st year [v H].
    unfold discounted_equipment_cost in H.
    destruct (bind_returns _ _ _ H) as (total & Htotal & _).
    unfold get_total_equipment_cost in Htotal.
    destruct (bind_returns _ _ _ Htotal) as (t & Ht & _).
    eapply equipment_cost_terms_logger_for_tanks. exists t. exact Ht.
  - unfold get_total_equipment_cost.
    rewrite (equipment_cost_terms_ok complete_inputs complete_costs 10)
      by first [ apply complete_inputs_costs; set_solver
               | exact complete_inputs_misc
               | intros H; exfalso; lra
               | lia ].
    cbn [bind]. f_equal.
    cbn [bos_cost diesel_cost pv_cost pv_installation_cost storage_cost
         clean_water_tank_cost clean_water_tank_installation_cost
         hot_water_tank_cost hot_water_tank_installation_cost
         pvt_installation_cost misc_costs diesel_installation_cost pvt_cost].
    rewrite !when_present_not_positive by lra.
    unfold capital, installation, capital_cost, installation_cost.
    simpl. lra.
  - unfold discounted_equipment_cost, get_total_equipment_cost,
      equipment_cost_terms.
    destruct (complete_inputs_costs BOS ltac:(set_solver))
      as (Hb1 & Hb2 & _ & _).
    destruct (complete_inputs_costs DIESEL ltac:(set_solver))
      as (Hd1 & Hd2 & Hd3 & Hd4).
    rewrite (require_inputs_not_positive complete_inputs
               (value CLEAN_WATER_TANK) 0) by lra.
    rewrite !(bool_decide_eq_false_2 (0 < 0)%R) by lra.
    repeat (cbn [bind];
            first [ rewrite_installation_key
                  | rewrite_lookup
                  | rewrite component_cost_ok by (left; lia)
                  | rewrite component_installation_cost_ok
                      by (left; lia) ]).
    reflexivity.
Qed.

(** ** The entries that are read whatever the sizes *)

Lemma well_formed_lookups (finance_inputs : gmap string pyobj)
    (c : ImpactingComponent) (entry : pyobj) :
  finance_inputs !! value c = Some entry ->
  well_formed_entry entry ->
  exists x y z,
    getitem2 finance_inputs (value c) COST = Ok x /\
    getitem2 finance_inputs (value c) COST_DECREASE = Ok y /\
    getitem2 finance_inputs (value c) OM = Ok z.
Proof.
  intros H (d & x & y & z & -> & Hx & Hy & Hz).
  exists (to_R x), (to_R y), (to_R z).
  repeat split; eapply getitem2_ok; eauto.
Qed.

Lemma getfloat_missing (finance_inputs : gmap string pyobj) (key : string) :
  finance_inputs !! key = None ->
  getfloat finance_inputs key = Raise (KeyError key).
Proof. intros H. unfold getfloat, getitem. rewrite H. reflexivity. Qed.

Lemma getfloat_returns (finance_inputs : gmap string pyobj) (key : string)
    (x : R) :
  getfloat finance_inputs key = Ok x ->
  exists v, finance_inputs !! key = Some (Num v).
Proof.
  unfold getfloat, getitem. intros H.
  destruct (finance_inputs !! key) as [[v|d]|]; try discriminate. eauto.
Qed.

Lemma getitem2_present (finance_inputs : gmap string pyobj)
    (component key : string) (x : R) :
  getitem2 finance_inputs component key = Ok x ->
  finance_inputs !! component <> None.
Proof.
  intros H. apply getitem2_returns in H as (d & v & H & _). congruence.
Qed.

(** One step of the reading of a required entry: it is missing, and the call
    raises [KeyError] for it, or it is well formed and its costs are read. *)
Ltac read_entry fi c wf keys H1 H2 H3 :=
  let E := fresh "E" in
  let x := fresh "x" in
  let y := fresh "y" in
  let z := fresh "z" in
  destruct (fi !! value c) as [?entry|] eqn:E;
  [ destruct (well_formed_lookups fi c _ E (wf c _ E))
      as (x & y & z & H1 & H2 & H3)
  | left; exists (value c);
    split; [unfold keys; set_solver|];
    split; [exact E|];
    rewrite (getitem2_missing fi (value c)) by exact E; reflexivity ].

Lemma get_total_equipment_cost_no_sizes (finance_inputs : gmap string pyobj)
    (installation_year : Z) :
  present_entries_well_formed finance_inputs ->
  0 <= installation_year ->
  (exists key,
      key ∈ equipment_keys /\ finance_inputs !! key = None /\
      get_total_equipment_cost 0 0 finance_inputs (Number 0) LoggerObj
        0 0 0 installation_year = Raise (KeyError key)) \/
  (Forall (fun key => finance_inputs !! key <> None) equipment_keys /\
   returns (get_total_equipment_cost 0 0 finance_inputs (Number 0) LoggerObj
              0 0 0 installation_year)).
Proof.
  intros (Hwf & _ & _) Hyear.
  unfold get_total_equipment_cost, equipment_cost_terms.
  change INSTALLATION_COST with COST.
  change INSTALLATION_COST_DECREASE with COST_DECREASE.
  cbn [gt_zero].
  rewrite (require_inputs_not_positive finance_inputs
             (value CLEAN_WATER_TANK) 0),
          (require_inputs_not_positive finance_inputs
             (value HOT_WATER_TANK) 0),
          (require_inputs_not_positive finance_inputs (value PV_T) 0)
    by lra.
  rewrite !(bool_decide_eq_false_2 (0 < 0)%R) by lra.
  read_entry finance_inputs BOS Hwf equipment_keys Hb1 Hb2 Hb3.
  rewrite Hb1, Hb2. cbn [bind].
  rewrite component_cost_ok by (left; exact Hyear). cbn [bind].
  read_entry finance_inputs DIESEL Hwf equipment_keys Hd1 Hd2 Hd3.
  rewrite !Hd1, !Hd2. cbn [bind].
  rewrite component_cost_ok, component_installation_cost_ok
    by (left; exact Hyear).
  cbn [bind].
  read_entry finance_inputs PV Hwf equipment_keys Hp1 Hp2 Hp3.
  rewrite !Hp1, !Hp2. cbn [bind].
  rewrite component_cost_ok, component_installation_cost_ok
    by (left; exact Hyear).
  cbn [bind].
  read_entry finance_inputs STORAGE Hwf equipment_keys Hs1 Hs2 Hs3.
  rewrite !Hs1, !Hs2. cbn [bind].
  rewrite component_cost_ok by (left; exact Hyear). cbn [bind].
  read_entry finance_inputs MISC Hwf equipment_keys Hm1 Hm2 Hm3.
  rewrite Hm1. cbn [bind].
  right. split.
  - unfold equipment_keys. repeat constructor; congruence.
  - eexists. reflexivity.
Qed.

Ltac read_om fi c wf H3 rate Hrate Hr Hwin :=
  let E := fresh "E" in
  let x := fresh "x" in
  let y := fresh "y" in
  let z := fresh "z" in
  let H1 := fresh "H" in
  let H2 := fresh "H" in
  let v := fresh "v" in
  let Hv := fresh "Hv" in
  destruct (fi !! value c) as [?entry|] eqn:E;
  [ destruct (well_formed_lookups fi c _ E (wf c _ E))
      as (x & y & z & H1 & H2 & H3);
    rewrite H3; cbn [bind];
    destruct (component_om_ok z 0 fi LoggerObj _ _ rate Hrate Hr Hwin)
      as [v Hv];
    rewrite Hv; cbn [bind]
  | left; exists (value c);
    split; [unfold om_keys; set_solver|];
    split; [exact E|];
    rewrite (getitem2_missing fi (value c)) by exact E; reflexivity ].

Lemma total_om_no_sizes (finance_inputs : gmap string pyobj)
    (start_year end_year : Z) :
  present_entries_well_formed finance_inputs ->
  start_year < end_year ->
  (exists key,
      key ∈ om_keys /\ finance_inputs !! key = None /\
      total_om 0 0 finance_inputs 0 LoggerObj 0 0 0 start_year end_year
      = Raise (KeyError key)) \/
  (Forall (fun key => finance_inputs !! key <> None) om_keys /\
   returns (total_om 0 0 finance_inputs 0 LoggerObj 0 0 0
              start_year end_year)).
Proof.
  intros (Hwf & Hgeneral & rate & Hrate & Hr) Hwin.
  unfold total_om.
  rewrite (require_inputs_not_positive finance_inputs
             (value CLEAN_WATER_TANK) 0),
          (require_inputs_not_positive finance_inputs
             (value HOT_WATER_TANK) 0),
          (require_inputs_not_positive finance_inputs (value PV_T) 0)
    by lra.
  rewrite !(bool_decide_eq_false_2 (0 < 0)%R) by lra.
  cbn [bind].
  read_om finance_inputs DIESEL Hwf Hd rate Hrate Hr Hwin.
  destruct (finance_inputs !! GENERAL_OM) as [general|] eqn:Egeneral.
  2:{ left. exists GENERAL_OM. split; [unfold om_keys; set_solver|].
      split; [exact Egeneral|].
      rewrite getfloat_missing by exact Egeneral. reflexivity. }
  destruct (Hgeneral _ eq_refl) as [g ->].
  rewrite (getfloat_ok _ _ _ Egeneral). cbn [bind].
  destruct (component_om_ok (to_R g) 1 finance_inputs LoggerObj _ _ rate
              Hrate Hr Hwin) as [vg Hvg].
  rewrite Hvg. cbn [bind].
  read_om finance_inputs PV Hwf Hp rate Hrate Hr Hwin.
  read_om finance_inputs STORAGE Hwf Hs rate Hrate Hr Hwin.
  right. split.
  - unfold om_keys. repeat constructor; congruence.
  - eexists. reflexivity.
Qed.

Lemma get_total_equipment_cost_reads (clean_water_tanks diesel_size : R)
    (finance_inputs : gmap string pyobj) (hot_water_tanks logger : arg)
    (pv_array_size pvt_array_size storage_size : R) (installation_year : Z) :
  returns (get_total_equipment_cost clean_water_tanks diesel_size
             finance_inputs hot_water_tanks logger pv_array_size
             pvt_array_size storage_size installation_year) ->
  Forall (fun key => finance_inputs !! key <> None) equipment_keys.
Proof.
  intros [v H]. unfold get_total_equipment_cost in H.
  destruct (bind_returns _ _ _ H) as (t & Ht & _). clear H.
  unfold equipment_cost_terms in Ht. bind_inv Ht.
  unfold equipment_keys.
  repeat constructor; eapply getitem2_present; eassumption.
Qed.

Lemma total_om_reads (clean_water_tanks diesel_size : R)
    (finance_inputs : gmap string pyobj) (hot_water_tanks : R)
    (logger : arg) (pv_array_size pvt_array_size storage_size : R)
    (start_year end_year : Z) :
  returns (total_om clean_water_tanks diesel_size finance_inputs
             hot_water_tanks logger pv_array_size pvt_array_size
             storage_size start_year end_year) ->
  Forall (fun key => finance_inputs !! key <> None) om_keys.
Proof.
  intros [v H]. unfold total_om in H. bind_inv H.
  unfold om_keys.
  repeat constructor;
    first [ eapply getitem2_present; eassumption
          | match goal with
            | E : getfloat _ _ = Ok _ |- _ =>
                apply getfloat_returns in E as [? E]; congruence
            end ].
Qed.

Lemma missing_not_all_present (finance_inputs : gmap string pyobj)
    (keys : list string) :
  Exists (fun key => finance_inputs !! key = None) keys ->
  Forall (fun key => finance_inputs !! key <> None) keys -> False.
Proof.
  intros Hex Hall. apply Exists_exists in Hex as (key & Hin & Hnone).
  rewrite Forall_forall in Hall. exact (Hall key Hin Hnone).
Qed.

Lemma complete_inputs_well_formed :
  present_entries_well_formed complete_inputs.
Proof.
  split; [|split].
  - intros c entry H.
    destruct c; try discriminate H; injection H as <-;
      do 4 eexists; repeat split; reflexivity.
  - intros entry H. injection H as <-. eexists; reflexivity.
  - exists (Float 0.1). split; [reflexivity | simpl; lra].
Qed.

Lemma without_storage_well_formed :
  present_entries_well_formed (delete (value STORAGE) complete_inputs).
Proof.
  split; [|split].
  - intros c entry H.
    destruct c; try discriminate H; injection H as <-;
      do 4 eexists; repeat split; reflexivity.
  - intros entry H. injection H as <-. eexists; reflexivity.
  - exists (Float 0.1). split; [reflexivity | simpl; lra].
Qed.

(** C10. [get_total_equipment_cost] reads the BOS, diesel-generator, PV,
    storage and misc entries, and [total_om] the diesel-generator, general
    O&M, PV and storage entries, whatever the sizes: on finance inputs that
    lack one of them the call returns no value, for any sizes. When the
    entries that are present are well formed and every size is zero, the
    call raises [KeyError] for a missing one of these entries; and when none
    of them is missing it returns, whether or not the CLEAN_WATER_TANK,
    HOT_WATER_TANK and PV_T entries are present. *)
Theorem required_entries_read_whatever_the_sizes
    (finance_inputs : gmap string pyobj) :
  (Exists (fun key => finance_inputs !! key = None) equipment_keys ->
   forall (clean_water_tanks diesel_size : R) (hot_water_tanks logger : arg)
          (pv_array_size pvt_array_size storage_size : R)
          (installation_year : Z),
     ~ returns (get_total_equipment_cost clean_water_tanks diesel_size
                  finance_inputs hot_water_tanks logger pv_array_size
                  pvt_array_size storage_size installation_year)) /\
  (Exists (fun key => finance_inputs !! key = None) om_keys ->
   forall (clean_water_tanks diesel_size hot_water_tanks : R) (logger : arg)
          (pv_array_size pvt_array_size storage_size : R)
          (start_year end_year : Z),
     ~ returns (total_om clean_water_tanks diesel_size finance_inputs
                  hot_water_tanks logger pv_array_size pvt_array_size
                  storage_size start_year end_year)) /\
  (present_entries_well_formed finance_inputs ->
   (forall installation_year : Z,
      0 <= installation_year ->
      (Exists (fun key => finance_inputs !! key = None) equipment_keys ->
       exists key,
         key ∈ equipment_keys /\ finance_inputs !! key = None /\
         get_total_equipment_cost 0 0 finance_inputs (Number 0) LoggerObj
           0 0 0 installation_year = Raise (KeyError key)) /\
      (Forall (fun key => finance_inputs !! key <> None) equipment_keys ->
       returns (get_total_equipment_cost 0 0 finance_inputs (Number 0)
                  LoggerObj 0 0 0 installation_year))) /\
   (forall start_year end_year : Z,
      start_year < end_year ->
      (Exists (fun key => finance_inputs !! key = None) om_keys ->
       exists key,
         key ∈ om_keys /\ finance_inputs !! key = None /\
         total_om 0 0 finance_inputs 0 LoggerObj 0 0 0 start_year end_year
         = Raise (KeyError key)) /\
      (Forall (fun key => finance_inputs !! key <> None) om_keys ->
       returns (total_om 0 0 finance_inputs 0 LoggerObj 0 0 0
                  start_year end_year)))).
Proof.
  split; [|split].
  - intros Hmissing cw d hw logger pv pvt st year Hret.
    apply (missing_not_all_present _ _ Hmissing).
    eapply get_total_equipment_cost_reads, Hret.
  - intros Hmissing cw d hw logger pv pvt st s e Hret.
    apply (missing_not_all_present _ _ Hmissing).
    eapply total_om_reads, Hret.
  - intros Hwf. split.
    + intros year Hyear.
      destruct (get_total_equipment_cost_no_sizes _ _ Hwf Hyear)
        as [Hkey|[Hall Hret]]; split.
      * intros _. exact Hkey.
      * intros Hall. destruct Hkey as (key & Hin & Hnone & _).
        rewrite Forall_forall in Hall. destruct (Hall key Hin Hnone).
      * intros Hmissing.
        destruct (missing_not_all_present _ _ Hmissing Hall).
      * intros _. exact Hret.
    + intros s e Hwin.
      destruct (total_om_no_sizes _ _ _ Hwf Hwin)
        as [Hkey|[Hall Hret]]; split.
      * intros _. exact Hkey.
      * intros Hall. destruct Hkey as (key & Hin & Hnone & _).
        rewrite Forall_forall in Hall. destruct (Hall key Hin Hnone).
      * intros Hmissing.
        destruct (missing_not_all_present _ _ Hmissing Hall).
      * intros _. exact Hret.
Qed.

Lemma required_entries_read_whatever_the_sizes_witness :
  (exists key,
      key ∈ equipment_keys /\
      delete (value STORAGE) complete_inputs !! key = None /\
      get_total_equipment_cost 0 0 (delete (value STORAGE) complete_inputs)
        (Number 0) LoggerObj 0 0 0 0 = Raise (KeyError key)) /\
  (exists key,
      key ∈ om_keys /\
      delete (value STORAGE) complete_inputs !! key = None /\
      total_om 0 0 (delete (value STORAGE) complete_inputs) 0 LoggerObj
        0 0 0 0 20 = Raise (KeyError key)) /\
  returns (get_total_equipment_cost 0 0 complete_inputs (Number 0) LoggerObj
             0 0 0 0) /\
  returns (total_om 0 0 complete_inputs 0 LoggerObj 0 0 0 0 20).
Proof.
  pose proof (required_entries_read_whatever_the_sizes
                (delete (value STORAGE) complete_inputs))
    as (_ & _ & Hwithout).
  pose proof (required_entries_read_whatever_the_sizes complete_inputs)
    as (_ & _ & Hcomplete).
  specialize (Hwithout without_storage_well_formed).
  specialize (Hcomplete complete_inputs_well_formed).
  destruct Hwithout as [He Ho]. destruct Hcomplete as [He' Ho'].
  split; [|split; [|split]].
  - apply (He 0); [lia|].
    unfold equipment_keys. do 3 apply Exists_cons_tl. apply Exists_cons_hd.
    reflexivity.
  - apply (Ho 0 20); [lia|].
    unfold om_keys. do 3 apply Exists_cons_tl. apply Exists_cons_hd.
    reflexivity.
  - apply (He' 0); [lia|].
    unfold equipment_keys. repeat constructor; discriminate.
  - apply (Ho' 0 20); [lia|].
    unfold om_keys. repeat constructor; discriminate.
Defined.

(** ** The two terms that are sized by the PV array *)

(** One unit of diesel capacity and no PV: the capital cost of diesel, 200,
    and the surcharge, 10, are charged; the installation cost of diesel,
    sized by the PV array, is 0. *)
Lemma diesel_installation_sized_by_pv_array :
  get_total_equipment_cost 0 1 complete_inputs (Number 0) LoggerObj 0 0 0 0
  = Ok 210%R.
Proof.
  unfold get_total_equipment_cost.
  rewrite (equipment_cost_terms_ok complete_inputs complete_costs 10)
    by first [ apply complete_inputs_costs; set_solver
             | exact complete_inputs_misc
             | intros H; exfalso; lra
             | lia ].
  cbn [bind]. f_equal.
  cbn [bos_cost diesel_cost pv_cost pv_installation_cost storage_cost
       clean_water_tank_cost clean_water_tank_installation_cost
       hot_water_tank_cost hot_water_tank_installation_cost
       pvt_installation_cost misc_costs diesel_installation_cost pvt_cost].
  rewrite !when_present_not_positive by lra.
  unfold capital, installation, capital_cost, installation_cost.
  simpl. lra.
Qed.

(** One unit of PV-T and no PV: the installation cost of PV-T, 300, is
    charged; its capital cost, sized by the PV array, is 0. *)
Lemma pvt_capital_sized_by_pv_array :
  get_total_equipment_cost 0 0 inputs_with_pvt (Number 0) LoggerObj 0 1 0 0
  = Ok 300%R.
Proof.
  unfold get_total_equipment_cost.
  rewrite (equipment_cost_terms_ok inputs_with_pvt costs_with_pvt 10)
    by first [ repeat split; reflexivity
             | intros H; exfalso; lra
             | lia ].
  cbn [bind]. f_equal.
  cbn [bos_cost diesel_cost pv_cost pv_installation_cost storage_cost
       clean_water_tank_cost clean_water_tank_installation_cost
       hot_water_tank_cost hot_water_tank_installation_cost
       pvt_installation_cost misc_costs diesel_installation_cost pvt_cost].
  unfold when_present.
  rewrite !(bool_decide_eq_false_2 (0 < 0)%R),
          !(bool_decide_eq_true_2 (0 < 1)%R) by lra.
  unfold capital, installation, capital_cost, installation_cost.
  simpl. lra.
Qed.

(** * Further properties of the finance module *)

(** ** The daily rate and the daily fractions *)

Lemma daily_factor_year (r : R) :
  (-1 < r)%R -> (daily_factor r ^ 365)%R = (1 + r)%R.
Proof.
  intros Hr.
  rewrite <- Rpower_pow by apply daily_factor_positive.
  unfold daily_factor. rewrite Rpower_mult.
  replace (INR 365) with 365%R
    by (rewrite INR_IZR_INZ; f_equal; vm_compute; reflexivity).
  replace (1 / 365 * 365)%R with 1%R by lra.
  apply Rpower_1. lra.
Qed.

Lemma daily_factor_years (r : R) (k : Z) :
  (-1 < r)%R ->
  powerRZ (daily_factor r) (k * 365) = powerRZ (1 + r) k.
Proof.
  intros Hr.
  rewrite !powerRZ_Rpower by (try apply daily_factor_positive; lra).
  unfold daily_factor. rewrite Rpower_mult. f_equal.
  rewrite mult_IZR. lra.
Qed.

(** X1. Compounding the daily rate over 365 days gives back the annual
    rate: for a rate above -1, [_daily_discount_rate] returns a rate [r_d]
    above -1 with [(1 + r_d) ^ 365 = 1 + discount_rate]; it is 0 for the
    rate 0, and positive for a positive rate. *)
Theorem daily_discount_rate_compounds (discount_rate : R) :
  (-1 < discount_rate)%R ->
  exists r_d,
    _daily_discount_rate discount_rate = Ok r_d /\
    ((1 + r_d) ^ 365)%R = (1 + discount_rate)%R /\
    (-1 < r_d)%R /\
    (discount_rate = 0%R -> r_d = 0%R) /\
    ((0 < discount_rate)%R -> (0 < r_d)%R).
Proof.
  intros Hr. exists (daily_factor discount_rate - 1)%R.
  split; [apply daily_discount_rate_ok, Hr|].
  split.
  { replace (1 + (daily_factor discount_rate - 1))%R
      with (daily_factor discount_rate) by lra.
    apply daily_factor_year, Hr. }
  split; [pose proof (daily_factor_positive discount_rate); lra|].
  split.
  - intros ->. rewrite daily_factor_zero. lra.
  - intros Hpos. pose proof (daily_factor_above_one _ Hpos). lra.
Qed.

Lemma daily_discount_rate_compounds_witness :
  exists r_d,
    _daily_discount_rate (5 / 100) = Ok r_d /\
    ((1 + r_d) ^ 365)%R = (1 + 5 / 100)%R /\
    (-1 < r_d)%R /\
    ((5 / 100)%R = 0%R -> r_d = 0%R) /\
    ((0 < 5 / 100)%R -> (0 < r_d)%R).
Proof.
  apply (daily_discount_rate_compounds (5 / 100)%R). lra.
Defined.

(** X2. On the first day of a year the daily fraction is the annual one:
    for a rate above -1 and a year [k] of the window, the value that
    [_discounted_fraction] gives for day [k * 365] is
    [(1 + discount_rate) ^ (- k)]. *)
Theorem discounted_fraction_whole_years (discount_rate : R)
    (start_year end_year k : Z) :
  (-1 < discount_rate)%R ->
  start_year <= k < end_year ->
  exists fractions,
    _discounted_fraction discount_rate start_year end_year = Ok fractions /\
    fractions !! Z.to_nat ((k - start_year) * 365)
    = Some (powerRZ (1 + discount_rate) (- k)).
Proof.
  intros Hr Hk. eexists.
  split; [apply discounted_fraction_ok, Hr|].
  rewrite list_lookup_fmap.
  replace ((k - start_year) * 365) with (k * 365 - start_year * 365) by lia.
  rewrite lookup_py_range by lia. simpl. f_equal.
  replace (- (k * 365)) with (- k * 365) by lia.
  apply daily_factor_years, Hr.
Qed.

Lemma discounted_fraction_whole_years_witness :
  exists fractions,
    _discounted_fraction (5 / 100) 0 20 = Ok fractions /\
    fractions !! Z.to_nat ((3 - 0) * 365)
    = Some (powerRZ (1 + 5 / 100) (- 3)).
Proof.
  apply (discounted_fraction_whole_years (5 / 100)%R 0 20 3); [lra | lia].
Defined.

(** X3. The fractions of two adjacent windows are those of the whole: for a
    rate above -1 and [start_year <= middle_year <= end_year], the sequence
    for [start_year .. end_year] is the sequence for
    [start_year .. middle_year] followed by that for
    [middle_year .. end_year]. *)
Theorem discounted_fraction_adjacent_windows (discount_rate : R)
    (start_year middle_year end_year : Z) :
  (-1 < discount_rate)%R ->
  start_year <= middle_year <= end_year ->
  exists first second,
    _discounted_fraction discount_rate start_year middle_year = Ok first /\
    _discounted_fraction discount_rate middle_year end_year = Ok second /\
    _discounted_fraction discount_rate start_year end_year
    = Ok (first ++ second).
Proof.
  intros Hr Hm. do 2 eexists.
  split; [apply discounted_fraction_ok, Hr|].
  split; [apply discounted_fraction_ok, Hr|].
  rewrite discounted_fraction_ok by exact Hr. f_equal.
  rewrite <- map_app. f_equal. unfold py_range.
  replace (end_year * 365 - start_year * 365)
    with ((middle_year * 365 - start_year * 365)
          + (end_year * 365 - middle_year * 365)) by lia.
  rewrite seqZ_app by lia. do 2 f_equal. lia.
Qed.

Lemma discounted_fraction_adjacent_windows_witness :
  exists first second,
    _discounted_fraction (5 / 100) 0 4 = Ok first /\
    _discounted_fraction (5 / 100) 4 20 = Ok second /\
    _discounted_fraction (5 / 100) 0 20 = Ok (first ++ second).
Proof.
  apply (discounted_fraction_adjacent_windows (5 / 100)%R 0 4 20);
    [lra | lia].
Defined.

Lemma powerRZ_neg_le_one (d : R) (t : Z) :
  (1 <= d)%R -> 0 <= t -> (0 < powerRZ d (- t) <= 1)%R.
Proof.
  intros Hd Ht. split; [apply powerRZ_lt; lra|].
  rewrite powerRZ_neg'.
  replace t with (Z.of_nat (Z.to_nat t)) by lia.
  rewrite <- pow_powerRZ.
  pose proof (pow_R1_Rle d (Z.to_nat t) Hd) as H.
  rewrite <- Rinv_1. apply Rinv_le_contravar; lra.
Qed.

Lemma powerRZ_neg_ge_one (d : R) (t : Z) :
  (0 < d <= 1)%R -> 0 <= t -> (1 <= powerRZ d (- t))%R.
Proof.
  intros Hd Ht.
  rewrite powerRZ_neg'.
  replace t with (Z.of_nat (Z.to_nat t)) by lia.
  rewrite <- pow_powerRZ.
  assert (Hpos : (0 < d ^ Z.to_nat t)%R) by (apply pow_lt; lra).
  assert (Hle : (d ^ Z.to_nat t <= 1)%R).
  { rewrite <- (pow1 (Z.to_nat t)). apply pow_incr. lra. }
  rewrite <- Rinv_1. apply Rinv_le_contravar; lra.
Qed.

Lemma daily_factor_at_most_one (r : R) :
  (-1 < r <= 0)%R -> (daily_factor r <= 1)%R.
Proof.
  intros Hr. unfold daily_factor.
  assert (H1 : Rpower 1 (1 / 365) = 1%R).
  { unfold Rpower. rewrite ln_1, Rmult_0_r. apply exp_0. }
  apply Rle_trans with (Rpower 1 (1 / 365));
    [apply Rle_Rpower_l; lra | rewrite H1; lra].
Qed.

(** X4. From the epoch onwards a discount never grows a value and a
    negative rate never shrinks it: for [start_year >= 0], every fraction
    lies in (0, 1] when the rate is not negative, and is at least 1 when
    the rate lies in (-1, 0]. *)
Theorem discounted_fraction_bounds (discount_rate : R)
    (start_year end_year : Z) :
  (-1 < discount_rate)%R ->
  0 <= start_year ->
  exists fractions,
    _discounted_fraction discount_rate start_year end_year = Ok fractions /\
    ((0 <= discount_rate)%R ->
     Forall (fun x => (0 < x <= 1)%R) fractions) /\
    ((discount_rate <= 0)%R -> Forall (fun x => (1 <= x)%R) fractions).
Proof.
  intros Hr Hstart. eexists.
  split; [apply discounted_fraction_ok, Hr|].
  split; intros Hsign; apply Forall_forall; intros x Hx;
    apply list_elem_of_fmap in Hx as (t & -> & Ht);
    apply elem_of_seqZ in Ht.
  - apply powerRZ_neg_le_one; [|lia].
    destruct (Req_dec discount_rate 0) as [->|Hne].
    + rewrite daily_factor_zero. lra.
    + apply Rlt_le, daily_factor_above_one. lra.
  - apply powerRZ_neg_ge_one; [|lia].
    split; [apply daily_factor_positive|].
    apply daily_factor_at_most_one. lra.
Qed.

Lemma discounted_fraction_bounds_witness :
  exists fractions,
    _discounted_fraction (5 / 100) 0 20 = Ok fractions /\
    ((0 <= 5 / 100)%R -> Forall (fun x => (0 < x <= 1)%R) fractions) /\
    ((5 / 100 <= 0)%R -> Forall (fun x => (1 <= x)%R) fractions).
Proof.
  apply (discounted_fraction_bounds (5 / 100)%R 0 20); [lra | lia].
Defined.

Lemma for_each_raises {A B : Type} (f : A -> result B) (e : exn)
    (l : list A) :
  Forall (fun a => returns (f a) \/ f a = Raise e) l ->
  Exists (fun a => f a = Raise e) l ->
  for_each f l = Raise e.
Proof.
  induction 1 as [|a l Ha _ IH]; intros Hex; [inversion Hex|].
  simpl. destruct Ha as [[b Hb]|Ha].
  - rewrite Hb. simpl. rewrite IH; [reflexivity|].
    inversion Hex as [? ? H|]; subst; [congruence | assumption].
  - rewrite Ha. reflexivity.
Qed.

(** X5. Rates of -1 and below give no fractions for a window that has a
    day: with the rate -1 the denominator is 0 and, for a window that
    reaches a day after the epoch, the call raises [ZeroDivisionError]; with
    a rate below -1 the daily rate is a complex number, and so is every
    fraction of a window that is not empty. The rate is not looked at for an
    empty window: whatever the rate, the call then returns an empty
    frame. *)
Theorem discounted_fraction_rate_at_most_minus_one (discount_rate : R)
    (start_year end_year : Z) :
  (discount_rate = (-1)%R -> start_year < end_year -> 1 <= end_year ->
   _discounted_fraction discount_rate start_year end_year
   = Raise ZeroDivisionError) /\
  ((discount_rate < -1)%R -> start_year < end_year ->
   _discounted_fraction discount_rate start_year end_year = NonReal) /\
  (end_year <= start_year ->
   _discounted_fraction discount_rate start_year end_year = Ok []).
Proof.
  split; [|split].
  - intros -> Hwin Hend. unfold _discounted_fraction, _daily_discount_rate.
    assert (E : float_pow (1.0 + -1) (1.0 / 365.0) = Ok 0%R).
    { unfold float_pow.
      destruct (decide (0 < 1.0 + -1)%R) as [H|_]; [lra|].
      destruct (decide (1.0 + -1 = 0)%R) as [_|H]; [|lra].
      destruct (decide (0 < 1.0 / 365.0)%R) as [_|H]; [reflexivity | lra]. }
    rewrite E. cbn [bind].
    apply for_each_raises.
    + apply Forall_forall. intros t _. unfold float_pow_int.
      destruct (decide _) as [_|_]; [right; reflexivity|].
      left. eexists; reflexivity.
    + apply Exists_exists. exists (end_year * 365 - 1). split.
      * unfold py_range. apply elem_of_seqZ. lia.
      * unfold float_pow_int.
        destruct (decide _) as [_|H]; [reflexivity|].
        exfalso. apply H. split; [lra | lia].
  - intros Hr Hwin. unfold _discounted_fraction, _daily_discount_rate.
    assert (E : float_pow (1.0 + discount_rate) (1.0 / 365.0) = NonReal).
    { unfold float_pow.
      destruct (decide (0 < 1.0 + discount_rate)%R) as [H|_]; [lra|].
      destruct (decide (1.0 + discount_rate = 0)%R) as [H|_]; [lra|].
      rewrite <- (Int_part_spec (1.0 / 365.0) 0) by lra.
      destruct (decide (0 = 1.0 / 365.0)%R) as [H|_]; [lra | reflexivity]. }
    rewrite E. cbn [bind]. unfold py_range.
    rewrite seqZ_cons by lia. reflexivity.
  - intros Hwin. unfold _discounted_fraction, py_range.
    rewrite seqZ_nil by lia.
    destruct (_daily_discount_rate discount_rate) as [r_d|e|] eqn:E;
      [reflexivity | | reflexivity].
    exfalso. unfold _daily_discount_rate, float_pow in E.
    repeat (destruct (decide _) in E); try discriminate; lra.
Qed.

(** ** Discounted totals *)

Lemma Rsum_zip_with_linear (a b : R) (fractions x y : list R) :
  length x = length y ->
  Rsum (zip_with Rmult fractions
          (zip_with (fun u v => a * u + b * v)%R x y))
  = (a * Rsum (zip_with Rmult fractions x)
     + b * Rsum (zip_with Rmult fractions y))%R.
Proof.
  revert x y. induction fractions as [|f fractions IH]; intros x y Hlen.
  - simpl. lra.
  - destruct x as [|u x], y as [|v y]; try discriminate; simpl.
    + lra.
    + rewrite IH by (simpl in Hlen; lia). lra.
Qed.

(** X6. [discounted_energy_total] is linear in the daily series: for two
    series of the same length, the total of [a * x + b * y] is [a] times the
    total of [x] plus [b] times the total of [y]. *)
Theorem discounted_energy_total_linear (finance_inputs : gmap string pyobj)
    (logger : arg) (x y : list R) (a b : R) (start_year end_year : Z)
    (rate : num) :
  finance_inputs !! DISCOUNT_RATE = Some (Num rate) ->
  (-1 < to_R rate)%R ->
  length x = length y ->
  start_year < end_year \/ x <> [] ->
  exists total_x total_y,
    discounted_energy_total finance_inputs logger x start_year end_year
    = Ok total_x /\
    discounted_energy_total finance_inputs logger y start_year end_year
    = Ok total_y /\
    discounted_energy_total finance_inputs logger
      (zip_with (fun u v => a * u + b * v)%R x y) start_year end_year
    = Ok (a * total_x + b * total_y)%R.
Proof.
  intros Hrate Hr Hlen Hne.
  assert (Hy : start_year < end_year \/ y <> []).
  { destruct Hne as [H|H]; [left; exact H | right].
    destruct x, y; try discriminate; congruence. }
  assert (Hxy : start_year < end_year
                \/ zip_with (fun u v => a * u + b * v)%R x y <> []).
  { destruct Hne as [H|H]; [left; exact H | right].
    destruct x, y; try discriminate; congruence. }
  do 2 eexists.
  split; [apply (discounted_energy_total_ok _ _ _ _ _ rate); assumption|].
  split; [apply (discounted_energy_total_ok _ _ _ _ _ rate); assumption|].
  rewrite (discounted_energy_total_ok _ _ _ _ _ rate) by assumption.
  f_equal. apply Rsum_zip_with_linear, Hlen.
Qed.

Lemma discounted_energy_total_linear_witness :
  exists total_x total_y,
    discounted_energy_total (only_discount_rate 0) LoggerObj [1%R; 2%R] 0 1
    = Ok total_x /\
    discounted_energy_total (only_discount_rate 0) LoggerObj [3%R; 4%R] 0 1
    = Ok total_y /\
    discounted_energy_total (only_discount_rate 0) LoggerObj
      (zip_with (fun u v => 2 * u + 5 * v)%R [1%R; 2%R] [3%R; 4%R]) 0 1
    = Ok (2 * total_x + 5 * total_y)%R.
Proof.
  apply (discounted_energy_total_linear (only_discount_rate 0) LoggerObj
           [1%R; 2%R] [3%R; 4%R] 2 5 0 1 (Float 0)).
  - reflexivity.
  - simpl. lra.
  - reflexivity.
  - left. lia.
Defined.

Lemma Rsum_zip_with_ones (fractions series : list R) :
  Forall (fun f => f = 1%R) fractions ->
  Rsum (zip_with Rmult fractions series)
  = Rsum (take (length fractions) series).
Proof.
  intros H. revert series.
  induction H as [|f fractions -> _ IH]; intros series.
  - reflexivity.
  - destruct series as [|u series]; simpl; [reflexivity|].
    rewrite IH. lra.
Qed.

(** X7. With a zero discount rate the total is the plain sum of the days of
    the series that lie in the window, the first
    [(end_year - start_year) * 365] of them. *)
Theorem discounted_energy_total_zero_rate
    (finance_inputs : gmap string pyobj) (logger : arg)
    (total_daily : list R) (start_year end_year : Z) (rate : num) :
  finance_inputs !! DISCOUNT_RATE = Some (Num rate) ->
  to_R rate = 0%R ->
  start_year < end_year \/ total_daily <> [] ->
  discounted_energy_total finance_inputs logger total_daily
    start_year end_year
  = Ok (Rsum (take (Z.to_nat ((end_year - start_year) * 365)) total_daily)).
Proof.
  intros Hrate Hzero Hne.
  rewrite (discounted_energy_total_ok _ _ _ _ _ rate)
    by (try assumption; lra).
  f_equal. rewrite Rsum_zip_with_ones.
  - rewrite length_map, length_py_range. do 2 f_equal. lia.
  - apply Forall_forall. intros f Hf.
    apply list_elem_of_fmap in Hf as (t & -> & _).
    rewrite Hzero, daily_factor_zero. apply powerRZ_R1.
Qed.

Lemma discounted_energy_total_zero_rate_witness :
  discounted_energy_total (only_discount_rate 0) LoggerObj
    [1%R; 2%R; 3%R] 0 1
  = Ok (Rsum (take (Z.to_nat ((1 - 0) * 365)) [1%R; 2%R; 3%R])).
Proof.
  apply (discounted_energy_total_zero_rate (only_discount_rate 0) LoggerObj
           [1%R; 2%R; 3%R] 0 1 (Float 0)).
  - reflexivity.
  - reflexivity.
  - left. lia.
Defined.

(** ** Operation and maintenance, continued *)

Lemma zip_with_replicate_prefix (f : Z -> R) (v : R) (l rest : list Z) :
  zip_with Rmult (map f (l ++ rest)) (replicate (length l) v)
  = map (fun t => f t * v)%R l.
Proof.
  induction l as [|t l IH]; simpl.
  - destruct (map f rest); reflexivity.
  - f_equal. exact IH.
Qed.

Lemma Rsum_scale (f : Z -> R) (v : R) (l : list Z) :
  Rsum (map (fun t => f t * v)%R l) = (v * Rsum (map f l))%R.
Proof.
  induction l as [|t l IH]; simpl; [lra|]. rewrite IH. lra.
Qed.

Lemma component_om_value (om size : R) (finance_inputs : gmap string pyobj)
    (logger : arg) (start_year end_year : Z) (rate : num) :
  finance_inputs !! DISCOUNT_RATE = Some (Num rate) ->
  (-1 < to_R rate)%R ->
  start_year < end_year ->
  _component_om om size finance_inputs logger start_year end_year
  = Ok (size * om * om_discount_sum (to_R rate) start_year end_year)%R.
Proof.
  intros Hrate Hr Hwin. unfold _component_om.
  rewrite (discounted_energy_total_ok _ _ _ _ _ rate)
    by (auto; left; lia).
  f_equal. rewrite om_series by exact Hwin.
  unfold om_discount_sum, py_range.
  replace (end_year * 365 - start_year * 365)
    with ((end_year - start_year) * 265 + (end_year - start_year) * 100)
    by lia.
  replace (start_year * 365 + (end_year - start_year) * 265
           - start_year * 365)
    with ((end_year - start_year) * 265) by lia.
  rewrite seqZ_app by lia.
  rewrite <- (length_seqZ (start_year * 365)
                ((end_year - start_year) * 265)).
  rewrite zip_with_replicate_prefix, Rsum_scale. lra.
Qed.

Lemma Rsum_ones (f : Z -> R) (l : list Z) :
  (forall t, f t = 1%R) -> Rsum (map f l) = INR (length l).
Proof.
  intros H. induction l as [|t l IH]; [reflexivity|].
  cbn [map Rsum foldr length]. fold (Rsum (map f l)).
  rewrite IH, H, S_INR. lra.
Qed.

(** X8. [_component_om] charges a yearly O&M cost for 265 days of each
    year: its result is [size * unit_om_cost] times a factor that depends on
    the discount rate and the window only, and at a zero discount rate this
    factor is [(end_year - start_year) * 265 / 365], not the number of
    years. *)
Theorem component_om_factor (component_om_cost component_size : R)
    (finance_inputs : gmap string pyobj) (logger : arg)
    (start_year end_year : Z) (rate : num) :
  finance_inputs !! DISCOUNT_RATE = Some (Num rate) ->
  (-1 < to_R rate)%R ->
  start_year < end_year ->
  _component_om component_om_cost component_size finance_inputs logger
    start_year end_year
  = Ok (component_size * component_om_cost
        * om_discount_sum (to_R rate) start_year end_year)%R /\
  (to_R rate = 0%R ->
   om_discount_sum (to_R rate) start_year end_year
   = (IZR (end_year - start_year) * 265 / 365)%R).
Proof.
  intros Hrate Hr Hwin.
  split; [apply component_om_value; assumption|].
  intros Hzero. unfold om_discount_sum.
  rewrite Rsum_ones.
  - rewrite length_py_range, INR_IZR_INZ.
    replace (Z.of_nat (Z.to_nat (start_year * 365
                                 + (end_year - start_year) * 265
                                 - start_year * 365)))
      with ((end_year - start_year) * 265) by lia.
    rewrite mult_IZR. lra.
  - intros t. rewrite Hzero, daily_factor_zero. apply powerRZ_R1.
Qed.

Lemma component_om_factor_witness :
  _component_om 73 2 (only_discount_rate 0) LoggerObj 0 1
  = Ok (2 * 73 * om_discount_sum (to_R (Float 0)) 0 1)%R /\
  (to_R (Float 0) = 0%R ->
   om_discount_sum (to_R (Float 0)) 0 1 = (IZR (1 - 0) * 265 / 365)%R).
Proof.
  apply (component_om_factor 73 2 (only_discount_rate 0) LoggerObj 0 1
           (Float 0)).
  - reflexivity.
  - simpl. lra.
  - lia.
Defined.

Lemma getitem2_contains (finance_inputs : gmap string pyobj)
    (component key : string) (x : R) :
  getitem2 finance_inputs component key = Ok x ->
  exists entry, finance_inputs !! component = Some entry.
Proof.
  intros H. apply getitem2_returns in H as (d & v & H & _). eauto.
Qed.

(** X9. The total O&M cost is the yearly O&M bill times one factor: with
    the O&M entries that the call reads in the finance inputs, a discount
    rate above -1 and [start_year < end_year], [total_om] returns the sum of
    [size * unit_om_cost] over diesel, PV, storage and the tanks and PV-T
    whose size is positive, plus the general O&M cost, all multiplied by the
    factor of [_component_om]. *)
Theorem total_om_factorises (finance_inputs : gmap string pyobj)
    (om : ImpactingComponent -> R) (general : R)
    (clean_water_tanks diesel_size hot_water_tanks pv_array_size
     pvt_array_size storage_size : R) (start_year end_year : Z)
    (rate : num) :
  getitem2 finance_inputs (value DIESEL) OM = Ok (om DIESEL) ->
  getfloat finance_inputs GENERAL_OM = Ok general ->
  getitem2 finance_inputs (value PV) OM = Ok (om PV) ->
  getitem2 finance_inputs (value STORAGE) OM = Ok (om STORAGE) ->
  ((0 < clean_water_tanks)%R ->
   getitem2 finance_inputs (value CLEAN_WATER_TANK) OM
   = Ok (om CLEAN_WATER_TANK)) ->
  ((0 < hot_water_tanks)%R ->
   getitem2 finance_inputs (value HOT_WATER_TANK) OM
   = Ok (om HOT_WATER_TANK)) ->
  ((0 < pvt_array_size)%R ->
   getitem2 finance_inputs (value PV_T) OM = Ok (om PV_T)) ->
  finance_inputs !! DISCOUNT_RATE = Some (Num rate) ->
  (-1 < to_R rate)%R ->
  start_year < end_year ->
  total_om clean_water_tanks diesel_size finance_inputs hot_water_tanks
    LoggerObj pv_array_size pvt_array_size storage_size start_year end_year
  = Ok ((when_present clean_water_tanks
           (clean_water_tanks * om CLEAN_WATER_TANK)
         + diesel_size * om DIESEL
         + general
         + when_present hot_water_tanks (hot_water_tanks * om HOT_WATER_TANK)
         + pv_array_size * om PV
         + when_present pvt_array_size (pvt_array_size * om PV_T)
         + storage_size * om STORAGE)
        * om_discount_sum (to_R rate) start_year end_year)%R.
Proof.
  intros Hd Hg Hp Hs Hcw Hhw Hpvt Hrate Hr Hwin.
  unfold total_om, when_present.
  destruct (decide (0 < clean_water_tanks)%R) as [Pcw|Ncw];
    [destruct (getitem2_contains _ _ _ _ (Hcw Pcw)) as (ecw & Ecw);
     rewrite (require_inputs_present _ _ _ _ _ _ _ Ecw);
     rewrite !(bool_decide_eq_true_2 _ Pcw), (Hcw Pcw)
    |rewrite (require_inputs_not_positive _ _ _ _ _ _ Ncw);
     rewrite !(bool_decide_eq_false_2 _ Ncw)];
  (destruct (decide (0 < hot_water_tanks)%R) as [Phw|Nhw];
    [destruct (getitem2_contains _ _ _ _ (Hhw Phw)) as (ehw & Ehw);
     rewrite (require_inputs_present _ _ _ _ _ _ _ Ehw);
     rewrite !(bool_decide_eq_true_2 _ Phw), (Hhw Phw)
    |rewrite (require_inputs_not_positive _ _ _ _ _ _ Nhw);
     rewrite !(bool_decide_eq_false_2 _ Nhw)]);
  (destruct (decide (0 < pvt_array_size)%R) as [Ppvt|Npvt];
    [destruct (getitem2_contains _ _ _ _ (Hpvt Ppvt)) as (epvt & Epvt);
     rewrite (require_inputs_present _ _ _ _ _ _ _ Epvt);
     rewrite !(bool_decide_eq_true_2 _ Ppvt), (Hpvt Ppvt)
    |rewrite (require_inputs_not_positive _ _ _ _ _ _ Npvt);
     rewrite !(bool_decide_eq_false_2 _ Npvt)]);
  rewrite Hd, Hg, Hp, Hs; cbn [bind];
  rewrite !(component_om_value _ _ _ _ _ _ rate Hrate Hr Hwin); cbn [bind];
  f_equal; ring.
Qed.

Lemma total_om_factorises_witness :
  total_om 0 1 complete_inputs 0 LoggerObj 2 0 3 0 20
  = Ok ((when_present 0 (0 * 0) + 1 * 5 + 50 + when_present 0 (0 * 0)
         + 2 * 2 + when_present 0 (0 * 0) + 3 * 3)
        * om_discount_sum (to_R (Float 0.1)) 0 20)%R.
Proof.
  apply (total_om_factorises complete_inputs
           (fun c => match c with
                     | DIESEL => 5 | PV => 2 | STORAGE => 3 | _ => 0
                     end)%R
           50 0 1 0 2 0 3 0 20 (Float 0.1)).
  - reflexivity.
  - reflexivity.
  - reflexivity.
  - reflexivity.
  - intros H. exfalso. lra.
  - intros H. exfalso. lra.
  - intros H. exfalso. lra.
  - reflexivity.
  - simpl. lra.
  - lia.
Defined.

(** X10. [total_om] checks the clean-water tanks before it reads anything:
    whatever else the finance inputs hold, a positive number of clean-water
    tanks without a CLEAN_WATER_TANK entry raises [InputFileError] on the
    tank inputs. With no discount rate and no clean-water tanks, the call
    raises [KeyError] for the discount rate as soon as the diesel O&M cost
    has been read. *)
Theorem total_om_first_errors (finance_inputs : gmap string pyobj)
    (clean_water_tanks diesel_size hot_water_tanks pv_array_size
     pvt_array_size storage_size : R) (start_year end_year : Z) :
  ((0 < clean_water_tanks)%R ->
   finance_inputs !! value CLEAN_WATER_TANK = None ->
   total_om clean_water_tanks diesel_size finance_inputs hot_water_tanks
     LoggerObj pv_array_size pvt_array_size storage_size
     start_year end_year
   = Raise (InputFileError "tank inputs"
              "No clean-water tank financial input information provided and a non-zero number of clean-water tanks are being considered.")) /\
  (forall diesel_om : R,
     ~ (0 < clean_water_tanks)%R ->
     getitem2 finance_inputs (value DIESEL) OM = Ok diesel_om ->
     finance_inputs !! DISCOUNT_RATE = None ->
     total_om clean_water_tanks diesel_size finance_inputs hot_water_tanks
       LoggerObj pv_array_size pvt_array_size storage_size
       start_year end_year
     = Raise (KeyError DISCOUNT_RATE)).
Proof.
  split.
  - intros Hpos Hnone. unfold total_om.
    rewrite require_inputs_missing by assumption. reflexivity.
  - intros diesel_om Hcw Hd Hnone. unfold total_om.
    rewrite (require_inputs_not_positive _ _ _ _ _ _ Hcw).
    rewrite (bool_decide_eq_false_2 _ Hcw). cbn [bind].
    rewrite Hd. cbn [bind].
    unfold _component_om, discounted_energy_total. rewrite Hnone.
    reflexivity.
Qed.

(** ** Equipment costs, continued *)

Ltac run_terms :=
  repeat (cbn [bind as_float];
          first [ rewrite_installation_key
                | rewrite_lookup
                | rewrite component_cost_ok by (left; assumption)
                | rewrite component_installation_cost_ok
                    by (left; assumption) ]).

(** X11. The hot-water and PV-T entries are required where the size is
    positive: when the entries read before them are present and the
    installation year is not negative, [get_total_equipment_cost] raises
    [InputFileError] for a positive number of hot-water tanks without a
    HOT_WATER_TANK entry, and, past that check, for a positive PV-T size
    without a PV_T entry. *)
Theorem hot_water_and_pvt_inputs_required
    (finance_inputs : gmap string pyobj)
    (costs : ImpactingComponent -> component_costs)
    (clean_water_tanks diesel_size hot_water_tanks pv_array_size
     pvt_array_size storage_size : R) (installation_year : Z) :
  has_costs finance_inputs BOS (costs BOS) ->
  has_costs finance_inputs DIESEL (costs DIESEL) ->
  ((0 < clean_water_tanks)%R ->
   has_costs finance_inputs CLEAN_WATER_TANK (costs CLEAN_WATER_TANK)) ->
  0 <= installation_year ->
  ((0 < hot_water_tanks)%R ->
   finance_inputs !! value HOT_WATER_TANK = None ->
   get_total_equipment_cost clean_water_tanks diesel_size finance_inputs
     (Number hot_water_tanks) LoggerObj pv_array_size pvt_array_size
     storage_size installation_year
   = Raise (InputFileError "tank inputs"
              "No hot-water financial input information provided and a non-zero number of clean-water tanks are being considered.")) /\
  (has_costs finance_inputs PV (costs PV) ->
   ((0 < hot_water_tanks)%R ->
    has_costs finance_inputs HOT_WATER_TANK (costs HOT_WATER_TANK)) ->
   (0 < pvt_array_size)%R ->
   finance_inputs !! value PV_T = None ->
   get_total_equipment_cost clean_water_tanks diesel_size finance_inputs
     (Number hot_water_tanks) LoggerObj pv_array_size pvt_array_size
     storage_size installation_year
   = Raise (InputFileError "finance inputs"
              "No PV-T financial input information provided and a non-zero number of PV-Tpanels are being considered.")).
Proof.
  intros (Hb1 & Hb2 & _ & _) (Hd1 & Hd2 & Hd3 & Hd4) Hcw Hyear.
  split.
  - intros Phw Nhot.
    unfold get_total_equipment_cost, equipment_cost_terms.
    destruct (decide (0 < clean_water_tanks)%R) as [Pcw|Ncw];
      [destruct (Hcw Pcw) as (Hc1 & Hc2 & Hc3 & Hc4);
       destruct (has_costs_present _ _ _ (Hcw Pcw)) as (ecw & Ecw);
       rewrite (require_inputs_present _ _ _ _ _ _ _ Ecw);
       rewrite !(bool_decide_eq_true_2 _ Pcw)
      |rewrite (require_inputs_not_positive _ _ _ _ _ _ Ncw);
       rewrite !(bool_decide_eq_false_2 _ Ncw)];
    rewrite (require_inputs_missing _ _ _ _ _ Nhot Phw);
    run_terms; reflexivity.
  - intros (Hp1 & Hp2 & Hp3 & Hp4) Hhw Ppvt Npvt.
    unfold get_total_equipment_cost, equipment_cost_terms.
    cbn [gt_zero].
    destruct (decide (0 < clean_water_tanks)%R) as [Pcw|Ncw];
      [destruct (Hcw Pcw) as (Hc1 & Hc2 & Hc3 & Hc4);
       destruct (has_costs_present _ _ _ (Hcw Pcw)) as (ecw & Ecw);
       rewrite (require_inputs_present _ _ _ _ _ _ _ Ecw);
       rewrite !(bool_decide_eq_true_2 _ Pcw)
      |rewrite (require_inputs_not_positive _ _ _ _ _ _ Ncw);
       rewrite !(bool_decide_eq_false_2 _ Ncw)];
    (destruct (decide (0 < hot_water_tanks)%R) as [Phw|Nhw];
      [destruct (Hhw Phw) as (Hh1 & Hh2 & Hh3 & Hh4);
       destruct (has_costs_present _ _ _ (Hhw Phw)) as (ehw & Ehw);
       rewrite (require_inputs_present _ _ _ _ _ _ _ Ehw);
       rewrite !(bool_decide_eq_true_2 _ Phw)
      |rewrite (require_inputs_not_positive _ _ _ _ _ _ Nhw);
       rewrite !(bool_decide_eq_false_2 _ Nhw)]);
    rewrite (require_inputs_missing _ _ _ _ _ Npvt Ppvt);
    run_terms; reflexivity.
Qed.

Lemma hot_water_and_pvt_inputs_required_witness :
  ((0 < 4)%R ->
   complete_inputs !! value HOT_WATER_TANK = None ->
   get_total_equipment_cost 0 1 complete_inputs (Number 4) LoggerObj 2 5 3 1
   = Raise (InputFileError "tank inputs"
              "No hot-water financial input information provided and a non-zero number of clean-water tanks are being considered.")) /\
  (has_costs complete_inputs PV (complete_costs PV) ->
   ((0 < 4)%R ->
    has_costs complete_inputs HOT_WATER_TANK
      (complete_costs HOT_WATER_TANK)) ->
   (0 < 5)%R ->
   complete_inputs !! value PV_T = None ->
   get_total_equipment_cost 0 1 complete_inputs (Number 4) LoggerObj 2 5 3 1
   = Raise (InputFileError "finance inputs"
              "No PV-T financial input information provided and a non-zero number of PV-Tpanels are being considered.")).
Proof.
  apply (hot_water_and_pvt_inputs_required complete_inputs complete_costs
           0 1 4 2 5 3 1).
  - repeat split; reflexivity.
  - repeat split; reflexivity.
  - intros H. exfalso. lra.
  - lia.
Defined.

(** X12. Nothing installed costs nothing: on finance inputs with the BOS,
    diesel, PV, storage and misc entries and for an installation year that
    is not negative, [get_total_equipment_cost] returns 0 when every size is
    zero, whether or not the optional entries are present. *)
Theorem no_equipment_no_cost (finance_inputs : gmap string pyobj)
    (costs : ImpactingComponent -> component_costs) (misc_cost : R)
    (installation_year : Z) :
  has_costs finance_inputs BOS (costs BOS) ->
  has_costs finance_inputs DIESEL (costs DIESEL) ->
  has_costs finance_inputs PV (costs PV) ->
  has_costs finance_inputs STORAGE (costs STORAGE) ->
  getitem2 finance_inputs (value MISC) COST = Ok misc_cost ->
  0 <= installation_year ->
  get_total_equipment_cost 0 0 finance_inputs (Number 0) LoggerObj 0 0 0
    installation_year = Ok 0%R.
Proof.
  intros Hb Hd Hp Hs Hm Hyear. unfold get_total_equipment_cost.
  rewrite (equipment_cost_terms_ok finance_inputs costs misc_cost)
    by first [ assumption | intros H; exfalso; lra ].
  cbn [bind]. f_equal.
  cbn [bos_cost diesel_cost pv_cost pv_installation_cost storage_cost
       clean_water_tank_cost clean_water_tank_installation_cost
       hot_water_tank_cost hot_water_tank_installation_cost
       pvt_installation_cost misc_costs diesel_installation_cost pvt_cost].
  rewrite !when_present_not_positive by lra.
  unfold capital, installation, capital_cost, installation_cost. ring.
Qed.

Lemma no_equipment_no_cost_witness :
  get_total_equipment_cost 0 0 complete_inputs (Number 0) LoggerObj 0 0 0 3
  = Ok 0%R.
Proof.
  apply (no_equipment_no_cost complete_inputs complete_costs 10 3).
  - repeat split; reflexivity.
  - repeat split; reflexivity.
  - repeat split; reflexivity.
  - repeat split; reflexivity.
  - reflexivity.
  - lia.
Defined.

Lemma component_installation_cost_eq (size c d : R) (year : Z) :
  _component_installation_cost size c d year
  = _component_cost c d size year.
Proof.
  unfold _component_installation_cost, _component_cost.
  replace (1.0 - 0.01 * d)%R with (1 - 0.01 * d)%R by lra.
  destruct (float_pow_int (1 - 0.01 * d) year) as [p| |]; simpl;
    [f_equal; lra | reflexivity | reflexivity].
Qed.

Lemma same_key_costs (finance_inputs : gmap string pyobj)
    (component : string) (c d ic id size x x' : R) (year : Z) :
  _component_cost c d size year = Ok x ->
  _component_installation_cost size ic id year = Ok x' ->
  getitem2 finance_inputs component COST = Ok c ->
  getitem2 finance_inputs component COST_DECREASE = Ok d ->
  getitem2 finance_inputs component INSTALLATION_COST = Ok ic ->
  getitem2 finance_inputs component INSTALLATION_COST_DECREASE = Ok id ->
  x' = x.
Proof.
  intros Hx Hx' Hc Hd Hic Hid.
  change INSTALLATION_COST with COST in Hic.
  change INSTALLATION_COST_DECREASE with COST_DECREASE in Hid.
  rewrite Hc in Hic. rewrite Hd in Hid.
  injection Hic as <-. injection Hid as <-.
  rewrite component_installation_cost_eq, Hx in Hx'.
  injection Hx' as <-. reflexivity.
Qed.

(** X13. The installation keywords are the cost keywords, ["cost"] and
    ["cost_decrease"], so an installation cost is a second capital cost:
    whenever [get_total_equipment_cost] returns, the installation cost of PV
    equals its capital cost, and so do those of the clean-water and the
    hot-water tanks. *)
Theorem installation_cost_is_capital_cost (clean_water_tanks diesel_size : R)
    (finance_inputs : gmap string pyobj) (hot_water_tanks logger : arg)
    (pv_array_size pvt_array_size storage_size : R) (installation_year : Z)
    (t : equipment_costs) :
  equipment_cost_terms clean_water_tanks diesel_size finance_inputs
    hot_water_tanks logger pv_array_size pvt_array_size storage_size
    installation_year = Ok t ->
  pv_installation_cost t = pv_cost t /\
  clean_water_tank_installation_cost t = clean_water_tank_cost t /\
  hot_water_tank_installation_cost t = hot_water_tank_cost t.
Proof.
  intros H. unfold equipment_cost_terms in H. bind_inv H.
  injection H as <-.
  cbn [pv_installation_cost pv_cost clean_water_tank_installation_cost
       clean_water_tank_cost hot_water_tank_installation_cost
       hot_water_tank_cost].
  split; [eapply same_key_costs; eassumption|].
  split.
  - match goal with
    | E : (if bool_decide (0 < clean_water_tanks)%R then _ else _) = Ok _
      |- _ =>
        destruct (bool_decide (0 < clean_water_tanks)%R);
        [ bind_inv E; injection E as <- <-;
          eapply same_key_costs; eassumption
        | injection E as <- <-; reflexivity ]
    end.
  - match goal with
    | E : (if ?b then _ else _) = Ok (_, _) |- _ =>
        destruct b;
        [ bind_inv E; injection E as <- <-;
          eapply same_key_costs; eassumption
        | injection E as <- <-; reflexivity ]
    end.
Qed.

Lemma installation_cost_is_capital_cost_witness :
  exists t,
    equipment_cost_terms 0 1 complete_inputs (Number 0) LoggerObj 2 0 3 1
    = Ok t /\
    pv_installation_cost t = pv_cost t /\
    clean_water_tank_installation_cost t = clean_water_tank_cost t /\
    hot_water_tank_installation_cost t = hot_water_tank_cost t.
Proof.
  eexists. split.
  - apply (equipment_cost_terms_ok complete_inputs complete_costs 10);
      first [ repeat split; reflexivity
            | intros H; exfalso; lra
            | lia ].
  - eapply (installation_cost_is_capital_cost 0 1 complete_inputs
              (Number 0) LoggerObj 2 0 3 1).
    apply (equipment_cost_terms_ok complete_inputs complete_costs 10);
      first [ repeat split; reflexivity
            | intros H; exfalso; lra
            | lia ].
Defined.

(** X14. A cost that does not decrease does not depend on the year, and a
    cost that has decreased by 100 % cannot be taken back before year 0:
    [_component_cost] and [_component_installation_cost] return
    [cost * size] for a zero cost decrease in any year and for any cost
    decrease in year 0, and raise [ZeroDivisionError] for a cost decrease of
    100 and a negative year. *)
Theorem component_cost_edges (cost size : R) :
  (forall year : Z,
     _component_cost cost 0 size year = Ok (cost * size)%R /\
     _component_installation_cost size cost 0 year = Ok (cost * size)%R) /\
  (forall decrease : R,
     _component_cost cost decrease size 0 = Ok (cost * size)%R /\
     _component_installation_cost size cost decrease 0
     = Ok (cost * size)%R) /\
  (forall year : Z,
     year < 0 ->
     _component_cost cost 100 size year = Raise ZeroDivisionError /\
     _component_installation_cost size cost 100 year
     = Raise ZeroDivisionError).
Proof.
  split; [|split].
  - intros year. rewrite component_installation_cost_eq.
    assert (E : _component_cost cost 0 size year = Ok (cost * size)%R).
    { rewrite component_cost_ok by (right; lra). f_equal.
      unfold capital_cost. replace (1 - 0.01 * 0)%R with 1%R by lra.
      rewrite powerRZ_R1. lra. }
    split; exact E.
  - intros decrease. rewrite component_installation_cost_eq.
    assert (E : _component_cost cost decrease size 0 = Ok (cost * size)%R).
    { rewrite component_cost_ok by (left; lia). f_equal.
      unfold capital_cost. simpl. lra. }
    split; exact E.
  - intros year Hyear. rewrite component_installation_cost_eq.
    assert (E : _component_cost cost 100 size year
                = Raise ZeroDivisionError).
    { unfold _component_cost, float_pow_int.
      destruct (decide _) as [_|H]; [reflexivity|].
      exfalso. apply H. split; [lra | exact Hyear]. }
    split; exact E.
Qed.

(** ** Connections, continued *)

Lemma frame_max_nil_iff (frame : list R) :
  frame_max frame = None <-> frame = [].
Proof. destruct frame; simpl; split; intros H; congruence. Qed.

Lemma frame_min_nil_iff (frame : list R) :
  frame_min frame = None <-> frame = [].
Proof. destruct frame; simpl; split; intros H; congruence. Qed.

Lemma frame_max_permutation (h h' : list R) :
  h ≡ₚ h' -> frame_max h = frame_max h'.
Proof.
  intros Hp. destruct h as [|x l].
  - apply Permutation_nil_l in Hp. subst. reflexivity.
  - assert (Hne : h' <> []).
    { intros ->. apply Permutation_nil_r in Hp. discriminate. }
    destruct (frame_max_spec (x :: l) ltac:(discriminate))
      as (hi & E & Hin & Hmax).
    destruct (frame_max_spec h' Hne) as (hi' & E' & Hin' & Hmax').
    rewrite E, E'. f_equal.
    assert (hi' <= hi)%R by (apply Hmax; rewrite Hp; exact Hin').
    assert (hi <= hi')%R by (apply Hmax'; rewrite <- Hp; exact Hin).
    lra.
Qed.

Lemma frame_min_permutation (h h' : list R) :
  h ≡ₚ h' -> frame_min h = frame_min h'.
Proof.
  intros Hp. destruct h as [|x l].
  - apply Permutation_nil_l in Hp. subst. reflexivity.
  - assert (Hne : h' <> []).
    { intros ->. apply Permutation_nil_r in Hp. discriminate. }
    destruct (frame_min_spec (x :: l) ltac:(discriminate))
      as (lo & E & Hin & Hmin).
    destruct (frame_min_spec h' Hne) as (lo' & E' & Hin' & Hmin').
    rewrite E, E'. f_equal.
    assert (lo <= lo')%R by (apply Hmin; rewrite Hp; exact Hin').
    assert (lo' <= lo)%R by (apply Hmin'; rewrite <- Hp; exact Hin).
    lra.
Qed.

(** X15. [connections_expenditure] sees the households only through their
    greatest and least number: the same numbers in another order give the
    same outcome, value or error, whatever the finance inputs. *)
Theorem connections_expenditure_order (finance_inputs : gmap string pyobj)
    (households households' : list R) (installation_year : Z) :
  households ≡ₚ households' ->
  connections_expenditure finance_inputs households installation_year
  = connections_expenditure finance_inputs households' installation_year.
Proof.
  intros Hp. unfold connections_expenditure.
  rewrite (frame_max_permutation _ _ Hp), (frame_min_permutation _ _ Hp).
  reflexivity.
Qed.

Lemma connections_expenditure_order_witness :
  connections_expenditure scenario_inputs [10%R; 20%R; 10%R] 2
  = connections_expenditure scenario_inputs [20%R; 10%R; 10%R] 2.
Proof.
  apply (connections_expenditure_order scenario_inputs
           [10%R; 20%R; 10%R] [20%R; 10%R; 10%R] 2).
  apply perm_swap.
Defined.

Lemma connections_expenditure_ok (finance_inputs : gmap string pyobj)
    (households : list R) (installation_year : Z)
    (entry : gmap string num) (connection_cost discount_rate : num)
    (hi lo : R) :
  frame_max households = Some hi ->
  frame_min households = Some lo ->
  finance_inputs !! value HOUSEHOLDS = Some (Dict entry) ->
  entry !! CONNECTION_COST = Some connection_cost ->
  finance_inputs !! DISCOUNT_RATE = Some (Num discount_rate) ->
  to_R discount_rate <> 1%R \/ 0 <= installation_year ->
  connections_expenditure finance_inputs households installation_year
  = Ok (to_R connection_cost * (hi - lo)
        * powerRZ (1 - to_R discount_rate) installation_year)%R.
Proof.
  intros Ehi Elo Hentry Hcost Hrate Hpow.
  unfold connections_expenditure. rewrite Ehi, Elo.
  rewrite (getitem2_ok _ _ _ _ _ Hentry Hcost). cbn [bind].
  rewrite (getfloat_ok _ _ _ Hrate). cbn [bind].
  rewrite float_pow_int_ok by (destruct Hpow; [left; lra | right; lia]).
  cbn [bind].
  replace (1.0 - to_R discount_rate)%R with (1 - to_R discount_rate)%R
    by lra.
  reflexivity.
Qed.

(** X16. No new household, no cost, and never a negative cost: with a
    connection cost and a discount rate in the finance inputs,
    [connections_expenditure] returns 0 for a households series whose
    numbers are all the same, and a value that is not negative when the
    connection cost is not negative and the discount rate is below 1. *)
Theorem connections_expenditure_sign (finance_inputs : gmap string pyobj)
    (households : list R) (installation_year : Z)
    (entry : gmap string num) (connection_cost discount_rate : num) :
  households <> [] ->
  finance_inputs !! value HOUSEHOLDS = Some (Dict entry) ->
  entry !! CONNECTION_COST = Some connection_cost ->
  finance_inputs !! DISCOUNT_RATE = Some (Num discount_rate) ->
  to_R discount_rate <> 1%R \/ 0 <= installation_year ->
  ((forall h h', h ∈ households -> h' ∈ households -> h = h') ->
   connections_expenditure finance_inputs households installation_year
   = Ok 0%R) /\
  ((0 <= to_R connection_cost)%R -> (to_R discount_rate < 1)%R ->
   exists total,
     connections_expenditure finance_inputs households installation_year
     = Ok total /\ (0 <= total)%R).
Proof.
  intros Hne Hentry Hcost Hrate Hpow.
  destruct (frame_max_spec households Hne) as (hi & Ehi & Hhi & Hmax).
  destruct (frame_min_spec households Hne) as (lo & Elo & Hlo & Hmin).
  rewrite (connections_expenditure_ok _ _ _ _ _ _ _ _ Ehi Elo Hentry Hcost
             Hrate Hpow).
  split.
  - intros Hsame. rewrite (Hsame hi lo Hhi Hlo). f_equal. ring.
  - intros Hc Hr. eexists. split; [reflexivity|].
    assert (lo <= hi)%R by (apply Hmax, Hlo).
    assert (0 < powerRZ (1 - to_R discount_rate) installation_year)%R
      by (apply powerRZ_lt; lra).
    apply Rmult_le_pos; [apply Rmult_le_pos|]; lra.
Qed.

Lemma connections_expenditure_sign_witness :
  ((forall h h', h ∈ [10%R; 10%R] -> h' ∈ [10%R; 10%R] -> h = h') ->
   connections_expenditure scenario_inputs [10%R; 10%R] 2 = Ok 0%R) /\
  ((0 <= to_R (Int 50))%R -> (to_R (Float 0.1) < 1)%R ->
   exists total,
     connections_expenditure scenario_inputs [10%R; 10%R] 2 = Ok total /\
     (0 <= total)%R).
Proof.
  apply (connections_expenditure_sign scenario_inputs [10%R; 10%R] 2
           {[ CONNECTION_COST := Int 50 ]} (Int 50) (Float 0.1)).
  - discriminate.
  - reflexivity.
  - reflexivity.
  - reflexivity.
  - right. lia.
Defined.

(** X17. The errors of [connections_expenditure]: without a HOUSEHOLDS
    entry it raises [KeyError] for it, whatever the series; with the
    connection cost, an empty series raises [TypeError]; with a series that
    is not empty, a missing discount rate raises [KeyError], and a discount
    rate of 1 in a negative installation year raises
    [ZeroDivisionError]. *)
Theorem connections_expenditure_errors (finance_inputs : gmap string pyobj)
    (households : list R) (installation_year : Z) :
  (finance_inputs !! value HOUSEHOLDS = None ->
   connections_expenditure finance_inputs households installation_year
   = Raise (KeyError (value HOUSEHOLDS))) /\
  (forall entry connection_cost,
     finance_inputs !! value HOUSEHOLDS = Some (Dict entry) ->
     entry !! CONNECTION_COST = Some connection_cost ->
     (households = [] ->
      connections_expenditure finance_inputs households installation_year
      = Raise TypeError) /\
     (households <> [] ->
      finance_inputs !! DISCOUNT_RATE = None ->
      connections_expenditure finance_inputs households installation_year
      = Raise (KeyError DISCOUNT_RATE)) /\
     (forall discount_rate,
        households <> [] ->
        finance_inputs !! DISCOUNT_RATE = Some (Num discount_rate) ->
        to_R discount_rate = 1%R -> installation_year < 0 ->
        connections_expenditure finance_inputs households installation_year
        = Raise ZeroDivisionError)).
Proof.
  split.
  - intros H. unfold connections_expenditure.
    rewrite getitem2_missing by exact H. reflexivity.
  - intros entry cost Hentry Hcost.
    unfold connections_expenditure.
    rewrite (getitem2_ok _ _ _ _ _ Hentry Hcost). cbn [bind].
    split; [|split].
    + intros ->. reflexivity.
    + intros Hne Hnone.
      destruct (frame_max_spec households Hne) as (hi & -> & _).
      destruct (frame_min_spec households Hne) as (lo & -> & _).
      cbn [bind]. rewrite getfloat_missing by exact Hnone. reflexivity.
    + intros rate Hne Hrate Hone Hyear.
      destruct (frame_max_spec households Hne) as (hi & -> & _).
      destruct (frame_min_spec households Hne) as (lo & -> & _).
      cbn [bind]. rewrite (getfloat_ok _ _ _ Hrate). cbn [bind].
      unfold float_pow_int. destruct (decide _) as [_|H]; [reflexivity|].
      exfalso. apply H. split; [lra | exact Hyear].
Qed.

(** ** Inverter replacements, continued *)

Lemma np_arange_negative_step (stop step : Z) :
  step < 0 -> 0 <= stop -> np_arange stop step = Ok [].
Proof.
  intros Hstep Hstop. unfold np_arange.
  destruct (decide (step = 0)) as [E|_]; [lia|].
  rewrite seqZ_nil; [reflexivity|].
  pose proof (Z.div_mod (- stop) step ltac:(lia)) as Hdiv.
  pose proof (Z.mod_neg_bound (- stop) step Hstep) as Hmod.
  nia.
Qed.

(** X18. The edges of the inverter expenditure. Without an INVERTER entry,
    or without its lifetime, [independent_expenditure] raises [KeyError]; a
    lifetime of 0 raises [ZeroDivisionError]. With a positive lifetime it
    returns 0, reading nothing else, for a window that is empty, that ends
    at or before year 0, or that starts at or after [max_years]; and with a
    negative lifetime (and [max_years >= 0]) it returns 0 for every
    window. *)
Theorem independent_expenditure_edges (finance_inputs : gmap string pyobj)
    (location : Location) (maximum : list R) (start_year end_year : Z) :
  (finance_inputs !! value INVERTER = None ->
   independent_expenditure finance_inputs location maximum
     start_year end_year = Raise (KeyError (value INVERTER))) /\
  (forall inverter,
     finance_inputs !! value INVERTER = Some (Dict inverter) ->
     (inverter !! LIFETIME = None ->
      independent_expenditure finance_inputs location maximum
        start_year end_year = Raise (KeyError LIFETIME)) /\
     (inverter !! LIFETIME = Some (Int 0) ->
      independent_expenditure finance_inputs location maximum
        start_year end_year = Raise ZeroDivisionError) /\
     (forall lifetime,
        inverter !! LIFETIME = Some (Int lifetime) ->
        0 < lifetime ->
        end_year <= start_year \/ end_year <= 0
        \/ max_years location <= start_year ->
        independent_expenditure finance_inputs location maximum
          start_year end_year = Ok 0%R) /\
     (forall lifetime,
        inverter !! LIFETIME = Some (Int lifetime) ->
        lifetime < 0 -> 0 <= max_years location ->
        independent_expenditure finance_inputs location maximum
          start_year end_year = Ok 0%R)).
Proof.
  unfold independent_expenditure. split.
  - intros H. unfold _inverter_expenditure, getitem. rewrite H. reflexivity.
  - intros inverter Hinv. split; [|split; [|split]].
    + intros H. unfold _inverter_expenditure, getitem. rewrite Hinv.
      cbn [bind subscript]. rewrite H. reflexivity.
    + intros H. unfold _inverter_expenditure, getitem. rewrite Hinv.
      cbn [bind subscript]. rewrite H. reflexivity.
    + intros lifetime Hlife Hpos Hwin.
      destruct (np_arange_ok (max_years location) lifetime Hpos)
        as (years & Hyears & Hmem).
      rewrite (inverter_expenditure_none _ _ _ _ _ _ _ _ Hinv Hlife Hyears);
        [reflexivity|].
      intros y Hy. apply Hmem in Hy. lia.
    + intros lifetime Hlife Hneg Hmax.
      rewrite (inverter_expenditure_none _ _ _ _ _ _ _ []
                 Hinv Hlife);
        [reflexivity | apply np_arange_negative_step; assumption |].
      intros y Hy. inversion Hy.
Qed.

Lemma np_ceil_spec (x : R) :
  exists k : Z, np_ceil x = IZR k /\ (x <= IZR k < x + 1)%R.
Proof.
  exists (1 - up (- x)). split; [reflexivity|].
  destruct (archimed (- x)) as [H1 H2].
  rewrite minus_IZR. lra.
Qed.

(** X19. The inverter is the smallest multiple of the size increment that
    covers the peak load: for a year of the load table, a positive lifetime
    and a positive increment, [inverter_size_interval] is [k * increment]
    for an integer [k], where [0.001 * peak <= k * increment
    < 0.001 * peak + increment] and [peak] is the greatest of the maxima of
    the [lifetime] years from that year on (fewer at the end of the table).
    For a year past the table it is NaN. *)
Theorem inverter_size_covers_peak (maximum : list R)
    (replacement_period : Z) (inverter_step : R) (year : Z) :
  0 <= year -> 0 < replacement_period -> (0 < inverter_step)%R ->
  (Z.to_nat year < length maximum)%nat ->
  (exists (peak : R) (k : Z),
      peak ∈ take (Z.to_nat replacement_period)
               (drop (Z.to_nat year) maximum) /\
      (forall x,
         x ∈ take (Z.to_nat replacement_period)
               (drop (Z.to_nat year) maximum) -> (x <= peak)%R) /\
      inverter_size_interval maximum replacement_period inverter_step year
      = Ok (Some (IZR k * inverter_step)%R) /\
      (0.001 * peak <= IZR k * inverter_step
       < 0.001 * peak + inverter_step)%R) /\
  (forall later : Z,
     Z.of_nat (length maximum) <= later ->
     inverter_size_interval maximum replacement_period inverter_step later
     = Ok None).
Proof.
  intros Hyear Hperiod Hstep Hlen. split.
  - unfold inverter_size_interval.
    rewrite py_slice_interval by assumption.
    set (interval := take (Z.to_nat replacement_period)
                       (drop (Z.to_nat year) maximum)).
    assert (Hne : interval <> []).
    { intros E. apply (f_equal length) in E. unfold interval in E.
      rewrite length_take, length_drop in E. simpl in E. lia. }
    destruct (frame_max_spec interval Hne) as (peak & -> & Hin & Hmax).
    destruct (np_ceil_spec (0.001 * peak / inverter_step)) as (k & Ek & Hk).
    exists peak, k. split; [exact Hin|]. split; [exact Hmax|].
    destruct (decide (inverter_step = 0%R)) as [E|_]; [lra|].
    rewrite Ek. split; [reflexivity|].
    destruct Hk as [Hk1 Hk2].
    apply (Rmult_le_compat_r inverter_step) in Hk1; [|lra].
    apply (Rmult_lt_compat_r inverter_step) in Hk2; [|lra].
    replace (0.001 * peak / inverter_step * inverter_step)%R
      with (0.001 * peak)%R in Hk1 by (field; lra).
    replace ((0.001 * peak / inverter_step + 1) * inverter_step)%R
      with (0.001 * peak + inverter_step)%R in Hk2 by (field; lra).
    lra.
  - intros later Hlater. unfold inverter_size_interval.
    rewrite py_slice_interval by lia.
    rewrite drop_ge by lia. rewrite take_nil. simpl.
    destruct (decide (inverter_step = 0%R)) as [E|_]; [lra | reflexivity].
Qed.

Lemma inverter_size_covers_peak_witness :
  (exists (peak : R) (k : Z),
      peak ∈ take (Z.to_nat 10) (drop (Z.to_nat 0) [2500%R; 2600%R]) /\
      (forall x,
         x ∈ take (Z.to_nat 10) (drop (Z.to_nat 0) [2500%R; 2600%R]) ->
         (x <= peak)%R) /\
      inverter_size_interval [2500%R; 2600%R] 10 1 0
      = Ok (Some (IZR k * 1)%R) /\
      (0.001 * peak <= IZR k * 1 < 0.001 * peak + 1)%R) /\
  (forall later : Z,
     Z.of_nat (length [2500%R; 2600%R]) <= later ->
     inverter_size_interval [2500%R; 2600%R] 10 1 later = Ok None).
Proof.
  apply (inverter_size_covers_peak [2500%R; 2600%R] 10 1 0).
  - lia.
  - lia.
  - lra.
  - simpl. lia.
Defined.

(** X20. A lifetime written as a float breaks the sizing: with a positive
    float lifetime, a size increment and a positive [max_years],
    [_inverter_expenditure] raises [TypeError] for every window that holds
    year 0, where the replacement of year 0 has to be sized from a slice
    with float bounds. *)
Theorem float_lifetime_raises (finance_inputs : gmap string pyobj)
    (location : Location) (maximum : list R) (start_year end_year : Z)
    (inverter : gmap string num) (lifetime : R) (step : num) :
  finance_inputs !! value INVERTER = Some (Dict inverter) ->
  inverter !! LIFETIME = Some (Float lifetime) ->
  inverter !! SIZE_INCREMENT = Some step ->
  (0 < lifetime)%R ->
  0 < max_years location ->
  start_year <= 0 < end_year ->
  _inverter_expenditure finance_inputs location maximum start_year end_year
  = Raise TypeError.
Proof.
  intros Hinv Hlife Hstep Hpos Hmax Hwin.
  unfold _inverter_expenditure.
  unfold getitem at 1. rewrite Hinv. cbn [bind subscript].
  rewrite Hlife. cbn [bind]. unfold np_arange_float.
  destruct (decide (lifetime = 0%R)) as [E|_]; [lra|]. cbn [bind].
  set (count := 1 - up (- (IZR (max_years location) / lifetime))).
  assert (Hcount : 0 < count).
  { unfold count.
    destruct (archimed (- (IZR (max_years location) / lifetime)))
      as [_ H2].
    assert (0 < IZR (max_years location) / lifetime)%R.
    { apply Rdiv_lt_0_compat; [apply IZR_lt; lia | exact Hpos]. }
    assert (Hup : (IZR (up (- (IZR (max_years location) / lifetime)))
                   < 1)%R) by lra.
    apply lt_IZR in Hup. lia. }
  rewrite seqZ_cons by exact Hcount. cbn [map].
  rewrite filter_cons.
  destruct (decide _) as [_|Hno].
  - rewrite bool_decide_eq_false_2 by discriminate.
    rewrite (getitem2_ok _ _ _ _ _ Hinv Hstep). reflexivity.
  - exfalso. apply Hno. apply Exists_exists. exists 0. split.
    + unfold py_range. apply elem_of_seqZ. lia.
    + lra.
Qed.

Lemma float_lifetime_raises_witness :
  _inverter_expenditure
    {[ value INVERTER :=
         Dict {[ LIFETIME := Float 10; SIZE_INCREMENT := Int 1 ]} ]}
    {| max_years := 20 |} [2500%R] 0 10
  = Raise TypeError.
Proof.
  apply (float_lifetime_raises
           {[ value INVERTER :=
                Dict {[ LIFETIME := Float 10; SIZE_INCREMENT := Int 1 ]} ]}
           {| max_years := 20 |} [2500%R] 0 10
           {[ LIFETIME := Float 10; SIZE_INCREMENT := Int 1 ]} 10 (Int 1)).
  - reflexivity.
  - reflexivity.
  - reflexivity.
  - lra.
  - simpl. lia.
  - lia.
Defined.

Lemma sum_skipna_all_nan {B : Type} (f : B -> option R) (l : list B) :
  (forall b, f b = None) -> sum_skipna (map f l) = 0%R.
Proof.
  intros H. induction l as [|b l IH]; simpl; [reflexivity|].
  rewrite H. exact IH.
Qed.

Lemma inverter_expenditure_unsized (finance_inputs : gmap string pyobj)
    (location : Location) (maximum : list R) (start_year end_year : Z)
    (inverter : gmap string num) (lifetime : Z) (step : num)
    (years : list Z) :
  finance_inputs !! value INVERTER = Some (Dict inverter) ->
  inverter !! LIFETIME = Some (Int lifetime) ->
  0 < lifetime ->
  inverter !! SIZE_INCREMENT = Some step ->
  to_R step = 0%R ->
  np_arange (max_years location) lifetime = Ok years ->
  Forall (fun y => 0 <= y) years ->
  Exists (fun y => Z.of_nat (length maximum) <= y) years ->
  Exists (fun y => start_year <= y < end_year) years ->
  _inverter_expenditure finance_inputs location maximum start_year end_year
  = Raise ZeroDivisionError.
Proof.
  intros Hinv Hlife Hpos Hstep Hzero Hyears Hnonneg Hpast Hwin.
  unfold _inverter_expenditure.
  unfold getitem at 1. rewrite Hinv. cbn [bind subscript].
  rewrite Hlife. cbn [bind]. rewrite Hyears. cbn [bind].
  rewrite filter_in_window.
  rewrite bool_decide_eq_false_2.
  2:{ intros E. apply Exists_exists in Hwin as (y & Hy & Hin).
      assert (Hfiltered : y ∈ filter (fun y => start_year <= y < end_year)
                                years)
        by (apply list_elem_of_filter; split; assumption).
      rewrite E in Hfiltered. inversion Hfiltered. }
  rewrite (getitem2_ok _ _ _ _ _ Hinv Hstep). cbn [bind].
  rewrite Hzero.
  rewrite (for_each_raises _ ZeroDivisionError); [reflexivity | |].
  - apply Forall_forall. intros y Hy.
    rewrite Forall_forall in Hnonneg. specialize (Hnonneg y Hy).
    destruct (Z.lt_ge_cases y (Z.of_nat (length maximum))) as [Hin|Hout].
    + left. apply inverter_size_interval_returns. right. lia.
    + right. apply inverter_size_interval_raises; assumption.
  - eapply Exists_impl; [exact Hpast|]. intros y Hy.
    apply inverter_size_interval_raises; assumption.
Qed.

(** X21. An inverter that cannot be sized. With a positive integer lifetime
    and the inverter size increment, costs and the discount rate in the
    finance inputs: for an empty load table and a size increment that is not
    0, and for a size increment of 0 and a load table that holds every
    replacement year, every inverter size is NaN, the sum skips it, and
    [_inverter_expenditure] returns 0 for every window. For a size increment
    of 0 and a replacement year past the load table, the sizing loop, which
    sizes every replacement year, divides the Python float [nan] by 0: for
    a window that holds a replacement year the call raises
    [ZeroDivisionError]. *)
Theorem inverter_expenditure_nothing_to_size
    (finance_inputs : gmap string pyobj) (location : Location)
    (maximum : list R) (start_year end_year : Z)
    (inverter : gmap string num) (lifetime : Z)
    (step cost decrease rate : num) :
  finance_inputs !! value INVERTER = Some (Dict inverter) ->
  inverter !! LIFETIME = Some (Int lifetime) ->
  0 < lifetime ->
  inverter !! SIZE_INCREMENT = Some step ->
  inverter !! COST = Some cost ->
  inverter !! COST_DECREASE = Some decrease ->
  finance_inputs !! DISCOUNT_RATE = Some (Num rate) ->
  (to_R step <> 0%R -> maximum = [] ->
   _inverter_expenditure finance_inputs location maximum
     start_year end_year = Ok 0%R) /\
  (to_R step = 0%R ->
   (forall y, 0 <= y < max_years location -> (lifetime | y) ->
              y < Z.of_nat (length maximum)) ->
   _inverter_expenditure finance_inputs location maximum
     start_year end_year = Ok 0%R) /\
  (to_R step = 0%R ->
   (exists y, 0 <= y < max_years location /\ (lifetime | y) /\
              Z.of_nat (length maximum) <= y) ->
   (exists y, 0 <= y < max_years location /\ (lifetime | y) /\
              start_year <= y < end_year) ->
   _inverter_expenditure finance_inputs location maximum
     start_year end_year = Raise ZeroDivisionError).
Proof.
  intros Hinv Hlife Hpos Hstep Hcost Hdec Hrate.
  destruct (np_arange_ok (max_years location) lifetime Hpos)
    as (years & Hyears & Hmem).
  assert (Hnonneg : Forall (fun y => 0 <= y) years)
    by (eapply np_arange_nonneg; eauto).
  split; [|split].
  - intros Hne ->.
    rewrite (inverter_expenditure_ok _ _ _ _ _ _ _ _ _ _ _ _
               Hinv Hlife Hstep Hcost Hdec Hrate Hyears Hnonneg).
    + rewrite sum_skipna_all_nan; [rewrite np_round2_zero; reflexivity|].
      intros year. unfold replacement_expenditure, inverter_size_interval.
      unfold py_slice. rewrite drop_nil, take_nil. simpl.
      destruct (decide (to_R step = 0%R)); reflexivity.
    + apply Forall_forall. intros y _.
      apply inverter_size_interval_returns. left. exact Hne.
  - intros Hzero Htable.
    rewrite (inverter_expenditure_ok _ _ _ _ _ _ _ _ _ _ _ _
               Hinv Hlife Hstep Hcost Hdec Hrate Hyears Hnonneg).
    + rewrite sum_skipna_all_nan; [rewrite np_round2_zero; reflexivity|].
      intros year. unfold replacement_expenditure, inverter_size_interval.
      destruct (frame_max _) as [m|];
        destruct (decide (to_R step = 0%R)) as [_|H];
        try reflexivity; contradiction.
    + apply Forall_forall. intros y Hy.
      apply inverter_size_interval_returns. right.
      apply Hmem in Hy. destruct Hy as [Hy Hdiv].
      split; [exact Hpos|]. split; [lia | apply Htable; assumption].
  - intros Hzero (y & Hy & Hdiv & Hpast) (y' & Hy' & Hdiv' & Hwin).
    eapply inverter_expenditure_unsized; eauto.
    + apply Exists_exists. exists y. split; [apply Hmem; auto | exact Hpast].
    + apply Exists_exists. exists y'.
      split; [apply Hmem; auto | exact Hwin].
Qed.

Lemma inverter_expenditure_nothing_to_size_witness :
  _inverter_expenditure
    {[ value INVERTER :=
         Dict {[ LIFETIME := Int 10; SIZE_INCREMENT := Int 0;
                 COST := Int 200; COST_DECREASE := Int 2 ]};
       DISCOUNT_RATE := Num (Float 0.1) ]}
    {| max_years := 20 |} [2500%R] 0 10
  = Raise ZeroDivisionError.
Proof.
  apply (fun h1 h2 h3 h4 h5 h6 h7 =>
           proj2 (proj2 (inverter_expenditure_nothing_to_size
                           {[ value INVERTER :=
                                Dict {[ LIFETIME := Int 10;
                                        SIZE_INCREMENT := Int 0;
                                        COST := Int 200;
                                        COST_DECREASE := Int 2 ]};
                              DISCOUNT_RATE := Num (Float 0.1) ]}
                           {| max_years := 20 |} [2500%R] 0 10
                           {[ LIFETIME := Int 10; SIZE_INCREMENT := Int 0;
                              COST := Int 200; COST_DECREASE := Int 2 ]}
                           10 (Int 0) (Int 200) (Int 2) (Float 0.1)
                           h1 h2 h3 h4 h5 h6 h7))).
  - reflexivity.
  - reflexivity.
  - lia.
  - reflexivity.
  - reflexivity.
  - reflexivity.
  - reflexivity.
  - reflexivity.
  - exists 10. split; [simpl; lia|].
    split; [exists 1; reflexivity | simpl; lia].
  - exists 0. split; [simpl; lia|].
    split; [exists 0; reflexivity | lia].
Defined.

(** * Properties of the profile-generation utilities *)

(** ** Local time *)

Lemma np_split_parts {A : Type} (frame : list A) (index : Z) :
  exists j : nat,
    (j <= length frame)%nat /\
    np_split frame index = (take j frame, drop j frame) /\
    (0 <= index <= Z.of_nat (length frame) -> j = Z.to_nat index).
Proof.
  unfold np_split, py_slice. cbn -[Z.of_nat Z.max Z.min].
  set (n := Z.of_nat (length frame)).
  set (norm := if index <? 0 then Z.max 0 (index + n) else Z.min index n).
  assert (Hnorm : 0 <= norm <= n).
  { unfold norm. destruct (index <? 0) eqn:E.
    - apply Z.ltb_lt in E. lia.
    - apply Z.ltb_ge in E. lia. }
  exists (Z.to_nat norm). split; [lia|]. split.
  - assert (En : (if n <? 0 then Z.max 0 (n + n) else Z.min n n) = n).
    { destruct (n <? 0) eqn:E; [apply Z.ltb_lt in E|]; lia. }
    rewrite En, (Z.min_l 0 n) by lia.
    replace (Z.to_nat 0) with 0%nat by reflexivity. rewrite drop_0.
    f_equal.
    + f_equal. lia.
    + apply take_ge. rewrite length_drop. lia.
  - intros Hin. unfold norm.
    destruct (index <? 0) eqn:E.
    + apply Z.ltb_lt in E. lia.
    + f_equal. lia.
Qed.

Lemma local_time_rotation {A : Type} (data_utc : list A)
    (time_difference : R) :
  exists j : nat,
    (j <= length data_utc)%nat /\
    _get_profile_local_time data_utc time_difference
    = drop j data_utc ++ take j data_utc /\
    (0 < py_round time_difference <= Z.of_nat (length data_utc) ->
     j = (length data_utc - Z.to_nat (py_round time_difference))%nat) /\
    (- Z.of_nat (length data_utc) <= py_round time_difference < 0 ->
     j = Z.to_nat (- py_round time_difference)).
Proof.
  unfold _get_profile_local_time.
  set (k := py_round time_difference).
  destruct (0 <? k) eqn:Epos.
  - apply Z.ltb_lt in Epos.
    destruct (np_split_parts data_utc (Z.of_nat (length data_utc) - k))
      as (j & Hj & -> & Hin).
    exists j. split; [exact Hj|]. split; [reflexivity|].
    split; intros H; [rewrite Hin by lia; lia | lia].
  - apply Z.ltb_ge in Epos. destruct (k <? 0) eqn:Eneg.
    + apply Z.ltb_lt in Eneg.
      destruct (np_split_parts data_utc (Z.abs k)) as (j & Hj & -> & Hin).
      exists j. split; [exact Hj|]. split; [reflexivity|].
      split; intros H; [lia | rewrite Hin by lia; lia].
    + apply Z.ltb_ge in Eneg. exists 0%nat.
      split; [lia|]. split; [rewrite drop_0, take_0, app_nil_r; reflexivity|].
      split; intros H; lia.
Qed.

(** X22. The shift to local time loses nothing: for every frame and every
    time difference, the result of [_get_profile_local_time] has the rows of
    the frame, each as often, and as many of them; it is the frame cut at
    one of its rows with the two parts exchanged. *)
Theorem local_time_keeps_rows {A : Type} (data_utc : list A)
    (time_difference : R) :
  _get_profile_local_time data_utc time_difference ≡ₚ data_utc /\
  length (_get_profile_local_time data_utc time_difference)
  = length data_utc /\
  exists j : nat,
    _get_profile_local_time data_utc time_difference
    = drop j data_utc ++ take j data_utc.
Proof.
  destruct (local_time_rotation data_utc time_difference)
    as (j & Hj & E & _).
  assert (Hp : _get_profile_local_time data_utc time_difference
               ≡ₚ data_utc).
  { rewrite E, Permutation_app_comm. rewrite take_drop. reflexivity. }
  split; [exact Hp|]. split; [rewrite Hp; reflexivity|].
  exists j. exact E.
Qed.

Lemma py_round_IZR (k : Z) : py_round (IZR k) = k.
Proof.
  unfold py_round. rewrite <- (Int_part_spec (IZR k) k) by lra.
  destruct (decide (IZR k - IZR k < 1 / 2)%R) as [_|H];
    [reflexivity | exfalso; lra].
Qed.

(** X23. East of Greenwich the last hours of the UTC year come first, west
    of it the first hours go last: for a whole number [k] of hours and a
    frame of at least [k] rows, the local profile for the time difference
    [k > 0] is the last [k] rows followed by the others, so that its row [i]
    is the row [i - k] of the UTC profile for [i >= k]; for the time
    difference [- k] it is the rows from [k] on followed by the first
    [k]. *)
Theorem local_time_shift {A : Type} (data_utc : list A) (k : nat) :
  (0 < k <= length data_utc)%nat ->
  _get_profile_local_time data_utc (IZR (Z.of_nat k))
  = drop (length data_utc - k) data_utc
    ++ take (length data_utc - k) data_utc /\
  (forall i : nat,
     (k <= i < length data_utc)%nat ->
     _get_profile_local_time data_utc (IZR (Z.of_nat k)) !! i
     = data_utc !! (i - k)%nat) /\
  _get_profile_local_time data_utc (IZR (- Z.of_nat k))
  = drop k data_utc ++ take k data_utc.
Proof.
  intros Hk.
  assert (East : _get_profile_local_time data_utc (IZR (Z.of_nat k))
                 = drop (length data_utc - k) data_utc
                   ++ take (length data_utc - k) data_utc).
  { destruct (local_time_rotation data_utc (IZR (Z.of_nat k)))
      as (j & _ & E & Hj & _).
    rewrite py_round_IZR in Hj. rewrite E, Hj by lia.
    do 2 f_equal; lia. }
  split; [exact East|]. split.
  - intros i Hi. rewrite East.
    rewrite lookup_app_r by (rewrite length_drop; lia).
    rewrite length_drop, lookup_take_lt by lia. f_equal. lia.
  - destruct (local_time_rotation data_utc (IZR (- Z.of_nat k)))
      as (j & _ & E & _ & Hj).
    rewrite py_round_IZR in Hj. rewrite E, Hj by lia.
    do 2 f_equal; lia.
Qed.

Lemma local_time_shift_witness :
  _get_profile_local_time [1; 2; 3; 4; 5] (IZR (Z.of_nat 2))
  = drop (length [1; 2; 3; 4; 5] - 2) [1; 2; 3; 4; 5]
    ++ take (length [1; 2; 3; 4; 5] - 2) [1; 2; 3; 4; 5] /\
  (forall i : nat,
     (2 <= i < length [1; 2; 3; 4; 5])%nat ->
     _get_profile_local_time [1; 2; 3; 4; 5] (IZR (Z.of_nat 2)) !! i
     = [1; 2; 3; 4; 5] !! (i - 2)%nat) /\
  _get_profile_local_time [1; 2; 3; 4; 5] (IZR (- Z.of_nat 2))
  = drop 2 [1; 2; 3; 4; 5] ++ take 2 [1; 2; 3; 4; 5].
Proof.
  apply (local_time_shift [1; 2; 3; 4; 5] 2). simpl. lia.
Defined.

(** X24. Shifting back undoes the shift: for a whole number [k] of hours
    and a frame of at least [k] rows, the profile shifted by [k] and then by
    [- k] is the profile itself, and so is the profile shifted by [- k] and
    then by [k]. *)
Theorem local_time_round_trip {A : Type} (data_utc : list A) (k : nat) :
  (k <= length data_utc)%nat ->
  _get_profile_local_time
    (_get_profile_local_time data_utc (IZR (Z.of_nat k)))
    (IZR (- Z.of_nat k)) = data_utc /\
  _get_profile_local_time
    (_get_profile_local_time data_utc (IZR (- Z.of_nat k)))
    (IZR (Z.of_nat k)) = data_utc.
Proof.
  intros Hk. destruct k as [|k].
  { change (IZR (- Z.of_nat 0)) with (IZR (Z.of_nat 0)).
    assert (E : forall l : list A,
              _get_profile_local_time l (IZR (Z.of_nat 0)) = l).
    { intros l. unfold _get_profile_local_time.
      rewrite py_round_IZR. reflexivity. }
    rewrite !E. split; reflexivity. }
  destruct (local_time_rotation data_utc (IZR (Z.of_nat (S k))))
    as (j & _ & E & Hj & _).
  destruct (local_time_rotation data_utc (IZR (- Z.of_nat (S k))))
    as (j' & _ & E' & _ & Hj').
  rewrite py_round_IZR in Hj, Hj'.
  assert (Ej : j = (length data_utc - S k)%nat) by lia.
  assert (Ej' : j' = S k) by lia.
  clear Hj Hj'. subst j j'. rewrite E, E'. split.
  - destruct (local_time_rotation
                (drop (length data_utc - S k) data_utc
                 ++ take (length data_utc - S k) data_utc)
                (IZR (- Z.of_nat (S k)))) as (i & _ & -> & _ & Hi).
    rewrite py_round_IZR, length_app, length_drop, length_take in Hi.
    rewrite Hi by lia.
    replace (Z.to_nat (- - Z.of_nat (S k))) with (S k) by lia.
    rewrite drop_app_length', take_app_length'
      by (rewrite length_drop; lia).
    apply take_drop.
  - destruct (local_time_rotation
                (drop (S k) data_utc ++ take (S k) data_utc)
                (IZR (Z.of_nat (S k)))) as (i & _ & -> & Hi & _).
    rewrite py_round_IZR, length_app, length_drop, length_take in Hi.
    rewrite Hi by lia.
    replace (length data_utc - S k + S k `min` length data_utc
             - Z.to_nat (Z.of_nat (S k)))%nat
      with (length data_utc - S k)%nat by lia.
    rewrite drop_app_length', take_app_length'
      by (rewrite length_drop; lia).
    apply take_drop.
Qed.

Lemma local_time_round_trip_witness :
  _get_profile_local_time
    (_get_profile_local_time [1; 2; 3; 4; 5] (IZR (Z.of_nat 2)))
    (IZR (- Z.of_nat 2)) = [1; 2; 3; 4; 5] /\
  _get_profile_local_time
    (_get_profile_local_time [1; 2; 3; 4; 5] (IZR (- Z.of_nat 2)))
    (IZR (Z.of_nat 2)) = [1; 2; 3; 4; 5].
Proof.
  apply (local_time_round_trip [1; 2; 3; 4; 5] 2). simpl. lia.
Defined.

Lemma py_round_small (x : R) :
  (-1 / 2 <= x <= 1 / 2)%R -> py_round x = 0.
Proof.
  intros Hx. unfold py_round.
  destruct (Rlt_le_dec x 0) as [Hneg|Hpos].
  - rewrite <- (Int_part_spec x (-1)) by lra.
    destruct (decide (x - -1 < 1 / 2)%R) as [H|_]; [lra|].
    destruct (decide (1 / 2 < x - -1)%R) as [_|_]; reflexivity.
  - rewrite <- (Int_part_spec x 0) by lra.
    destruct (decide (x - 0 < 1 / 2)%R) as [_|_]; [reflexivity|].
    destruct (decide (1 / 2 < x - 0)%R) as [H|_]; [lra | reflexivity].
Qed.

Lemma py_round_half (k : Z) :
  py_round (IZR k + 1 / 2) = if Z.even k then k else k + 1.
Proof.
  unfold py_round. rewrite <- (Int_part_spec (IZR k + 1 / 2) k) by lra.
  destruct (decide (IZR k + 1 / 2 - IZR k < 1 / 2)%R) as [H|_]; [lra|].
  destruct (decide (1 / 2 < IZR k + 1 / 2 - IZR k)%R) as [H|_]; [lra|].
  reflexivity.
Qed.

(** X25. The time difference is rounded to a whole hour, a half hour to the
    even one: a difference of at most half an hour leaves the profile as it
    is, and a difference of [k + 1/2] hours shifts as [k] hours when [k] is
    even and as [k + 1] hours when it is odd. *)
Theorem local_time_rounds_to_even {A : Type} (data_utc : list A) :
  (forall time_difference : R,
     (-1 / 2 <= time_difference <= 1 / 2)%R ->
     _get_profile_local_time data_utc time_difference = data_utc) /\
  (forall k : Z,
     _get_profile_local_time data_utc (IZR k + 1 / 2)
     = _get_profile_local_time data_utc
         (IZR (if Z.even k then k else k + 1))).
Proof.
  split.
  - intros td Htd. unfold _get_profile_local_time.
    rewrite py_round_small by exact Htd. reflexivity.
  - intros k. unfold _get_profile_local_time.
    rewrite py_round_half, py_round_IZR. reflexivity.
Qed.

(** ** Leap days *)

Lemma drop_labels_ok {A : Type} (frame : list A) (start stop : Z) :
  0 <= start <= stop -> stop <= Z.of_nat (length frame) ->
  drop_labels frame start stop
  = Fetched (take (Z.to_nat start) frame ++ drop (Z.to_nat stop) frame).
Proof.
  intros Hstart Hstop. unfold drop_labels.
  rewrite bool_decide_eq_true_2; [reflexivity|].
  apply Forall_forall. intros label Hl. unfold py_range in Hl.
  apply elem_of_seqZ in Hl. lia.
Qed.

Lemma drop_labels_missing {A : Type} (frame : list A) (start stop : Z) :
  start < stop -> Z.of_nat (length frame) < stop ->
  drop_labels frame start stop = Failed LabelsNotFound.
Proof.
  intros Hstart Hstop. unfold drop_labels.
  rewrite bool_decide_eq_false_2; [reflexivity|].
  intros H. rewrite Forall_forall in H.
  specialize (H (stop - 1)). unfold py_range in H.
  rewrite elem_of_seqZ in H. lia.
Qed.

(** X26. A year whose number is a multiple of 4 loses the 24 rows of the
    29th of February: from a response of at least 1440 rows,
    [_get_profile_from_rn] returns the first 1416 rows followed by the rows
    from 1440 on, 24 rows fewer, and it raises [KeyError] on a shorter
    response; for any other year it returns the rows as they are. *)
Theorem leap_day_removed {A : Type} (data_frame : list A) (year : Z) :
  (year `mod` 4 = 0 ->
   (1440 <= length data_frame)%nat ->
   _get_profile_from_rn (Some data_frame) year
   = Fetched (take 1416 data_frame ++ drop 1440 data_frame) /\
   length (take 1416 data_frame ++ drop 1440 data_frame)
   = (length data_frame - 24)%nat) /\
  (year `mod` 4 = 0 ->
   (length data_frame < 1440)%nat ->
   _get_profile_from_rn (Some data_frame) year = Failed LabelsNotFound) /\
  (year `mod` 4 <> 0 ->
   _get_profile_from_rn (Some data_frame) year = Fetched data_frame).
Proof.
  unfold _get_profile_from_rn. split; [|split].
  - intros Hleap Hlen. apply Z.eqb_eq in Hleap. rewrite Hleap.
    split.
    + rewrite drop_labels_ok by (unfold FEB_29; lia). reflexivity.
    + rewrite length_app, length_take, length_drop. lia.
  - intros Hleap Hlen. apply Z.eqb_eq in Hleap. rewrite Hleap.
    apply drop_labels_missing; unfold FEB_29; lia.
  - intros Hcommon. apply Z.eqb_neq in Hcommon. rewrite Hcommon.
    reflexivity.
Qed.

(** X27. A year of data is 8760 hours in local time: from a response of
    8784 rows for a year whose number is a multiple of 4, and from one of
    8760 rows for any other year, [_get_profile_output] returns 8760 rows,
    whatever the time difference; and when the response is not JSON it
    raises [RenewablesNinjaError]. *)
Theorem profile_output_hours {A : Type} (time_difference : R)
    (data_frame : list A) (gen_year : Z) :
  Z.of_nat (length data_frame)
  = (if gen_year `mod` 4 =? 0 then 8784 else 8760) ->
  (exists profile,
      _get_profile_output time_difference (Some data_frame) gen_year
      = Fetched profile /\
      Z.of_nat (length profile) = 8760) /\
  _get_profile_output time_difference (@None (list A)) gen_year
  = Failed RenewablesNinjaError.
Proof.
  intros Hlen. split; [|reflexivity].
  unfold _get_profile_output, _get_profile_from_rn.
  destruct (gen_year `mod` 4 =? 0).
  - rewrite drop_labels_ok by (unfold FEB_29; lia).
    eexists. split; [reflexivity|].
    destruct (local_time_rotation
                (take (Z.to_nat FEB_29) data_frame
                 ++ drop (Z.to_nat (FEB_29 + 24)) data_frame)
                time_difference) as (j & Hj & -> & _).
    rewrite length_app, length_drop, length_take.
    rewrite length_app, length_take, length_drop in *.
    unfold FEB_29 in *. lia.
  - eexists. split; [reflexivity|].
    destruct (local_time_rotation data_frame time_difference)
      as (j & Hj & -> & _).
    rewrite length_app, length_drop, length_take. lia.
Qed.

Lemma profile_output_hours_witness :
  (exists profile,
      _get_profile_output 3 (Some (replicate (Z.to_nat 8760) tt)) 2014
      = Fetched profile /\
      Z.of_nat (length profile) = 8760) /\
  _get_profile_output 3 (@None (list unit)) 2014
  = Failed RenewablesNinjaError.
Proof.
  apply (profile_output_hours 3 (replicate (Z.to_nat 8760) tt) 2014).
  rewrite length_replicate. reflexivity.
Defined.

(** ** The total profile *)

Lemma read_years_ok {A : Type} (files : gmap string (list A))
    (dir prefix name : string) (start_year : Z) (year_data : Z -> list A)
    (indices : list Z) (output : list A) :
  Forall (fun i => files !! yearly_filename dir prefix name (start_year + i)
                   = Some (year_data i)) indices ->
  read_years files dir prefix name start_year indices output
  = Fetched (output ++ concat (map year_data indices)).
Proof.
  intros H. revert output.
  induction H as [|i indices Hi _ IH]; intros output; simpl.
  - rewrite app_nil_r. reflexivity.
  - unfold read_csv. rewrite Hi. rewrite IH, <- app_assoc. reflexivity.
Qed.

Lemma read_years_missing {A : Type} (files : gmap string (list A))
    (dir prefix name : string) (start_year : Z)
    (before after : list Z) (missing : Z) (output : list A) :
  Forall (fun i => is_Some (files !! yearly_filename dir prefix name
                                       (start_year + i))) before ->
  files !! yearly_filename dir prefix name (start_year + missing) = None ->
  read_years files dir prefix name start_year
    (before ++ missing :: after) output
  = Failed (FileNotFoundError
              (yearly_filename dir prefix name (start_year + missing))).
Proof.
  intros H Hmissing. revert output.
  induction H as [|i before [frame Hi] _ IH]; intros output; simpl.
  - unfold read_csv. rewrite Hmissing. reflexivity.
  - unfold read_csv at 1. rewrite Hi. apply IH.
Qed.

Lemma length_list_times {A : Type} (l : list A) (n : Z) :
  length (list_times l n) = (Z.to_nat n * length l)%nat.
Proof.
  unfold list_times. induction (Z.to_nat n) as [|k IH]; simpl;
    [reflexivity|].
  rewrite length_app, IH. reflexivity.
Qed.

Lemma length_concat_same {A B : Type} (f : B -> list A) (l : list B)
    (h : nat) :
  Forall (fun i => length (f i) = h) l ->
  length (concat (map f l)) = (length l * h)%nat.
Proof.
  induction 1 as [|i l Hi _ IH]; simpl; [reflexivity|].
  rewrite length_app, Hi, IH. reflexivity.
Qed.

Lemma total_profile_output_cached_lookup {A : Type}
    (files : gmap string (list A)) (generation_directory : string)
    (start_year num_years : Z) (profile_name profile_prefix : string)
    (cached : list A) :
  files !! total_filename generation_directory profile_prefix profile_name
             num_years = Some cached ->
  total_profile_output files generation_directory false start_year
    num_years profile_name profile_prefix
  = (Fetched cached, files).
Proof.
  intros H. unfold total_profile_output, read_csv.
  rewrite H. rewrite bool_decide_eq_true_2 by eauto. reflexivity.
Qed.

(** X28. An existing total file is the answer: when the file of the total
    profile exists and [regenerate] is false, [total_profile_output] returns
    the frame of that file and leaves the files as they are; no file of a
    year is opened, so none needs to exist. *)
Theorem total_profile_output_cached {A : Type}
    (files : gmap string (list A)) (generation_directory : string)
    (start_year num_years : Z) (profile_name profile_prefix : string)
    (cached : list A) :
  files !! total_filename generation_directory profile_prefix profile_name
             num_years = Some cached ->
  total_profile_output files generation_directory false start_year
    num_years profile_name profile_prefix
  = (Fetched cached, files).
Proof. apply total_profile_output_cached_lookup. Qed.

Lemma total_profile_output_cached_witness :
  total_profile_output
    ({[ "gen/solar_generation_20_years.csv" := [1; 2; 3] ]}
       : gmap string (list Z))
    "gen" false 2007 20 "solar" ""
  = (Fetched [1; 2; 3],
     {[ "gen/solar_generation_20_years.csv" := [1; 2; 3] ]}).
Proof.
  apply (total_profile_output_cached
           ({[ "gen/solar_generation_20_years.csv" := [1; 2; 3] ]}
              : gmap string (list Z))
           "gen" 2007 20 "solar" "" [1; 2; 3]).
  reflexivity.
Defined.

(** X29. The total profile is the first ten years at most, repeated: when
    the total file is to be made (it does not exist, or [regenerate] is
    true) and the files of the years [start_year], ...,
    [start_year + min 10 num_years - 1] exist, [total_profile_output]
    returns their frames in this order, the whole repeated
    [ceil (num_years / 10)] times, and writes it to the total file and to no
    other. When every year has [h] rows the result has
    [ceil (num_years / 10) * min 10 num_years * h] rows, which is
    [num_years * h] for [num_years <= 10]. *)
Theorem total_profile_output_built {A : Type}
    (files : gmap string (list A)) (generation_directory : string)
    (regenerate : bool) (start_year num_years : Z)
    (profile_name profile_prefix : string) (year_data : Z -> list A) :
  regenerate = true
  \/ files !! total_filename generation_directory profile_prefix
                profile_name num_years = None ->
  (forall i,
     0 <= i < Z.min 10 num_years ->
     files !! yearly_filename generation_directory profile_prefix
                profile_name (start_year + i) = Some (year_data i)) ->
  let total_output :=
    list_times (concat (map year_data (py_range 0 (Z.min 10 num_years))))
      (- ((- num_years) `div` 10)) in
  let files' :=
    <[total_filename generation_directory profile_prefix profile_name
        num_years := total_output]> files in
  total_profile_output files generation_directory regenerate start_year
    num_years profile_name profile_prefix
  = (Fetched total_output, files') /\
  (forall h : nat,
     (forall i, 0 <= i < Z.min 10 num_years -> length (year_data i) = h) ->
     Z.of_nat (length total_output)
     = Z.max 0 (- ((- num_years) `div` 10)) * Z.max 0 (Z.min 10 num_years)
       * Z.of_nat h) /\
  (0 <= num_years <= 10 ->
   total_output = concat (map year_data (py_range 0 num_years))).
Proof.
  intros Hmake Hyears total_output files'.
  assert (Hall : Forall
            (fun i => files !! yearly_filename generation_directory
                                 profile_prefix profile_name (start_year + i)
                      = Some (year_data i))
            (py_range 0 (Z.min 10 num_years))).
  { apply Forall_forall. intros i Hi. apply Hyears.
    unfold py_range in Hi. apply elem_of_seqZ in Hi. lia. }
  split; [|split].
  - unfold total_profile_output.
    assert (E : bool_decide
                  (is_Some (files !! total_filename generation_directory
                                       profile_prefix profile_name
                                       num_years))
                && negb regenerate = false).
    { destruct Hmake as [->|Hnone].
      - apply andb_false_r.
      - rewrite bool_decide_eq_false_2; [reflexivity|].
        rewrite Hnone. intros [? ?]. discriminate. }
    rewrite E. rewrite (read_years_ok _ _ _ _ _ year_data) by exact Hall.
    reflexivity.
  - intros h Hh. unfold total_output.
    rewrite length_list_times.
    rewrite (length_concat_same _ _ h).
    + rewrite length_py_range. lia.
    + apply Forall_forall. intros i Hi. apply Hh.
      unfold py_range in Hi. apply elem_of_seqZ in Hi. lia.
  - intros Hn. unfold total_output.
    rewrite Z.min_r by lia.
    destruct (Z.eq_dec num_years 0) as [->|Hne]; [reflexivity|].
    replace (- ((- num_years) `div` 10)) with 1.
    + unfold list_times. simpl. apply app_nil_r.
    + pose proof (Z.div_mod (- num_years) 10 ltac:(lia)).
      pose proof (Z.mod_pos_bound (- num_years) 10 ltac:(lia)). lia.
Qed.

Lemma total_profile_output_built_witness :
  let year_data := fun i : Z => if i =? 0 then [1; 2] else [3; 4] in
  let files : gmap string (list Z) :=
    {[ "gen/solar_generation_2007.csv" := [1; 2];
       "gen/solar_generation_2008.csv" := [3; 4] ]} in
  let total_output :=
    list_times (concat (map year_data (py_range 0 (Z.min 10 2))))
      (- ((- 2) `div` 10)) in
  let files' :=
    <[total_filename "gen" "" "solar" 2 := total_output]> files in
  total_profile_output files "gen" false 2007 2 "solar" ""
  = (Fetched total_output, files') /\
  (forall h : nat,
     (forall i, 0 <= i < Z.min 10 2 -> length (year_data i) = h) ->
     Z.of_nat (length total_output)
     = Z.max 0 (- ((- 2) `div` 10)) * Z.max 0 (Z.min 10 2) * Z.of_nat h) /\
  (0 <= 2 <= 10 ->
   total_output = concat (map year_data (py_range 0 2))).
Proof.
  apply (total_profile_output_built
           ({[ "gen/solar_generation_2007.csv" := [1; 2];
               "gen/solar_generation_2008.csv" := [3; 4] ]}
              : gmap string (list Z))
           "gen" false 2007 2 "solar" ""
           (fun i : Z => if i =? 0 then [1; 2] else [3; 4])).
  - right. reflexivity.
  - intros i Hi.
    assert (Ei : i = 0 \/ i = 1) by lia.
    destruct Ei as [-> | ->]; reflexivity.
Defined.

(** X30. A missing year stops the call before anything is written: when the
    total file is to be made and the file of one of the years to read does
    not exist, the files of the years before it existing,
    [total_profile_output] raises [FileNotFoundError] for that file and
    leaves the files as they are. *)
Theorem total_profile_output_missing_year {A : Type}
    (files : gmap string (list A)) (generation_directory : string)
    (regenerate : bool) (start_year num_years : Z)
    (profile_name profile_prefix : string) (missing : Z) :
  regenerate = true
  \/ files !! total_filename generation_directory profile_prefix
                profile_name num_years = None ->
  0 <= missing < Z.min 10 num_years ->
  (forall i,
     0 <= i < missing ->
     is_Some (files !! yearly_filename generation_directory profile_prefix
                         profile_name (start_year + i))) ->
  files !! yearly_filename generation_directory profile_prefix profile_name
             (start_year + missing) = None ->
  total_profile_output files generation_directory regenerate start_year
    num_years profile_name profile_prefix
  = (Failed (FileNotFoundError
               (yearly_filename generation_directory profile_prefix
                  profile_name (start_year + missing))),
     files).
Proof.
  intros Hmake Hmissing Hbefore Hnone. unfold total_profile_output.
  assert (E : bool_decide
                (is_Some (files !! total_filename generation_directory
                                     profile_prefix profile_name
                                     num_years))
              && negb regenerate = false).
  { destruct Hmake as [->|Hno].
    - apply andb_false_r.
    - rewrite bool_decide_eq_false_2; [reflexivity|].
      rewrite Hno. intros [? ?]. discriminate. }
  rewrite E. unfold py_range.
  replace (Z.min 10 num_years - 0)
    with (missing + (Z.min 10 num_years - missing)) by lia.
  rewrite seqZ_app by lia.
  rewrite (seqZ_cons (0 + missing)) by lia.
  replace (0 + missing) with missing by lia.
  rewrite read_years_missing; [reflexivity | | exact Hnone].
  apply Forall_forall. intros i Hi. apply elem_of_seqZ in Hi.
  apply Hbefore. lia.
Qed.

Lemma total_profile_output_missing_year_witness :
  total_profile_output
    ({[ "gen/solar_generation_2007.csv" := [1; 2] ]} : gmap string (list Z))
    "gen" false 2007 2 "solar" ""
  = (Failed (FileNotFoundError (yearly_filename "gen" "" "solar" (2007 + 1))),
     {[ "gen/solar_generation_2007.csv" := [1; 2] ]}).
Proof.
  apply (total_profile_output_missing_year
           ({[ "gen/solar_generation_2007.csv" := [1; 2] ]}
              : gmap string (list Z))
           "gen" false 2007 2 "solar" "" 1).
  - right. reflexivity.
  - lia.
  - intros i Hi. assert (i = 0) as -> by lia. eexists. reflexivity.
  - reflexivity.
Defined.
